(** * CORD-19 metadata dashboard: the cleaning pipeline, the year filter,
      the grouping views and the dataset fetcher

    A shallow embedding of [utils.py], [app.py] and [download_metadata.py].

    The working table is a pandas [DataFrame]; it is modelled row by row:
    an ordered list of column labels and a list of rows, each row a finite
    map from column label to cell.  Row labels (the index) are left out:
    every assignment of the code is between series of one and the same
    table, so alignment by label is alignment by position.  Python text is
    a list of Unicode code points.  Python exceptions are the [Raise]
    branch of [result].  Floating point appears once, in the mean of the
    summary; it is kept as an exact fraction, apart from not-a-number.

    Library functions whose behaviour the code relies on are modelled
    ([dropna], [fillna], [value_counts], [head], [mean], boolean indexing,
    [str.split]); those whose behaviour it does not constrain are
    parameters: the date parser and the CSV reader (class [Pandas]), the
    order the library's default sort gives to equal counts (class
    [Sorting]), the slider and the plotting calls (class [Frontend]).  What the
    process does to the outside (printing, starting the download script,
    calling the dataset host, writing the file) is a trace of events over
    an explicit world. *)

From stdpp Require Import gmap strings list fin_maps.
From Stdlib Require Import ZArith Lia Sorted.

Local Open Scope string_scope.
Local Open Scope Z_scope.
Local Open Scope list_scope.

(** ** Python values *)

(** A Python [str]: its code points. *)
Definition pystr := list N.

(** The code points of a literal (characters below 256). *)
Fixpoint py (s : string) : pystr :=
  match s with
  | EmptyString => []
  | String a s' => Ascii.N_of_ascii a :: py s'
  end.

(** [str.isspace] for one code point, the set [str.split()] separates on. *)
Definition isspace (c : N) : bool :=
  ((9 <=? c) && (c <=? 13) || (28 <=? c) && (c <=? 32) ||
   (c =? 133) || (c =? 160) || (c =? 5760) ||
   (8192 <=? c) && (c <=? 8202) || (c =? 8232) || (c =? 8233) ||
   (c =? 8239) || (c =? 8287) || (c =? 12288))%N.

(** [x.split()] with no separator: skip a run of whitespace, take the
    maximal run of other characters as one token, repeat.  With
    [cur = Some w] the scan is inside a token whose characters so far are
    [w] (last one first); with [cur = None] it is between tokens. *)
Fixpoint split_from (cur : option pystr) (s : pystr) : list pystr :=
  match s with
  | [] => match cur with Some w => [reverse w] | None => [] end
  | c :: s' =>
      if isspace c then
        match cur with
        | Some w => reverse w :: split_from None s'
        | None => split_from None s'
        end
      else
        match cur with
        | Some w => split_from (Some (c :: w)) s'
        | None => split_from (Some [c]) s'
        end
  end.

Definition split (s : pystr) : list pystr := split_from None s.

(** Exceptions the modelled code can raise. *)
Inductive exn :=
| KeyError (labels : list string)
| AttributeError
| TypeError
| ValueError
| FileNotFoundError
| ParserError
| OSError
| BadZipFile
| KaggleApiError.

Inductive result (A : Type) :=
| Ok (a : A)
| Raise (e : exn).
Arguments Ok {A} a.
Arguments Raise {A} e.

Global Instance result_ret : MRet result := λ A a, Ok a.
Global Instance result_bind : MBind result := λ A B k m,
  match m with
  | Ok a => k a
  | Raise e => Raise e
  end.

Fixpoint rmap {A B} (f : A → result B) (l : list A) : result (list B) :=
  match l with
  | [] => Ok []
  | a :: l' => b ← f a; bs ← rmap f l'; Ok (b :: bs)
  end.

(** ** Cells, rows and tables *)

(** One cell of a table.  [Time t] is a timestamp, [t] nanoseconds since
    1970-01-01; [NaN] and [NaT] are the two missing values. *)
Inductive cell :=
| NaN
| NaT
| Str (s : pystr)
| Num (z : Z)
| Time (t : Z).

Global Instance cell_eq_dec : EqDecision cell.
Proof. solve_decision. Defined.

Definition isna (c : cell) : bool :=
  match c with
  | NaN | NaT => true
  | _ => false
  end.

Record DataFrame := mkDataFrame {
  columns : list string;
  rows : list (gmap string cell)
}.

(** A label missing from a row reads as [NaN]. *)
Definition at_label (c : string) (r : gmap string cell) : cell :=
  default NaN (r !! c).

(** [len(df)] and [df.shape]. *)
Definition len (df : DataFrame) : nat := length (rows df).
Definition shape (df : DataFrame) : nat * nat :=
  (length (rows df), length (columns df)).

Definition has_column (df : DataFrame) (c : string) : bool :=
  bool_decide (c ∈ columns df).

(** [df[c]]: the column as a list of cells, [KeyError] without it. *)
Definition getitem (df : DataFrame) (c : string) : result (list cell) :=
  if has_column df c then Ok (map (at_label c) (rows df))
  else Raise (KeyError [c]).

(** [df[c] = values]: the column is replaced where it stands, or appended
    as the last column. *)
Definition setitem (df : DataFrame) (c : string) (values : list cell)
  : DataFrame :=
  {| columns := if has_column df c then columns df else columns df ++ [c];
     rows := zip_with (λ r v, <[c := v]> r) (rows df) values |}.

(** The row has a value in every label of [subset]. *)
Definition complete_on (subset : list string) (r : gmap string cell) : bool :=
  forallb (λ c, negb (isna (at_label c r))) subset.

(** [df.dropna(subset=...)]. *)
Definition dropna (subset : list string) (df : DataFrame) : result DataFrame :=
  match List.filter (λ c, negb (has_column df c)) subset with
  | [] => Ok {| columns := columns df;
                rows := List.filter (complete_on subset) (rows df) |}
  | missing => Raise (KeyError missing)
  end.

(** [series.fillna(v)]. *)
Definition fillna (v : cell) (col : list cell) : list cell :=
  map (λ c, if isna c then v else c) col.

(** ** Timestamps *)

Definition ns_per_day : Z := 86400 * 1000000000.

(** [.dt.year]: the calendar year (proleptic Gregorian) of a timestamp. *)
Definition year_of_ns (t : Z) : Z :=
  let days := t `div` ns_per_day in
  let z := days + 719468 in
  let era := z `div` 146097 in
  let doe := z - era * 146097 in
  let yoe := (doe - doe `div` 1460 + doe `div` 36524 - doe `div` 146096) `div` 365 in
  let doy := doe - (365 * yoe + yoe `div` 4 - yoe `div` 100) in
  let mp := (5 * doy + 2) `div` 153 in
  let m := if mp <? 10 then mp + 3 else mp - 9 in
  yoe + era * 400 + (if m <=? 2 then 1 else 0).

(** [series.dt.year]; the accessor exists on datetime values only. *)
Definition dt_year (col : list cell) : result (list cell) :=
  rmap (λ c, match c with
             | Time t => Ok (Num (year_of_ns t))
             | NaT => Ok NaN
             | _ => Raise AttributeError
             end) col.

(** ** The library functions that are parameters

    [pd.to_datetime] and [pd.read_csv] are not part of the repository.
    [to_datetime] chooses how to read the column from the column as a whole
    and then reads cell by cell; both steps are parameters.  [read_csv]
    turns the bytes of a file into a table or raises; [nrows] is its
    optional row limit. *)
Class Pandas := {
  dt_format : Type;
  guess_datetime_format : list cell → dt_format;
  parse_datetime : dt_format → cell → option Z;
  read_csv : option nat → list Byte.byte → result DataFrame
}.

(** ** Diagnostics

    What the code prints, with the numbers it interpolates. *)
Inductive message :=
(* utils.py *)
| MsgDownloading
| MsgDownloadedSuccessfully
| MsgDownloadFailed
| MsgErrorRunningScript
| MsgAlreadyExistsSkipping
| MsgDropped (n : nat)
| MsgFinalShape (shape : nat * nat)
| MsgYearRange (lo hi : option Z)
(* download_metadata.py *)
| MsgKaggleNotInstalled
| MsgAlreadyInDirectory
| MsgFileSize (bytes : nat)
| MsgNotFoundStarting
| MsgAuthenticated
| MsgAuthenticationFailed
| MsgCreatedTemporaryDirectory
| MsgDownloadingDataset
| MsgNoZipFile
| MsgDownloadedArchive (name : string)
| MsgExtracting
| MsgNotInArchive (names : list string)
| MsgFoundMetadataFile (name : string)
| MsgExtracted
| MsgSuccess (bytes : nat)
| MsgFileContains (ncolumns : nat) (sample : list string)
| MsgAppearsValid
| MsgErrorDuringDownload
| MsgFailedToExtract
| MsgBanner
| MsgWorkingDirectory
| MsgDownloadCompleted
| MsgDownloadFailedHints.

(** A computation that prints: the lines printed so far and the outcome. *)
Inductive logged (A : Type) :=
| Logged (log : list message) (r : result A).
Arguments Logged {A} log r.

Global Instance logged_ret : MRet logged := λ A a, Logged [] (Ok a).
Global Instance logged_bind : MBind logged := λ A B k m,
  match m with
  | Logged l1 (Ok a) =>
      match k a with
      | Logged l2 r => Logged (l1 ++ l2) r
      end
  | Logged l1 (Raise e) => Logged l1 (Raise e)
  end.

Definition say (m : message) : logged unit := Logged [m] (Ok tt).
Definition lift {A} (r : result A) : logged A := Logged [] r.

(** [series.min()] / [series.max()] of an integer column; [None] is the
    [nan] of an empty column. *)
Definition series_min (col : list cell) : option Z :=
  match omap (λ c, match c with Num z => Some z | _ => None end) col with
  | [] => None
  | z :: zs => Some (foldr Z.min z zs)
  end.

Definition series_max (col : list cell) : option Z :=
  match omap (λ c, match c with Num z => Some z | _ => None end) col with
  | [] => None
  | z :: zs => Some (foldr Z.max z zs)
  end.

Section Cleaner.
Context `{Pandas}.

(** [pd.to_datetime(col, errors='coerce')]: what does not parse is [NaT]. *)
Definition to_datetime_coerce (col : list cell) : list cell :=
  let fmt := guess_datetime_format col in
  map (λ c, match parse_datetime fmt c with
            | Some t => Time t
            | None => NaT
            end) col.

(** The lambda of line 56: [len(x.split())]. *)
Definition word_count (c : cell) : result cell :=
  match c with
  | Str s => Ok (Num (Z.of_nat (length (split s))))
  | _ => Raise AttributeError
  end.

(** Lines 44-61 of [load_and_clean_data]: the table read from the file is
    cleaned, two diagnostics are printed. *)
Definition clean_table (df : DataFrame) : logged DataFrame :=
  let original_size := len df in
  df1 ← lift (dropna ["title"; "publish_time"] df);
  _ ← say (MsgDropped (original_size - len df1));
  pt ← lift (getitem df1 "publish_time");
  let df2 := setitem df1 "publish_time" (to_datetime_coerce pt) in
  df3 ← lift (dropna ["publish_time"] df2);
  pt3 ← lift (getitem df3 "publish_time");
  years ← lift (dt_year pt3);
  let df4 := setitem df3 "year" years in
  abstract ← lift (getitem df4 "abstract");
  counts ← lift (rmap word_count (fillna (Str []) abstract));
  let df5 := setitem df4 "abstract_word_count" counts in
  _ ← say (MsgFinalShape (shape df5));
  year ← lift (getitem df5 "year");
  _ ← say (MsgYearRange (series_min year) (series_max year));
  mret df5.

End Cleaner.

(** ** The year filter ([app.py], lines 14, 24, 34, 43 and 85) *)

(** [series >= a] and [series <= b]: a missing value compares false, text
    against a number is a [TypeError]. *)
Definition compare_scalar (test : Z → bool) (col : list cell)
  : result (list bool) :=
  rmap (λ c, match c with
             | Num z => Ok (test z)
             | NaN | NaT => Ok false
             | Str _ | Time _ => Raise TypeError
             end) col.

Definition ge_scalar (col : list cell) (a : Z) := compare_scalar (λ z, a <=? z) col.
Definition le_scalar (col : list cell) (b : Z) := compare_scalar (λ z, z <=? b) col.

(** [m1 & m2] on boolean series. *)
Definition mask_and (m1 m2 : list bool) : list bool := zip_with andb m1 m2.

(** [rows[mask]]: the rows whose mask entry is [True], in their order. *)
Fixpoint select {A} (mask : list bool) (l : list A) : list A :=
  match mask, l with
  | b :: mask', x :: l' => if b then x :: select mask' l' else select mask' l'
  | _, _ => []
  end.

(** [df[mask]]. *)
Definition boolean_index (df : DataFrame) (mask : list bool) : DataFrame :=
  {| columns := columns df; rows := select mask (rows df) |}.

(** [df[(df['year'] >= year_range[0]) & (df['year'] <= year_range[1])]]. *)
Definition filter_by_year (df : DataFrame) (min_year max_year : Z)
  : result DataFrame :=
  y1 ← getitem df "year";
  m1 ← ge_scalar y1 min_year;
  y2 ← getitem df "year";
  m2 ← le_scalar y2 max_year;
  Ok (boolean_index df (mask_and m1 m2)).

(** ** Counting values ([Series.value_counts]) *)

(** The hash table of counts keeps its keys in the order they were first
    seen: a key already present has its count incremented where it stands,
    a new key is appended. *)
Fixpoint bump (k : cell) (tbl : list (cell * nat)) : list (cell * nat) :=
  match tbl with
  | [] => [(k, 1%nat)]
  | (k', n) :: tbl' =>
      if decide (k = k') then (k', S n) :: tbl' else (k', n) :: bump k tbl'
  end.

Definition count_groups (col : list cell) : list (cell * nat) :=
  fold_left (λ tbl k, bump k tbl) col [].

(** [sort_values(ascending=False)] on the counts, as [value_counts] calls
    it: larger counts first.  [value_counts] passes no [kind], so the sort
    is the library's default, which promises no order among equal counts.
    Where the library puts an entry among those of its count is therefore
    a parameter: [tie_rank s e] is the rank of [e] among the entries of
    the series [s] with the same count, lower ranks first; entries of
    the same count and rank keep the order of the series.  Every
    arrangement of the series with larger counts first is the one of some
    [tie_rank], the position of each entry in that arrangement
    ([every_arrangement_is_a_sort]). *)
Class Sorting := {
  tie_rank : list (cell * nat) → cell * nat → nat
}.

(** [comes_after rank e e']: [e] belongs after [e'], by count, then by
    rank. *)
Definition comes_after (rank : cell * nat → nat) (e e' : cell * nat) : bool :=
  (e.2 <? e'.2)%nat || ((e.2 =? e'.2)%nat && (rank e' <? rank e)%nat).

Fixpoint insert_desc (rank : cell * nat → nat) (e : cell * nat)
    (l : list (cell * nat)) : list (cell * nat) :=
  match l with
  | [] => [e]
  | e' :: l' =>
      if comes_after rank e e' then e' :: insert_desc rank e l'
      else e :: e' :: l'
  end.

Fixpoint sort_desc (rank : cell * nat → nat) (l : list (cell * nat))
  : list (cell * nat) :=
  match l with
  | [] => []
  | e :: l' => insert_desc rank e (sort_desc rank l')
  end.

(** A sort that keeps entries of equal count in the order they have in
    the series ranks them all alike. *)
Definition keeps_ties `{Sorting} (s : list (cell * nat)) : Prop :=
  ∀ e e', tie_rank s e = tie_rank s e'.

(** Where [e] stands in [s]: the rank that makes [s] itself the
    arrangement. *)
Fixpoint index_of (e : cell * nat) (s : list (cell * nat)) : nat :=
  match s with
  | [] => 0
  | x :: s' => if decide (x = e) then 0 else S (index_of e s')
  end.

Section Counting.
Context `{Sorting}.

Definition sort_values_desc (s : list (cell * nat)) : list (cell * nat) :=
  sort_desc (tie_rank s) s.

(** [series.value_counts(dropna=...)]; the calls of [app.py] pass nothing,
    so [dropna] has its default, [True]: missing values are not counted. *)
Definition value_counts_with (dropna : bool) (col : list cell)
  : list (cell * nat) :=
  let values := if dropna then List.filter (λ c, negb (isna c)) col else col in
  sort_values_desc (count_groups values).

Definition value_counts (col : list cell) : list (cell * nat) :=
  value_counts_with true col.

End Counting.

(** [series.head(n)]. *)
Definition head {A} (n : nat) (l : list A) : list A := take n l.
Global Arguments head : simpl never.

(** ** The views of [app.py]

    Each view returns what it hands to the plotting library. *)

Section GroupingViews.
Context `{Sorting}.

(** [plot_top_journals], lines 24-25. *)
Definition plot_top_journals (df : DataFrame) (year_range : Z * Z)
  : result (list (cell * nat)) :=
  filtered ← filter_by_year df year_range.1 year_range.2;
  journal ← getitem filtered "journal";
  Ok (head 10 (value_counts journal)).

(** [plot_source_distribution], lines 43-44. *)
Definition plot_source_distribution (df : DataFrame) (year_range : Z * Z)
  : result (list (cell * nat)) :=
  filtered ← filter_by_year df year_range.1 year_range.2;
  source ← getitem filtered "source_x";
  Ok (value_counts source).

End GroupingViews.

(** A Python float as far as the summary needs it: not-a-number, or a
    value, kept exact as a fraction. *)
Inductive pyfloat :=
| FNaN
| FVal (num : Z) (den : positive).

(** [series.mean()]: missing values are skipped; the mean of no values is
    NaN (no exception). *)
Fixpoint numeric_values (col : list cell) : result (list Z) :=
  match col with
  | [] => Ok []
  | Num z :: col' => zs ← numeric_values col'; Ok (z :: zs)
  | NaN :: col' | NaT :: col' => numeric_values col'
  | _ :: _ => Raise TypeError
  end.

Definition mean (col : list cell) : result pyfloat :=
  zs ← numeric_values col;
  match zs with
  | [] => Ok FNaN
  | _ :: _ => Ok (FVal (foldr Z.add 0 zs) (Pos.of_nat (length zs)))
  end.

(** What the summary panel writes (lines 90-91). *)
Inductive summary_line :=
| TotalPapers (n : nat)
| AverageWordCount (x : pyfloat).

Definition summary_statistics (filtered_data : DataFrame)
  : result (list summary_line) :=
  let total := len filtered_data in
  awc ← getitem filtered_data "abstract_word_count";
  avg ← mean awc;
  Ok [TotalPapers total; AverageWordCount avg].

(** [df['year'].min()] and [.max()] as [main] uses them on line 69:
    [int(nan)] on an empty table is a [ValueError]. *)
Definition int_min_max (col : list cell) : result (Z * Z) :=
  zs ← numeric_values col;
  match zs with
  | [] => Raise ValueError
  | z :: zs' => Ok (foldr Z.min z zs', foldr Z.max z zs')
  end.

Definition year_span (df : DataFrame) : result (Z * Z) :=
  y ← getitem df "year";
  int_min_max y.

(** ** The world outside the process

    The working directory holds at most one file of interest,
    [metadata.csv].  The rest of the record is what the environment will
    answer when asked: whether a Python child process starts, whether the
    script's imports succeed, whether the credentials are accepted, and
    what the download leaves in the temporary directory. *)
Record archive := mkArchive {
  zip_name : string;
  (** [None]: the file is not a readable zip archive *)
  zip_members : option (list (string * list Byte.byte))
}.

Inductive download_outcome :=
| DownloadRaises
| DownloadLeaves (zip_files : list archive).

Record World := mkWorld {
  metadata_csv : option (list Byte.byte);
  python_starts : bool;
  kaggle_installed : bool;
  pandas_installed : bool;
  kaggle_credentials : bool;
  kaggle_download : download_outcome
}.

(** What a run does that can be observed from outside. *)
Inductive event :=
| Print (m : message)
| RunSubprocess
| KaggleAuthenticate
| KaggleDownloadFiles
| WriteMetadata (content : list Byte.byte).

Inductive outcome (A : Type) :=
| Outcome (trace : list event) (w : World) (r : result A).
Arguments Outcome {A} trace w r.

Definition IO (A : Type) : Type := World → outcome A.

Global Instance IO_ret : MRet IO := λ A a w, Outcome [] w (Ok a).
Global Instance IO_bind : MBind IO := λ A B k m w,
  match m w with
  | Outcome t1 w1 (Ok a) =>
      match k a w1 with
      | Outcome t2 w2 r => Outcome (t1 ++ t2) w2 r
      end
  | Outcome t1 w1 (Raise e) => Outcome t1 w1 (Raise e)
  end.

Definition emit_event (e : event) : IO unit := λ w, Outcome [e] w (Ok tt).
Definition print (m : message) : IO unit := emit_event (Print m).
Definition raise {A} (e : exn) : IO A := λ w, Outcome [] w (Raise e).
Definition ask {A} (f : World → A) : IO A := λ w, Outcome [] w (Ok (f w)).

(** [try: m except Exception as e: handler e]. *)
Definition try_except {A} (m : IO A) (handler : exn → IO A) : IO A := λ w,
  match m w with
  | Outcome t1 w1 (Ok a) => Outcome t1 w1 (Ok a)
  | Outcome t1 w1 (Raise e) =>
      match handler e w1 with
      | Outcome t2 w2 r => Outcome (t1 ++ t2) w2 r
      end
  end.

(** A computation that prints, run in the world: its lines are printed. *)
Definition emit {A} (m : logged A) : IO A := λ w,
  match m with
  | Logged log r => Outcome (map Print log) w r
  end.

Definition is_print (e : event) : bool :=
  match e with
  | Print _ => true
  | _ => false
  end.

(** [capture_output=True]: what the child prints does not reach the
    terminal; what it does to the world stays done. *)
Definition capture_output {A} (m : IO A) : IO A := λ w,
  match m w with
  | Outcome t w1 r => Outcome (List.filter (λ e, negb (is_print e)) t) w1 r
  end.

(** [os.path.exists('metadata.csv')] and [os.path.getsize]. *)
Definition path_exists : IO bool :=
  ask (λ w, match metadata_csv w with Some _ => true | None => false end).

Definition getsize : IO nat := λ w,
  match metadata_csv w with
  | Some content => Outcome [] w (Ok (length content))
  | None => Outcome [] w (Raise FileNotFoundError)
  end.

(** [open('metadata.csv', 'wb')] and the copy into it. *)
Definition write_metadata (content : list Byte.byte) : IO unit := λ w,
  Outcome [WriteMetadata content]
    {| metadata_csv := Some content;
       python_starts := python_starts w;
       kaggle_installed := kaggle_installed w;
       pandas_installed := pandas_installed w;
       kaggle_credentials := kaggle_credentials w;
       kaggle_download := kaggle_download w |} (Ok tt).

(** [KaggleApi(); api.authenticate()]. *)
Definition kaggle_authenticate : IO unit :=
  _ ← emit_event KaggleAuthenticate;
  accepted ← ask kaggle_credentials;
  if accepted : bool then mret tt else raise KaggleApiError.

(** [api.dataset_download_files(...)] followed by the glob for [*.zip]. *)
Definition kaggle_dataset_download_files : IO (list archive) :=
  _ ← emit_event KaggleDownloadFiles;
  got ← ask kaggle_download;
  match got with
  | DownloadRaises => raise KaggleApiError
  | DownloadLeaves zip_files => mret zip_files
  end.

(** [f.endswith(suffix)]. *)
Definition endswith (f suffix : string) : bool :=
  let n := String.length f in
  let k := String.length suffix in
  (k <=? n)%nat && String.eqb (String.substring (n - k) k f) suffix.

(** [zip_ref.open(name)]: the archive's name table keeps, for a name that
    occurs more than once, the entry listed last. *)
Fixpoint zip_open (members : list (string * list Byte.byte)) (name : string)
  : option (list Byte.byte) :=
  match members with
  | [] => None
  | (n, content) :: members' =>
      match zip_open members' name with
      | Some later => Some later
      | None => if String.eqb n name then Some content else None
      end
  end.

Section Fetcher.
Context `{Pandas}.

(** ** [download_metadata.py] *)

(** Lines 87-106: inside the opened archive. *)
Definition extract_metadata (members : list (string * list Byte.byte))
  : IO bool :=
  let file_list := map fst members in
  let metadata_files := List.filter (λ f, endswith f "metadata.csv") file_list in
  match metadata_files with
  | [] =>
      _ ← print (MsgNotInArchive (take 10 file_list));
      mret false
  | metadata_in_zip :: _ =>
      _ ← print (MsgFoundMetadataFile metadata_in_zip);
      match zip_open members metadata_in_zip with
      | None => raise (KeyError [metadata_in_zip])
      | Some source =>
          _ ← write_metadata source;
          _ ← print MsgExtracted;
          mret true
      end
  end.

(** Lines 109-125: the check of the extracted file. *)
Definition verify_extracted : IO bool :=
  found ← path_exists;
  if found : bool then
    size ← getsize;
    _ ← print (MsgSuccess size);
    with_pandas ← ask pandas_installed;
    _ ← (if with_pandas : bool then
           content ← ask metadata_csv;
           match content with
           | None => raise FileNotFoundError
           | Some bytes =>
               match read_csv (Some 3%nat) bytes with
               | Ok df =>
                   print (MsgFileContains (length (columns df))
                                          (take 5 (columns df)))
               | Raise e => raise e
               end
           end
         else print MsgAppearsValid);
    mret true
  else
    _ ← print MsgFailedToExtract;
    mret false.

(** Lines 63-129: the body of the [try] inside the temporary directory. *)
Definition download_and_extract : IO bool :=
  _ ← print MsgDownloadingDataset;
  zip_files ← kaggle_dataset_download_files;
  match zip_files with
  | [] =>
      _ ← print MsgNoZipFile;
      mret false
  | zip_path :: _ =>
      _ ← print (MsgDownloadedArchive (zip_name zip_path));
      _ ← print MsgExtracting;
      match zip_members zip_path with
      | None => raise BadZipFile
      | Some members =>
          extracted ← extract_metadata members;
          if extracted : bool then verify_extracted else mret false
      end
  end.

Definition download_metadata_only : IO bool :=
  found ← path_exists;
  if found : bool then
    _ ← print MsgAlreadyInDirectory;
    size ← getsize;
    _ ← print (MsgFileSize size);
    mret true
  else
    _ ← print MsgNotFoundStarting;
    authenticated ←
      try_except (_ ← kaggle_authenticate;
                  _ ← print MsgAuthenticated;
                  mret true)
                 (λ _, _ ← print MsgAuthenticationFailed;
                       mret false);
    if authenticated : bool then
      _ ← print MsgCreatedTemporaryDirectory;
      try_except download_and_extract
                 (λ _, _ ← print MsgErrorDuringDownload;
                       mret false)
    else mret false.

(** [main] of the script. *)
Definition script_main : IO unit :=
  _ ← print MsgBanner;
  _ ← print MsgWorkingDirectory;
  success ← download_metadata_only;
  if success : bool then print MsgDownloadCompleted
  else print MsgDownloadFailedHints.

(** The script run as a program, with its exit status: 1 when the import
    of the Kaggle client fails (line 26) or an exception escapes, else 0. *)
Definition download_metadata_py : IO Z :=
  importable ← ask kaggle_installed;
  if importable : bool then
    try_except (_ ← script_main; mret 0) (λ _, mret 1)
  else
    _ ← print MsgKaggleNotInstalled;
    mret 1.

(** ** [utils.py] *)

(** [subprocess.run([sys.executable, 'download_metadata.py'],
    capture_output=True, text=True)], returning the status. *)
Definition subprocess_run : IO Z :=
  _ ← emit_event RunSubprocess;
  starts ← ask python_starts;
  if starts : bool then capture_output download_metadata_py
  else raise OSError.

Definition download_dataset : IO bool :=
  found ← path_exists;
  if negb found then
    _ ← print MsgDownloading;
    try_except (returncode ← subprocess_run;
                if returncode =? 0 then
                  _ ← print MsgDownloadedSuccessfully;
                  mret true
                else
                  _ ← print MsgDownloadFailed;
                  mret false)
               (λ _, _ ← print MsgErrorRunningScript;
                     mret false)
  else
    _ ← print MsgAlreadyExistsSkipping;
    mret true.

(** [pd.read_csv('metadata.csv', low_memory=False)]. *)
Definition read_metadata_csv : IO DataFrame := λ w,
  match metadata_csv w with
  | None => Outcome [] w (Raise FileNotFoundError)
  | Some bytes => Outcome [] w (read_csv None bytes)
  end.

Definition load_and_clean_data : IO (option DataFrame) :=
  ok ← download_dataset;
  if negb ok then mret None
  else
    df ← read_metadata_csv;
    df5 ← emit (clean_table df);
    mret (Some df5).

End Fetcher.

(** * Specification-side definitions *)

(** ** Whitespace tokens *)

(** A token starts at every character that is not whitespace and is the
    first of the text or follows a whitespace character.  The number of
    whitespace-delimited tokens is the number of such places. *)
Fixpoint token_starts (after_space : bool) (s : pystr) : nat :=
  match s with
  | [] => 0%nat
  | c :: s' =>
      ((if after_space && negb (isspace c) then 1 else 0)
       + token_starts (isspace c) s')%nat
  end.

Definition token_count (s : pystr) : nat := token_starts true s.

(** ** What [clean_table] computes, pass by pass *)

Definition time_of (c : cell) : Z :=
  match c with Time t => t | _ => 0 end.

(** The text of an abstract cell, with a missing one read as empty. *)
Definition text_of (c : cell) : pystr :=
  match c with Str s => s | _ => [] end.

(** [df.columns] after [df[c] = ...]. *)
Definition add_column (cols : list string) (c : string) : list string :=
  if bool_decide (c ∈ cols) then cols else cols ++ [c].

Definition text_or_missing (c : cell) : Prop :=
  isna c = true ∨ ∃ s, c = Str s.

Section CleanerPasses.
Context `{Pandas}.

(** Rows left by the first pass (line 45). *)
Definition first_pass (raw : DataFrame) : list (gmap string cell) :=
  List.filter (complete_on ["title"; "publish_time"]) (rows raw).

(** The reading of dates chosen for the column that line 49 parses. *)
Definition chosen_format (raw : DataFrame) : dt_format :=
  guess_datetime_format (map (at_label "publish_time") (first_pass raw)).

Definition parsed (raw : DataFrame) (c : cell) : cell :=
  match parse_datetime (chosen_format raw) c with
  | Some t => Time t
  | None => NaT
  end.

Definition reparse (raw : DataFrame) (r : gmap string cell)
  : gmap string cell :=
  <["publish_time" := parsed raw (at_label "publish_time" r)]> r.

(** Rows left by the second pass (line 50), dates already parsed. *)
Definition second_pass (raw : DataFrame) : list (gmap string cell) :=
  List.filter (complete_on ["publish_time"]) (map (reparse raw) (first_pass raw)).

Definition with_year (r : gmap string cell) : gmap string cell :=
  <["year" := Num (year_of_ns (time_of (at_label "publish_time" r)))]> r.

Definition with_word_count (r : gmap string cell) : gmap string cell :=
  <["abstract_word_count" :=
      Num (Z.of_nat (length (split (text_of (at_label "abstract" r)))))]> r.

End CleanerPasses.

(** ** A library instance and a world to run the code on

    The theorems below hold for every instance of [Pandas].  To run the
    code on concrete tables, this instance reads dates written
    [YYYY-MM-DD] and reads any non-empty file as the three-row table of
    the specification's scenario. *)
Module Demo.

Definition digit (c : N) : option Z :=
  if ((48 <=? c) && (c <=? 57))%N then Some (Z.of_N c - 48) else None.

Definition is_leap (y : Z) : bool :=
  (y mod 4 =? 0) && (negb (y mod 100 =? 0) || (y mod 400 =? 0)).

Definition days_in_month (y m : Z) : Z :=
  if m =? 2 then (if is_leap y then 29 else 28)
  else if (m =? 4) || (m =? 6) || (m =? 9) || (m =? 11) then 30 else 31.

(** Days from 1970-01-01 to the given civil date. *)
Definition days_from_civil (y m d : Z) : Z :=
  let y' := if m <=? 2 then y - 1 else y in
  let era := y' `div` 400 in
  let yoe := y' - era * 400 in
  let mp := if 2 <? m then m - 3 else m + 9 in
  let doy := (153 * mp + 2) `div` 5 + d - 1 in
  let doe := yoe * 365 + yoe `div` 4 - yoe `div` 100 + doy in
  era * 146097 + doe - 719468.

Definition parse_iso_date (c : cell) : option Z :=
  match c with
  | Str [y1; y2; y3; y4; 45%N; m1; m2; 45%N; d1; d2] =>
      a ← digit y1; b ← digit y2; c ← digit y3; d ← digit y4;
      e ← digit m1; f ← digit m2; g ← digit d1; h ← digit d2;
      let y := 1000 * a + 100 * b + 10 * c + d in
      let m := 10 * e + f in
      let dd := 10 * g + h in
      if (1 <=? m) && (m <=? 12) && (1 <=? dd) && (dd <=? days_in_month y m)
      then Some (days_from_civil y m dd * ns_per_day)
      else None
  | _ => None
  end.

Definition record (fields : list (string * cell)) : gmap string cell :=
  list_to_map fields.

Definition scenario : DataFrame :=
  {| columns := ["title"; "publish_time"; "abstract"; "journal"; "source_x"];
     rows :=
       [ record [("title", Str (py "A")); ("publish_time", Str (py "2020-01-15"));
                 ("abstract", Str (py "x y z")); ("journal", NaN);
                 ("source_x", Str (py "PMC"))];
         record [("title", NaN); ("publish_time", Str (py "2019-05-01"));
                 ("abstract", NaN); ("journal", Str (py "Lancet"));
                 ("source_x", Str (py "PMC"))];
         record [("title", Str (py "B")); ("publish_time", Str (py "bad-date"));
                 ("abstract", NaN); ("journal", Str (py "Lancet"));
                 ("source_x", NaN)] ] |}.

(** A file that already has a column called [year]. *)
Definition catalogued : DataFrame :=
  {| columns := ["title"; "publish_time"; "abstract"; "year"];
     rows :=
       [ record [("title", Str (py "A")); ("publish_time", Str (py "2020-01-15"));
                 ("abstract", Str (py "x y z")); ("year", Str (py "vol. 7"))] ] |}.

(** Six papers; two journals tie, one journal and one source are missing,
    and no paper is from 2019. *)
Definition paper (title date abstract journal source : cell)
  : gmap string cell :=
  record [("title", title); ("publish_time", date); ("abstract", abstract);
          ("journal", journal); ("source_x", source)].

Definition corpus : DataFrame :=
  {| columns := ["title"; "publish_time"; "abstract"; "journal"; "source_x"];
     rows :=
       [ paper (Str (py "P1")) (Str (py "2018-03-01")) (Str (py "a b"))
               (Str (py "Lancet")) (Str (py "PMC"));
         paper (Str (py "P2")) (Str (py "2020-01-15")) NaN
               (Str (py "BMJ")) NaN;
         paper (Str (py "P3")) (Str (py "2020-06-30")) (Str (py " "))
               NaN (Str (py "WHO"));
         paper (Str (py "P4")) (Str (py "2020-02-02")) (Str (py "one"))
               (Str (py "BMJ")) (Str (py "PMC"));
         paper (Str (py "P5")) (Str (py "2021-11-11")) (Str (py "x"))
               (Str (py "Lancet")) (Str (py "Elsevier"));
         paper (Str (py "P6")) (Str (py "2021-01-01")) (Str (py "y z"))
               (Str (py "Nature")) (Str (py "PMC")) ] |}.

Definition read_scenario (nrows : option nat) (bytes : list Byte.byte)
  : result DataFrame :=
  match bytes with
  | [] => Raise ParserError
  | _ :: _ =>
      Ok {| columns := columns scenario;
            rows := match nrows with
                    | Some n => take n (rows scenario)
                    | None => rows scenario
                    end |}
  end.

Global Instance pandas : Pandas := {|
  dt_format := unit;
  guess_datetime_format := λ _, tt;
  parse_datetime := λ _, parse_iso_date;
  read_csv := read_scenario
|}.

(** A first run: no file yet, the download works and its archive holds
    the metadata among other members. *)
Definition csv_bytes : list Byte.byte := [Byte.x74; Byte.x69; Byte.x74].

Definition first_run : World :=
  {| metadata_csv := None;
     python_starts := true;
     kaggle_installed := true;
     pandas_installed := true;
     kaggle_credentials := true;
     kaggle_download :=
       DownloadLeaves
         [ {| zip_name := "CORD-19-research-challenge.zip";
              zip_members :=
                Some [("document_parses/readme.txt", [Byte.x00]);
                      ("2020-03-13/metadata.csv", csv_bytes)] |} ] |}.

(** Any later run: the file is there, the network is not. *)
Definition later_run : World :=
  {| metadata_csv := Some csv_bytes;
     python_starts := false;
     kaggle_installed := false;
     pandas_installed := true;
     kaggle_credentials := false;
     kaggle_download := DownloadRaises |}.

(** A sort that keeps equal counts in the order of the series. *)
Definition in_order : Sorting := {| tie_rank := λ _ _, 0%nat |}.

(** The corpus, cleaned. *)
Definition papers : DataFrame :=
  Eval vm_compute in
    match clean_table corpus with
    | Logged _ (Ok t) => t
    | Logged _ (Raise _) => corpus
    end.

(** Its journals by number of papers. *)
Definition ranking : list (cell * nat) :=
  [(Str (py "Lancet"), 2%nat); (Str (py "BMJ"), 2%nat);
   (Str (py "Nature"), 1%nat)].

End Demo.

(** ** Counting the rows the two passes remove *)

(** The row lacks a title or a publication time. *)
Definition missing_required (r : gmap string cell) : bool :=
  isna (at_label "title" r) || isna (at_label "publish_time" r).

Section DropCounts.
Context `{Pandas}.

(** The row's publication time, present in the file, does not parse. *)
Definition unparseable (raw : DataFrame) (r : gmap string cell) : bool :=
  match parse_datetime (chosen_format raw) (at_label "publish_time" r) with
  | Some _ => false
  | None => true
  end.

End DropCounts.

(** ** Rows in a year range *)

(** A year cell the comparison accepts. *)
Definition numeric_or_missing (c : cell) : Prop :=
  match c with
  | Num _ | NaN | NaT => True
  | _ => False
  end.

(** The row's year lies between [a] and [b], both included. *)
Definition year_within (a b : Z) (r : gmap string cell) : bool :=
  match at_label "year" r with
  | Num y => (a <=? y) && (y <=? b)
  | _ => false
  end.

(** ** Order and counts in a list *)

(** [a] stands somewhere before [b] in [l]. *)
Definition before {A} (a b : A) (l : list A) : Prop :=
  ∃ l1 l2 l3, l = l1 ++ a :: l2 ++ b :: l3.

(** How many cells of the column are [k]. *)
Definition count_of (k : cell) (col : list cell) : nat :=
  length (List.filter (λ c, bool_decide (c = k)) col).

(** Larger counts first. *)
Definition descending (l : list (cell * nat)) : Prop :=
  ∀ i j e e', (i < j)%nat → l !! i = Some e → l !! j = Some e' → (e'.2 ≤ e.2)%nat.

(** The first [k1] of the column comes before every [k2] of the column. *)
Definition first_seen_before (k1 k2 : cell) (col : list cell) : Prop :=
  ∃ p, col !! p = Some k1 ∧ ∀ q, col !! q = Some k2 → (p < q)%nat.

(** * Further definitions *)

(** ** What the fetcher would extract *)

(** [metadata.csv] with the given content, the rest of the world as it is. *)
Definition with_metadata (content : list Byte.byte) (w : World) : World :=
  {| metadata_csv := Some content;
     python_starts := python_starts w;
     kaggle_installed := kaggle_installed w;
     pandas_installed := pandas_installed w;
     kaggle_credentials := kaggle_credentials w;
     kaggle_download := kaggle_download w |}.

(** The bytes a download would put in [metadata.csv]: the download leaves
    a zip file, the first one is a readable archive, and it has a member
    whose name ends in [metadata.csv]. *)
Definition archive_member (w : World) : option (list Byte.byte) :=
  match kaggle_download w with
  | DownloadLeaves (zip_path :: _) =>
      match zip_members zip_path with
      | Some members =>
          match List.filter (λ f, endswith f "metadata.csv") (map fst members) with
          | name :: _ => zip_open members name
          | [] => None
          end
      | None => None
      end
  | _ => None
  end.

(** An event that reaches outside the process. *)
Definition is_network (e : event) : bool :=
  match e with
  | KaggleAuthenticate | KaggleDownloadFiles => true
  | _ => false
  end.

Definition is_write (e : event) : bool :=
  match e with
  | WriteMetadata _ => true
  | _ => false
  end.

Section FetchResult.
Context `{Pandas}.

(** The check of lines 114-120 on the extracted bytes: without pandas the
    file is taken as it is, with pandas its first rows must read. *)
Definition sanity_read (content : list Byte.byte) (w : World) : bool :=
  if pandas_installed w then
    match read_csv (Some 3%nat) content with
    | Ok _ => true
    | Raise _ => false
    end
  else true.

(** Where [download_metadata_only] ends when the file is absent, and what
    it returns. *)
Definition fetch_result (w : World) : World * bool :=
  if kaggle_credentials w then
    match archive_member w with
    | Some content => (with_metadata content w, sanity_read content w)
    | None => (w, false)
    end
  else (w, false).

(** The same for any world: with the file there nothing happens. *)
Definition after_fetch (w : World) : World * bool :=
  match metadata_csv w with
  | Some _ => (w, true)
  | None => fetch_result w
  end.

(** The world and the answer of [download_dataset]: the script runs when
    the file is absent and a child process starts; its exit status is 0
    as soon as the Kaggle client can be imported. *)
Definition after_download_dataset (w : World) : World * bool :=
  match metadata_csv w with
  | Some _ => (w, true)
  | None =>
      if python_starts w then
        if kaggle_installed w then ((fetch_result w).1, true) else (w, false)
      else (w, false)
  end.

End FetchResult.

(** ** The table between the dates and the word counts *)

Section Dated.
Context `{Pandas}.

(** The table after line 53: the rows of the second pass, each with its
    year.  What remains to be done reads [abstract]. *)
Definition dated (raw : DataFrame) : DataFrame :=
  {| columns := add_column (columns raw) "year";
     rows := map with_year (second_pass raw) |}.

End Dated.

(** ** The other two views of [app.py] *)

(** Python's order on text: code point by code point, a proper prefix
    first. *)
Fixpoint pystr_ltb (s t : pystr) : bool :=
  match s, t with
  | _, [] => false
  | [], _ :: _ => true
  | a :: s', b :: t' => (a <? b)%N || ((a =? b)%N && pystr_ltb s' t')
  end.

(** Index labels compare within their kind: numbers, timestamps, text. *)
Definition same_kind (a b : cell) : bool :=
  match a, b with
  | Num _, Num _ | Time _, Time _ | Str _, Str _ => true
  | _, _ => false
  end.

Definition label_ltb (a b : cell) : bool :=
  match a, b with
  | Num x, Num y => x <? y
  | Time x, Time y => x <? y
  | Str s, Str t => pystr_ltb s t
  | _, _ => false
  end.

Fixpoint insert_asc (e : cell * nat) (l : list (cell * nat))
  : list (cell * nat) :=
  match l with
  | [] => [e]
  | e' :: l' =>
      if label_ltb e'.1 e.1 then e' :: insert_asc e l' else e :: e' :: l'
  end.

Fixpoint sort_asc (l : list (cell * nat)) : list (cell * nat) :=
  match l with
  | [] => []
  | e :: l' => insert_asc e (sort_asc l')
  end.

(** [series.sort_index()]: ascending by label, missing labels last; labels
    of different kinds do not compare ([TypeError]). *)
Definition sort_index (s : list (cell * nat)) : result (list (cell * nat)) :=
  let present := List.filter (λ e, negb (isna e.1)) s in
  let missing := List.filter (λ e, isna e.1) s in
  let comparable :=
    match present with
    | [] => true
    | e :: _ => forallb (λ e', same_kind e.1 e'.1) present
    end in
  if comparable then Ok (sort_asc present ++ missing) else Raise TypeError.

(** The year a label stands for. *)
Definition year_label (e : cell * nat) : Z :=
  match e.1 with Num y => y | _ => 0 end.

Section YearlyCounts.
Context `{Sorting}.

(** [plot_publications_per_year], line 14. *)
Definition plot_publications_per_year (df : DataFrame) (year_range : Z * Z)
  : result (list (cell * nat)) :=
  filtered ← filter_by_year df year_range.1 year_range.2;
  year ← getitem filtered "year";
  sort_index (value_counts year).

End YearlyCounts.

(** [sep.join(parts)]. *)
Fixpoint join (sep : pystr) (parts : list pystr) : pystr :=
  match parts with
  | [] => []
  | [p] => p
  | p :: parts' => p ++ sep ++ join sep parts'
  end.

(** How Python writes a value that is not text ([str] of a number or of
    a timestamp): not part of the repository, a parameter. *)
Class Rendering := {
  str_of : cell → pystr
}.

Section Wordcloud.
Context `{Rendering}.

(** [series.astype(str)] on one cell: text is itself. *)
Definition astype_str (c : cell) : pystr :=
  match c with
  | Str s => s
  | _ => str_of c
  end.

(** [plot_wordcloud], lines 34-35: the text handed to the word cloud. *)
Definition plot_wordcloud (df : DataFrame) (year_range : Z * Z)
  : result pystr :=
  filtered ← filter_by_year df year_range.1 year_range.2;
  title ← getitem filtered "title";
  Ok (join (py " ") (map astype_str (List.filter (λ c, negb (isna c)) title))).

End Wordcloud.

(** ** [main] of [app.py]

    What the page shows, element by element.  An element that has been
    shown stays on the page when a later statement raises. *)

Inductive heading :=
| PublicationsPerYear
| TopJournals
| WordcloudOfTitleWords
| DistributionBySource
| SampleData
| SummaryStatistics.

Inductive figure :=
| BarChart (data : list (cell * nat))
| WordCloudImage (text : pystr).

Inductive error_text :=
| FailedToLoadData
| AnErrorOccurred (e : exn).

Inductive written :=
| Summary (l : summary_line)
| PleaseEnsureDependencies.

Inductive ui :=
| StTitle
| StMarkdown
| StError (m : error_text)
| StHeader (h : heading)
| StPyplot (fig : figure)
| StDataframe (t : DataFrame)
| StWrite (x : written).

Inductive page (A : Type) :=
| Page (shown : list ui) (r : result A).
Arguments Page {A} shown r.

Global Instance page_ret : MRet page := λ A a, Page [] (Ok a).
Global Instance page_bind : MBind page := λ A B k m,
  match m with
  | Page s1 (Ok a) =>
      match k a with
      | Page s2 r => Page (s1 ++ s2) r
      end
  | Page s1 (Raise e) => Page s1 (Raise e)
  end.

Definition st (u : ui) : page unit := Page [u] (Ok tt).
Definition run {A} (r : result A) : page A := Page [] r.

(** The front end, none of it part of the repository.  [slider lo hi] is
    the year range set on the side bar's slider from [lo] to [hi];
    [barplot data] is [sns.barplot] on the counts with the axis calls that
    follow it; [generate text] is [WordCloud(...).generate(text)] with the
    drawing of the image.  Each may raise. *)
Class Frontend := {
  slider : Z → Z → result (Z * Z);
  barplot : list (cell * nat) → result unit;
  generate : pystr → result unit
}.

(** The word-cloud library refuses a text without a word: it raises
    [ValueError] (at least one word is needed). *)
Definition needs_a_word `{Frontend} : Prop :=
  ∀ text, split text = [] → generate text = Raise ValueError.

Section Main.
Context `{Pandas} `{Sorting} `{Rendering} `{Frontend}.

(** Lines 69-91. *)
Definition dashboard (df : DataFrame) : page unit :=
  span ← run (year_span df);
  year_range ← run (slider span.1 span.2);
  _ ← st (StHeader PublicationsPerYear);
  yearly ← run (plot_publications_per_year df year_range);
  _ ← run (barplot yearly);
  _ ← st (StPyplot (BarChart yearly));
  _ ← st (StHeader TopJournals);
  top_journals ← run (plot_top_journals df year_range);
  _ ← run (barplot top_journals);
  _ ← st (StPyplot (BarChart top_journals));
  _ ← st (StHeader WordcloudOfTitleWords);
  text ← run (plot_wordcloud df year_range);
  _ ← run (generate text);
  _ ← st (StPyplot (WordCloudImage text));
  _ ← st (StHeader DistributionBySource);
  source_counts ← run (plot_source_distribution df year_range);
  _ ← run (barplot source_counts);
  _ ← st (StPyplot (BarChart source_counts));
  _ ← st (StHeader SampleData);
  filtered_data ← run (filter_by_year df year_range.1 year_range.2);
  _ ← st (StDataframe {| columns := columns filtered_data;
                        rows := head 20 (rows filtered_data) |});
  _ ← st (StHeader SummaryStatistics);
  _ ← st (StWrite (Summary (TotalPapers (len filtered_data))));
  awc ← run (getitem filtered_data "abstract_word_count");
  avg ← run (mean awc);
  st (StWrite (Summary (AverageWordCount avg))).

(** Lines 53-95, given what [load_data] returned or raised: the handler
    of line 93 catches every exception of the modelled code. *)
Definition main_page (loaded : result (option DataFrame)) : list ui :=
  let attempt :=
    df ← run loaded;
    match df with
    | None => st (StError FailedToLoadData)
    | Some df => dashboard df
    end in
  [StTitle; StMarkdown] ++
  match attempt with
  | Page shown (Ok _) => shown
  | Page shown (Raise e) =>
      shown ++ [StError (AnErrorOccurred e); StWrite PleaseEnsureDependencies]
  end.

(** [main]: [load_data] is [load_and_clean_data] (behind a cache, which
    returns the value of the first call). *)
Definition app_main (w : World) : list event * World * list ui :=
  match load_and_clean_data w with
  | Outcome trace w' loaded => (trace, w', main_page loaded)
  end.

End Main.

(** ** More worlds and tables to run the code on *)
Module Cases.

(** The file is absent and the credentials are rejected. *)
Definition rejected : World :=
  {| metadata_csv := None;
     python_starts := true;
     kaggle_installed := true;
     pandas_installed := true;
     kaggle_credentials := false;
     kaggle_download := kaggle_download Demo.first_run |}.

(** The file is absent and no child process starts. *)
Definition no_python : World :=
  {| metadata_csv := None;
     python_starts := false;
     kaggle_installed := true;
     pandas_installed := true;
     kaggle_credentials := true;
     kaggle_download := kaggle_download Demo.first_run |}.

(** The archive's metadata member is an empty file, which the reader of
    [Demo.pandas] rejects. *)
Definition empty_member : World :=
  {| metadata_csv := None;
     python_starts := true;
     kaggle_installed := true;
     pandas_installed := true;
     kaggle_credentials := true;
     kaggle_download :=
       DownloadLeaves
         [ {| zip_name := "CORD-19-research-challenge.zip";
              zip_members := Some [("metadata.csv", [])] |} ] |}.

(** A file without a [title] column. *)
Definition untitled : DataFrame :=
  {| columns := ["publish_time"; "abstract"];
     rows := [ Demo.record [("publish_time", Str (py "2020-01-15"));
                            ("abstract", Str (py "x y z"))] ] |}.

(** A file without an [abstract] column. *)
Definition no_abstract : DataFrame :=
  {| columns := ["title"; "publish_time"];
     rows := [ Demo.record [("title", Str (py "A"));
                            ("publish_time", Str (py "2020-01-15"))];
               Demo.record [("title", NaN);
                            ("publish_time", Str (py "2020-01-16"))] ] |}.

(** A file whose abstracts were read as numbers. *)
Definition numeric_abstract : DataFrame :=
  {| columns := ["title"; "publish_time"; "abstract"];
     rows := [ Demo.record [("title", Str (py "A"));
                            ("publish_time", Str (py "2020-01-15"));
                            ("abstract", Num 42)] ] |}.

(** Its one row after the two passes. *)
Definition numeric_abstract_row : gmap string cell :=
  Eval vm_compute in
    match second_pass numeric_abstract with
    | r :: _ => r
    | [] => ∅
    end.

(** The papers of the corpus published in 2020 and 2021. *)
Definition recent : DataFrame :=
  Eval vm_compute in
    match filter_by_year Demo.papers 2020 2021 with
    | Ok filtered => filtered
    | Raise _ => Demo.papers
    end.

(** Values that are not text are written as nothing: enough for tables
    whose titles are text. *)
Global Instance rendering : Rendering := {| str_of := λ _, [] |}.

(** Twenty papers of 2020, each in a journal of its own. *)
Definition journal_names : list string :=
  ["J01"; "J02"; "J03"; "J04"; "J05"; "J06"; "J07"; "J08"; "J09"; "J10";
   "J11"; "J12"; "J13"; "J14"; "J15"; "J16"; "J17"; "J18"; "J19"; "J20"].

Definition twenty_journals : DataFrame :=
  {| columns := ["title"; "publish_time"; "abstract"; "journal"; "source_x"];
     rows :=
       map (λ j, Demo.paper (Str (py "T")) (Str (py "2020-01-15")) NaN
                            (Str (py j)) (Str (py "PMC")))
           journal_names |}.

Definition twenty_papers : DataFrame :=
  Eval vm_compute in
    match clean_table twenty_journals with
    | Logged _ (Ok t) => t
    | Logged _ (Raise _) => twenty_journals
    end.

(** A sort that is not stable on long series: up to 16 entries equal
    counts keep their order, beyond that they come out reversed. *)
Definition reversing_long_ties : Sorting :=
  {| tie_rank := λ s e,
       if (length s <=? 16)%nat then 0%nat
       else (length s - index_of e s)%nat |}.

(** A library that reads any file as the corpus. *)
Definition corpus_reader : Pandas :=
  {| dt_format := unit;
     guess_datetime_format := λ _, tt;
     parse_datetime := λ _, Demo.parse_iso_date;
     read_csv := λ _ _, Ok Demo.corpus |}.

(** What loading prints when the file is there and holds the corpus. *)
Definition loading : list event :=
  Eval vm_compute in
    match @load_and_clean_data corpus_reader Demo.later_run with
    | Outcome trace _ _ => trace
    end.

(** A front end whose slider is set to the one year 2019, whose bar plots
    draw whatever they are given, and whose word cloud needs a word. *)
Definition only_2019 : Frontend :=
  {| slider := λ _ _, Ok (2019, 2019);
     barplot := λ _, Ok tt;
     generate := λ text,
       match split text with [] => Raise ValueError | _ :: _ => Ok tt end |}.

(** The same with the slider left as it starts, on the whole span. *)
Definition whole_span : Frontend :=
  {| slider := λ lo hi, Ok (lo, hi);
     barplot := λ _, Ok tt;
     generate := λ text,
       match split text with [] => Raise ValueError | _ :: _ => Ok tt end |}.

End Cases.

(** ** Proof automation for traces *)

(** Membership of an event in an explicit trace. *)
Ltac event_hyps :=
  repeat match goal with
  | Hin : _ ∈ _ :: _ |- _ => apply elem_of_cons in Hin as [Hin|Hin]
  | Hin : _ ∈ [] |- _ => by apply elem_of_nil in Hin
  end.

Ltac event_goal :=
  apply list_elem_of_In; simpl; repeat (first [left; reflexivity | right]).

Ltac events :=
  repeat split; intros; try intro; event_hyps;
  repeat match goal with Hand : _ ∧ _ |- _ => destruct Hand end;
  simplify_eq; try done; try event_goal.

(** Membership of an element in an explicit page. *)
Ltac shown_hyps :=
  repeat match goal with
  | Hin : _ ∈ _ :: _ |- _ => apply elem_of_cons in Hin as [Hin|Hin]
  | Hin : _ ∈ [] |- _ => by apply elem_of_nil in Hin
  end.

(** A run that stopped before the summary: it did not end well and its
    page has no summary line. *)
Ltac stopped_early :=
  match goal with
  | Hsum : _ = Ok tt ∨ (∃ l, StWrite (Summary l) ∈ _) |- _ =>
      destruct Hsum as [Hsum|[? Hsum]]; [discriminate Hsum|];
      shown_hyps; discriminate
  end.

(** * Properties *)

(** ** Whitespace tokens *)


Lemma split_from_length cur s :
  length (split_from cur s) =
  (token_starts (bool_decide (cur = None)) s
   + match cur with Some _ => 1 | None => 0 end)%nat.
Proof.
  revert cur; induction s as [|c s IH]; intros cur; simpl.
  - by destruct cur.
  - destruct (isspace c) eqn:Hc, cur as [w|]; simpl; rewrite ?IH; simpl; lia.
Qed.

Lemma split_length s : length (split s) = token_count s.
Proof. unfold split, token_count. rewrite split_from_length. simpl. lia. Qed.

Lemma token_starts_all_space b s :
  forallb isspace s = true → token_starts b s = 0%nat.
Proof.
  revert b; induction s as [|c s IH]; intros b; simpl; [done|].
  intros [Hc Hs]%andb_prop. rewrite Hc, andb_false_r. simpl. by apply IH.
Qed.

(** The tokens themselves: none is empty, none holds a whitespace
    character, and together they are the text without its whitespace. *)
Lemma split_from_tokens cur s :
  (∀ w, cur = Some w → w ≠ [] ∧ forallb (λ c, negb (isspace c)) w = true) →
  Forall (λ w, w ≠ [] ∧ forallb (λ c, negb (isspace c)) w = true)
         (split_from cur s).
Proof.
  revert cur; induction s as [|c s IH]; intros cur Hcur; simpl.
  - destruct cur as [w|]; [|constructor].
    destruct (Hcur w eq_refl) as [Hne Hall]. repeat constructor.
    + intros Hr. apply Hne. by rewrite <- (reverse_involutive w), Hr.
    + rewrite forallb_forall in *. intros x Hx. apply Hall.
      apply list_elem_of_In. apply list_elem_of_In in Hx.
      by apply elem_of_reverse.
  - destruct (isspace c) eqn:Hc, cur as [w|].
    + destruct (Hcur w eq_refl) as [Hne Hall]. constructor.
      * split.
        -- intros Hr. apply Hne. by rewrite <- (reverse_involutive w), Hr.
        -- rewrite forallb_forall in *. intros x Hx. apply Hall.
           apply list_elem_of_In. apply list_elem_of_In in Hx.
           by apply elem_of_reverse.
      * apply IH. by intros ? [=].
    + apply IH. by intros ? [=].
    + apply IH. intros w' [= <-]. destruct (Hcur w eq_refl) as [Hne Hall].
      split; [done|]. simpl. by rewrite Hc, Hall.
    + apply IH. intros w' [= <-]. split; [done|]. simpl. by rewrite Hc.
Qed.

Lemma split_from_concat cur s :
  concat (split_from cur s) =
  (match cur with Some w => reverse w | None => [] end
   ++ List.filter (λ c, negb (isspace c)) s)%list.
Proof.
  revert cur; induction s as [|c s IH]; intros cur; simpl.
  - destruct cur; simpl; by rewrite ?app_nil_r.
  - destruct (isspace c) eqn:Hc, cur as [w|]; simpl; rewrite IH; simpl;
      try done.
    + by rewrite reverse_cons, <- app_assoc.
Qed.

(** ** Stepping through the monads *)

Lemma lift_bind_ok {A B} (r : result A) (k : A → logged B) log b :
  (x ← lift r; k x) = Logged log (Ok b) →
  ∃ a, r = Ok a ∧ k a = Logged log (Ok b).
Proof.
  destruct r as [a|e]; simpl; [|done].
  unfold mbind, logged_bind, lift. destruct (k a) as [l2 r2] eqn:Hk.
  simpl. intros [= <- ->]. eauto.
Qed.

Lemma lift_ok_bind {A B} (a : A) (k : A → logged B) :
  (x ← lift (Ok a); k x) = k a.
Proof. unfold mbind, logged_bind, lift. by destruct (k a). Qed.

Lemma say_bind {B} (m : message) (k : logged B) :
  (_ ← say m; k) = match k with Logged l r => Logged (m :: l) r end.
Proof. unfold mbind, logged_bind, say. by destruct k. Qed.

Lemma say_bind_ok {B} (m : message) (k : logged B) log b :
  (_ ← say m; k) = Logged log (Ok b) →
  ∃ log', k = Logged log' (Ok b) ∧ log = m :: log'.
Proof.
  unfold mbind, logged_bind, say. destruct k as [l2 r2].
  simpl. intros [= <- ->]. eauto.
Qed.

Lemma rmap_ok {A B} (f : A → result B) l l' :
  rmap f l = Ok l' → Forall2 (λ a b, f a = Ok b) l l'.
Proof.
  revert l'; induction l as [|a l IH]; intros l'; simpl.
  - intros [= <-]. constructor.
  - destruct (f a) as [b|] eqn:Hfa; simpl; [|done].
    destruct (rmap f l) as [bs|] eqn:Hl; simpl; [|done].
    intros [= <-]. constructor; auto.
Qed.

Lemma rmap_total {A B} (f : A → result B) (g : A → B) l :
  Forall (λ a, f a = Ok (g a)) l → rmap f l = Ok (map g l).
Proof.
  induction 1 as [|a l Ha _ IH]; simpl; [done|].
  by rewrite Ha, IH.
Qed.

Lemma rmap_ok_map {A B} (f : A → result B) (g : A → B) l l' :
  (∀ a b, f a = Ok b → b = g a) → rmap f l = Ok l' → l' = map g l.
Proof.
  intros Hfg Hl. apply rmap_ok in Hl.
  induction Hl as [|a b l l' Hab _ IH]; simpl; [done|].
  by rewrite (Hfg _ _ Hab), IH.
Qed.

(** ** The table operations *)

Lemma getitem_ok df c col :
  getitem df c = Ok col → col = map (at_label c) (rows df) ∧ c ∈ columns df.
Proof.
  unfold getitem, has_column. case_bool_decide; [|done].
  by intros [= <-].
Qed.

Lemma getitem_total df c :
  c ∈ columns df → getitem df c = Ok (map (at_label c) (rows df)).
Proof.
  intros Hc. unfold getitem, has_column. by rewrite bool_decide_eq_true_2.
Qed.

Lemma dropna_ok subset df df' :
  dropna subset df = Ok df' →
  columns df' = columns df ∧
  rows df' = List.filter (complete_on subset) (rows df) ∧
  Forall (λ c, c ∈ columns df) subset.
Proof.
  unfold dropna.
  destruct (List.filter _ subset) as [|c0 miss] eqn:Hmiss; [|done].
  intros [= <-]. simpl. repeat split.
  apply Forall_forall. intros c Hc.
  destruct (decide (c ∈ columns df)) as [|Hn]; [done|].
  assert (Hin : In c (List.filter (λ c, negb (has_column df c)) subset)).
  { apply filter_In. split; [by apply list_elem_of_In|].
    unfold has_column. by rewrite bool_decide_eq_false_2. }
  by rewrite Hmiss in Hin.
Qed.

Lemma setitem_map df c (g : gmap string cell → cell) :
  rows (setitem df c (map g (rows df))) = map (λ r, <[c := g r]> r) (rows df).
Proof.
  unfold setitem. simpl. generalize (rows df). intros l.
  induction l as [|r l IH]; simpl; [done|]. by rewrite IH.
Qed.

Lemma setitem_map_col df c c' (f : cell → cell) :
  rows (setitem df c (map f (map (at_label c') (rows df)))) =
  map (λ r, <[c := f (at_label c' r)]> r) (rows df).
Proof. rewrite map_map. apply (setitem_map df c (λ r, f (at_label c' r))). Qed.

Lemma setitem_columns df c values :
  columns (setitem df c values) =
  if bool_decide (c ∈ columns df) then columns df else columns df ++ [c].
Proof. done. Qed.

Lemma elem_of_add_column cols c c' :
  c ∈ add_column cols c' ↔ c ∈ cols ∨ c = c'.
Proof.
  unfold add_column. case_bool_decide as Hc.
  - split; [by left|]. by intros [?| ->].
  - rewrite elem_of_app, list_elem_of_singleton. done.
Qed.

Lemma at_label_insert c v (r : gmap string cell) :
  at_label c (<[c := v]> r) = v.
Proof. unfold at_label. by rewrite lookup_insert_eq. Qed.

Lemma at_label_insert_ne c c' v (r : gmap string cell) :
  c ≠ c' → at_label c' (<[c := v]> r) = at_label c' r.
Proof. intros Hne. unfold at_label. by rewrite lookup_insert_ne. Qed.


Lemma dt_year_times col years :
  dt_year col = Ok years →
  Forall (λ c, ∃ t, c = Time t) col →
  years = map (λ c, Num (year_of_ns (time_of c))) col.
Proof.
  intros Hys Ht. revert years Hys.
  induction Ht as [|c col [t ->] _ IH]; intros years; simpl.
  - by intros [= <-].
  - unfold dt_year in *. simpl.
    destruct (rmap _ col) as [ys|] eqn:Hcol; simpl; [|done].
    intros [= <-]. f_equal. by apply IH.
Qed.


Lemma word_counts_ok word_count' col counts :
  (∀ c, word_count' c = match c with
                        | Str s => Ok (Num (Z.of_nat (length (split s))))
                        | _ => Raise AttributeError
                        end) →
  rmap word_count' (fillna (Str []) col) = Ok counts →
  counts = map (λ c, Num (Z.of_nat (length (split (text_of c))))) col ∧
  Forall text_or_missing col.
Proof.
  intros Hwc. revert counts. induction col as [|c col IH]; intros counts; simpl.
  - intros [= <-]. split; [done|constructor].
  - rewrite Hwc.
    destruct c as [| |s|z|t]; simpl; try done;
      (destruct (rmap _ _) as [cs|] eqn:Hcs; simpl; [|done]);
      intros [= <-]; destruct (IH cs eq_refl) as [-> Hall];
      (split; [done|]); constructor; try done;
      unfold text_or_missing; simpl; eauto.
Qed.

Section CleanerFacts.
Context `{Pandas}.


Lemma second_pass_time raw r :
  r ∈ second_pass raw →
  ∃ t, at_label "publish_time" r = Time t.
Proof.
  unfold second_pass. intros Hr%list_elem_of_In.
  apply filter_In in Hr as [Hr Hc].
  apply in_map_iff in Hr as (r0 & <- & _).
  unfold complete_on in Hc. simpl in Hc. unfold reparse in *.
  rewrite at_label_insert in *. unfold parsed in *.
  destruct (parse_datetime _ _); [eauto|done].
Qed.

Lemma clean_table_ok raw log t :
  clean_table raw = Logged log (Ok t) →
  rows t = map (λ r, with_word_count (with_year r)) (second_pass raw) ∧
  columns t = add_column (add_column (columns raw) "year") "abstract_word_count" ∧
  Forall (λ c, c ∈ columns raw) ["title"; "publish_time"; "abstract"] ∧
  Forall (λ r, text_or_missing (at_label "abstract" r)) (second_pass raw) ∧
  log = [MsgDropped (len raw - length (first_pass raw));
         MsgFinalShape (shape t);
         MsgYearRange (series_min (map (at_label "year") (rows t)))
                      (series_max (map (at_label "year") (rows t)))].
Proof.
  unfold clean_table. intros Hrun.
  apply lift_bind_ok in Hrun as (df1 & Hdf1 & Hrun).
  apply dropna_ok in Hdf1 as (Hc1 & Hr1 & Hsub1).
  assert (Hsub := Hsub1).
  apply say_bind_ok in Hrun as (log1 & Hrun & ->).
  apply lift_bind_ok in Hrun as (pt & Hpt & Hrun).
  apply getitem_ok in Hpt as [-> _].
  apply lift_bind_ok in Hrun as (df3 & Hdf3 & Hrun).
  apply dropna_ok in Hdf3 as (Hc3 & Hr3 & _).
  apply lift_bind_ok in Hrun as (pt3 & Hpt3 & Hrun).
  apply getitem_ok in Hpt3 as [-> _].
  apply lift_bind_ok in Hrun as (years & Hyears & Hrun).
  apply lift_bind_ok in Hrun as (abstract & Habs & Hrun).
  apply getitem_ok in Habs as [-> Habs_col].
  apply lift_bind_ok in Hrun as (counts & Hcounts & Hrun).
  apply say_bind_ok in Hrun as (log2 & Hrun & ->).
  apply lift_bind_ok in Hrun as (year & Hyear & Hrun).
  apply getitem_ok in Hyear as [-> _].
  apply say_bind_ok in Hrun as (log3 & Hrun & ->).
  injection Hrun as <- <-.
  (* the rows after each pass *)
  assert (Hrows3 : rows df3 = second_pass raw).
  { rewrite Hr3. unfold second_pass, to_datetime_coerce.
    rewrite setitem_map_col. by rewrite Hr1. }
  assert (Hcols3 : columns df3 = columns raw).
  { rewrite Hc3, setitem_columns, Hc1.
    rewrite bool_decide_eq_true_2; [done|].
    apply Forall_cons in Hsub1 as [_ Hsub1].
    by apply Forall_cons in Hsub1 as [? _]. }
  assert (Hyears' : years =
    map (λ c, Num (year_of_ns (time_of c)))
        (map (at_label "publish_time") (rows df3))).
  { apply dt_year_times; [done|]. rewrite Hrows3.
    apply Forall_forall. intros c (r & -> & Hr)%list_elem_of_fmap.
    by apply second_pass_time in Hr. }
  clear Hyears. subst years.
  set (df4 := setitem df3 "year" _) in *.
  assert (Hrows4 : rows df4 = map with_year (second_pass raw)).
  { unfold df4. by rewrite setitem_map_col, Hrows3. }
  assert (Hcols4 : columns df4 = add_column (columns raw) "year").
  { unfold df4. by rewrite setitem_columns, Hcols3. }
  apply (word_counts_ok word_count) in Hcounts as [-> Habs]; [|done].
  rewrite setitem_map_col, setitem_columns, Hcols4.
  unfold shape, len. rewrite setitem_map_col, setitem_columns, Hcols4, Hr1, Hrows4.
  rewrite map_map. repeat split; try done.
  - apply Forall_cons in Hsub as [Ht Hsub].
    apply Forall_cons in Hsub as [Hp _].
    repeat (constructor; [done|]).
    repeat constructor. rewrite Hcols4 in Habs_col. unfold add_column in Habs_col.
    case_bool_decide; [done|].
    apply elem_of_app in Habs_col as [|[=]%list_elem_of_singleton]; done.
  - rewrite Hrows4, map_map in Habs. rewrite Forall_map in Habs.
    eapply Forall_impl; [exact Habs|]. intros r Hr. simpl in Hr.
    unfold with_year in Hr. by rewrite at_label_insert_ne in Hr.
Qed.

End CleanerFacts.



Lemma filter_map_comm {A B} (f : B → bool) (g : A → B) l :
  List.filter f (map g l) = map g (List.filter (λ a, f (g a)) l).
Proof.
  induction l as [|a l IH]; simpl; [done|].
  destruct (f (g a)); simpl; by rewrite IH.
Qed.

Lemma filter_sublist {A} (f : A → bool) l : List.filter f l `sublist_of` l.
Proof.
  induction l as [|a l IH]; simpl; [done|].
  destruct (f a); by constructor.
Qed.

Lemma filter_split_length {A} (f : A → bool) l :
  length l = (length (List.filter f l)
              + length (List.filter (λ a, negb (f a)) l))%nat.
Proof.
  induction l as [|a l IH]; simpl; [done|].
  destruct (f a); simpl; lia.
Qed.

Lemma dropna_total subset df :
  Forall (λ c, c ∈ columns df) subset →
  dropna subset df =
  Ok {| columns := columns df;
        rows := List.filter (complete_on subset) (rows df) |}.
Proof.
  intros Hsub. unfold dropna.
  replace (List.filter (λ c, negb (has_column df c)) subset) with (@nil string);
    [done|].
  symmetry. induction Hsub as [|c subset Hc _ IH]; [done|]. simpl.
  unfold has_column at 1. by rewrite bool_decide_eq_true_2.
Qed.

Section CleanerTotal.
Context `{Pandas}.

(** [clean_table] returns a table as soon as the file has the three
    columns it reads and no abstract of a retained row is a number. *)
Lemma clean_table_total raw :
  Forall (λ c, c ∈ columns raw) ["title"; "publish_time"; "abstract"] →
  Forall (λ r, text_or_missing (at_label "abstract" r)) (second_pass raw) →
  ∃ log t, clean_table raw = Logged log (Ok t).
Proof.
  intros Hcols Habs.
  apply Forall_cons in Hcols as [Ht Hcols].
  apply Forall_cons in Hcols as [Hp Hcols].
  apply Forall_cons in Hcols as [Ha _].
  unfold clean_table.
  rewrite dropna_total by (by repeat constructor).
  rewrite lift_ok_bind, say_bind.
  set (df1 := {| columns := columns raw; rows := _ |}).
  rewrite (getitem_total df1), lift_ok_bind by done.
  set (df2 := setitem df1 _ _).
  assert (Hc2 : columns df2 = columns raw).
  { unfold df2. rewrite setitem_columns. simpl.
    by rewrite bool_decide_eq_true_2. }
  rewrite (dropna_total _ df2) by (rewrite Hc2; by repeat constructor).
  rewrite lift_ok_bind.
  set (df3 := {| columns := columns df2; rows := _ |}).
  assert (Hr3 : rows df3 = second_pass raw).
  { unfold df3. cbn [rows]. unfold df2, to_datetime_coerce.
    by rewrite setitem_map_col. }
  rewrite (getitem_total df3), lift_ok_bind
    by (unfold df3; cbn [columns]; by rewrite Hc2).
  assert (Hyears : dt_year (map (at_label "publish_time") (rows df3)) =
    Ok (map (λ c, Num (year_of_ns (time_of c)))
            (map (at_label "publish_time") (rows df3)))).
  { apply rmap_total. rewrite Hr3. apply Forall_forall.
    intros c (r & -> & Hr)%list_elem_of_fmap.
    by apply second_pass_time in Hr as [t ->]. }
  rewrite Hyears, lift_ok_bind.
  set (df4 := setitem df3 "year" _).
  assert (Hr4 : rows df4 = map with_year (second_pass raw)).
  { unfold df4. by rewrite setitem_map_col, Hr3. }
  assert (Hc4 : "abstract" ∈ columns df4).
  { unfold df4. rewrite setitem_columns. unfold df3. cbn [columns].
    rewrite Hc2. apply elem_of_add_column. by left. }
  rewrite (getitem_total df4), lift_ok_bind by done.
  assert (Hcounts :
    rmap word_count (fillna (Str []) (map (at_label "abstract") (rows df4))) =
    Ok (map (λ c, Num (Z.of_nat (length (split (text_of c)))))
            (map (at_label "abstract") (rows df4)))).
  { unfold fillna. rewrite map_map.
    rewrite (rmap_total word_count
               (λ c, Num (Z.of_nat (length (split (text_of c)))))).
    - f_equal. rewrite !map_map. apply map_ext. intros r.
      by destruct (at_label "abstract" r).
    - rewrite Hr4. apply Forall_map, Forall_map.
      eapply Forall_impl; [exact Habs|]. intros r Hr. simpl.
      unfold with_year. rewrite at_label_insert_ne by done.
      by destruct Hr as [Hna|[s ->]]; [destruct (at_label "abstract" r)|]. }
  rewrite Hcounts, lift_ok_bind.
  set (df5 := setitem df4 "abstract_word_count" _).
  rewrite say_bind, (getitem_total df5), lift_ok_bind, say_bind.
  - by eexists _, _.
  - unfold df5, df4. rewrite !setitem_columns.
    apply elem_of_add_column. left. apply elem_of_add_column. by right.
Qed.

End CleanerTotal.

Section CleanerClaims.
Context `{Pandas}.

Lemma second_pass_origin raw r :
  r ∈ second_pass raw →
  ∃ r0 ts, r0 ∈ rows raw ∧
    isna (at_label "title" r0) = false ∧
    isna (at_label "publish_time" r0) = false ∧
    parse_datetime (chosen_format raw) (at_label "publish_time" r0) = Some ts ∧
    r = <["publish_time" := Time ts]> r0.
Proof.
  unfold second_pass. intros Hr%list_elem_of_In.
  apply filter_In in Hr as [Hr Hc].
  apply in_map_iff in Hr as (r0 & <- & Hr0).
  apply filter_In in Hr0 as [Hr0 Hreq].
  unfold complete_on in *. simpl in *. unfold reparse in *.
  rewrite at_label_insert in Hc. unfold parsed in *.
  destruct (parse_datetime _ _) as [ts|] eqn:Hts; [|done].
  exists r0, ts. apply list_elem_of_In in Hr0.
  destruct (isna (at_label "title" r0)), (isna (at_label "publish_time" r0));
    done.
Qed.

(** C1.  Every row that [load_and_clean_data] retains has a title that
    is not missing, comes from a row of the file whose [publish_time]
    parsed to a timestamp, holds that timestamp, and carries in [year] the
    calendar year of that timestamp. *)
Theorem retained_rows_have_title_date_year raw log t :
  clean_table raw = Logged log (Ok t) →
  Forall (λ r,
    isna (at_label "title" r) = false ∧
    ∃ r0 ts, r0 ∈ rows raw ∧
      at_label "title" r = at_label "title" r0 ∧
      parse_datetime (chosen_format raw) (at_label "publish_time" r0) = Some ts ∧
      at_label "publish_time" r = Time ts ∧
      at_label "year" r = Num (year_of_ns ts)) (rows t).
Proof.
  intros (Hrows & _)%clean_table_ok. rewrite Hrows.
  apply Forall_map, Forall_forall. intros r Hr.
  destruct (second_pass_origin _ _ Hr) as (r0 & ts & Hr0 & Ht & _ & Hts & ->).
  unfold with_word_count, with_year.
  rewrite !(at_label_insert_ne "abstract_word_count") by done.
  rewrite !(at_label_insert_ne "year" "title") by done.
  rewrite !(at_label_insert_ne "year" "publish_time") by done.
  rewrite !(at_label_insert_ne "publish_time" "title") by done.
  rewrite !at_label_insert. simpl.
  split; [done|]. by exists r0, ts.
Qed.


(** C2, as the code has it.  There are two drop passes: the first removes
    the rows lacking a title or a publication time, the second the rows
    whose publication time is present but does not parse (it became
    missing; nothing is raised).  The one count printed is the number of
    rows the first pass removed; the rows the second pass removed are not
    in it, and the difference between the raw and the cleaned row count is
    the printed count plus the number of rows whose date did not parse. *)
Theorem dropped_count_is_first_pass_only raw log t :
  clean_table raw = Logged log (Ok t) →
  let dropped := length (List.filter missing_required (rows raw)) in
  let unparsed := length (List.filter (unparseable raw) (first_pass raw)) in
  log = [MsgDropped dropped;
         MsgFinalShape (len t, length (columns t));
         MsgYearRange (series_min (map (at_label "year") (rows t)))
                      (series_max (map (at_label "year") (rows t)))] ∧
  len raw = (length (first_pass raw) + dropped)%nat ∧
  length (first_pass raw) = (len t + unparsed)%nat ∧
  (len raw - len t)%nat = (dropped + unparsed)%nat.
Proof.
  intros (Hrows & _ & _ & _ & Hlog)%clean_table_ok. simpl.
  assert (H1 : len raw =
    (length (first_pass raw)
     + length (List.filter missing_required (rows raw)))%nat).
  { unfold len, first_pass.
    rewrite (filter_split_length (complete_on ["title"; "publish_time"])).
    f_equal. f_equal. apply filter_ext. intros r.
    unfold complete_on, missing_required. simpl.
    by destruct (isna (at_label "title" r)),
                (isna (at_label "publish_time" r)). }
  assert (H2 : length (first_pass raw) =
    (len t + length (List.filter (unparseable raw) (first_pass raw)))%nat).
  { unfold len. rewrite Hrows, length_map. unfold second_pass.
    rewrite filter_map_comm, length_map.
    rewrite (filter_split_length
               (λ a, complete_on ["publish_time"] (reparse raw a))
               (first_pass raw)) at 1.
    f_equal. f_equal. apply filter_ext. intros r.
    unfold complete_on, reparse, unparseable, parsed. simpl.
    rewrite at_label_insert. by destruct (parse_datetime _ _). }
  repeat split; [|done|done|lia].
  rewrite Hlog. do 2 f_equal. lia.
Qed.

(** The rows of the cleaned table against the rows they come from. *)
Lemma cleaned_rows_frame raw log t :
  clean_table raw = Logged log (Ok t) →
  ∃ kept, kept `sublist_of` rows raw ∧
    Forall2 (λ r0 r,
      (∀ c, c ∉ ["publish_time"; "year"; "abstract_word_count"] →
            r !! c = r0 !! c) ∧
      (∃ ts, parse_datetime (chosen_format raw) (at_label "publish_time" r0)
               = Some ts ∧
             r !! "publish_time" = Some (Time ts) ∧
             r !! "year" = Some (Num (year_of_ns ts))) ∧
      r !! "abstract_word_count" =
        Some (Num (Z.of_nat (token_count (text_of (at_label "abstract" r0))))))
      kept (rows t).
Proof.
  intros (Hrows & _)%clean_table_ok.
  exists (List.filter (λ a, complete_on ["publish_time"] (reparse raw a))
                      (first_pass raw)).
  split.
  { etrans; [apply filter_sublist|]. apply filter_sublist. }
  rewrite Hrows. unfold second_pass. rewrite filter_map_comm, map_map.
  apply Forall2_fmap_r, Forall_Forall2_diag, Forall_forall.
  intros r0 Hr0%list_elem_of_In. apply filter_In in Hr0 as [_ Hc].
  unfold complete_on, reparse, parsed in Hc. simpl in Hc.
  rewrite at_label_insert in Hc.
  split; [|split].
  - intros c Hc'. unfold with_word_count, with_year, reparse.
    rewrite !lookup_insert_ne; [done|intros <-; apply Hc'..].
    + by left.
    + right. by left.
    + right. right. by left.
  - unfold with_word_count, with_year, reparse, parsed.
    destruct (parse_datetime _ _) as [ts|]; [|done]. exists ts.
    split; [done|].
    rewrite !(lookup_insert_ne _ "abstract_word_count") by done.
    rewrite at_label_insert, lookup_insert_eq. simpl.
    rewrite lookup_insert_ne by done. by rewrite lookup_insert_eq.
  - unfold with_word_count. rewrite lookup_insert_eq, split_length.
    unfold with_year, reparse.
    by rewrite !at_label_insert_ne by done.
Qed.

(** C10, as the code has it.  For a file with no column called [year] or
    [abstract_word_count]: the cleaned rows come, in order, from a
    subsequence of the raw rows; in each of them every column of the file
    other than [publish_time] holds what it held, [publish_time] holds the
    parsed timestamp, and [year] and [abstract_word_count] are set; the
    columns are those of the file followed by the two new ones. *)
Theorem cleaning_touches_only_three_columns raw log t :
  clean_table raw = Logged log (Ok t) →
  "year" ∉ columns raw →
  "abstract_word_count" ∉ columns raw →
  columns t = columns raw ++ ["year"; "abstract_word_count"] ∧
  ∃ kept, kept `sublist_of` rows raw ∧
    Forall2 (λ r0 r,
      (∀ c, c ∈ columns raw → c ≠ "publish_time" → r !! c = r0 !! c) ∧
      (∀ c, c ∉ ["publish_time"; "year"; "abstract_word_count"] →
            r !! c = r0 !! c) ∧
      (∃ ts, parse_datetime (chosen_format raw) (at_label "publish_time" r0)
               = Some ts ∧
             r !! "publish_time" = Some (Time ts) ∧
             r !! "year" = Some (Num (year_of_ns ts))) ∧
      r !! "abstract_word_count" =
        Some (Num (Z.of_nat (token_count (text_of (at_label "abstract" r0))))))
      kept (rows t).
Proof.
  intros Hrun Hy Hw. split.
  { apply clean_table_ok in Hrun as (_ & Hcols & _).
    rewrite Hcols. unfold add_column.
    rewrite (bool_decide_eq_false_2 _ Hy).
    rewrite bool_decide_eq_false_2.
    - by rewrite <- app_assoc.
    - intros [?|[=]%list_elem_of_singleton]%elem_of_app. done. }
  destruct (cleaned_rows_frame _ _ _ Hrun) as (kept & Hsub & Hall).
  exists kept. split; [done|].
  eapply Forall2_impl; [exact Hall|].
  intros r0 r (Hother & Hpt & Hwc). repeat split; try done.
  intros c Hin Hne. apply Hother.
  intros [->|[->|[->|[]%elem_of_nil]%elem_of_cons]%elem_of_cons]%elem_of_cons;
    done.
Qed.

End CleanerClaims.

(** ** The scenario of the specification, run *)

Lemma retained_rows_have_title_date_year_witness :
  ∃ log t,
    @clean_table Demo.pandas Demo.scenario = Logged log (Ok t) ∧
    Forall (λ r,
      isna (at_label "title" r) = false ∧
      ∃ r0 ts, r0 ∈ rows Demo.scenario ∧
        at_label "title" r = at_label "title" r0 ∧
        @parse_datetime Demo.pandas (@chosen_format Demo.pandas Demo.scenario)
          (at_label "publish_time" r0) = Some ts ∧
        at_label "publish_time" r = Time ts ∧
        at_label "year" r = Num (year_of_ns ts)) (rows t).
Proof.
  eexists _, _. split; [vm_compute; reflexivity|].
  eapply (@retained_rows_have_title_date_year Demo.pandas Demo.scenario).
  vm_compute. reflexivity.
Defined.


Lemma dropped_count_is_first_pass_only_witness :
  ∃ log t,
    @clean_table Demo.pandas Demo.scenario = Logged log (Ok t) ∧
    (len Demo.scenario - len t)%nat =
    (length (List.filter missing_required (rows Demo.scenario))
     + length (List.filter (@unparseable Demo.pandas Demo.scenario)
                           (@first_pass Demo.scenario)))%nat.
Proof.
  eexists _, _. split; [vm_compute; reflexivity|].
  eapply (@dropped_count_is_first_pass_only Demo.pandas Demo.scenario).
  vm_compute. reflexivity.
Defined.

(** C2, as stated, fails on the scenario of the specification: one row
    lacks its title, one has a date that does not parse; the cleaned table
    has one row of the three, and the count printed is 1, not 2. *)
Lemma dropped_count_misses_second_pass :
  ∃ log t,
    @clean_table Demo.pandas Demo.scenario = Logged log (Ok t) ∧
    (len Demo.scenario - len t)%nat = 2%nat ∧
    (∀ d, MsgDropped d ∈ log → d = 1%nat).
Proof.
  eexists _, _. split; [vm_compute; reflexivity|].
  split; [vm_compute; reflexivity|].
  intros d Hd. repeat (apply elem_of_cons in Hd as [Hd|Hd]; [by inversion Hd|]).
  by apply elem_of_nil in Hd.
Defined.

Lemma cleaning_touches_only_three_columns_witness :
  ∃ log t,
    @clean_table Demo.pandas Demo.scenario = Logged log (Ok t) ∧
    columns t = columns Demo.scenario ++ ["year"; "abstract_word_count"].
Proof.
  eexists _, _. split; [vm_compute; reflexivity|].
  eapply (@cleaning_touches_only_three_columns Demo.pandas Demo.scenario).
  - vm_compute. reflexivity.
  - apply (bool_decide_unpack _). vm_compute. exact I.
  - apply (bool_decide_unpack _). vm_compute. exact I.
Defined.

(** C10, as stated, fails on a file that already has a [year] column: the
    column is overwritten with the derived year, and one column is added,
    not two. *)
Lemma existing_year_column_is_overwritten :
  ∃ log t,
    @clean_table Demo.pandas Demo.catalogued = Logged log (Ok t) ∧
    map (at_label "year") (rows Demo.catalogued) = [Str (py "vol. 7")] ∧
    map (at_label "year") (rows t) = [Num 2020] ∧
    columns t = columns Demo.catalogued ++ ["abstract_word_count"].
Proof.
  eexists _, _. split; [vm_compute; reflexivity|].
  repeat split; vm_compute; reflexivity.
Defined.

(** ** The year filter *)

Lemma compare_scalar_ok test col :
  Forall numeric_or_missing col →
  compare_scalar test col =
  Ok (map (λ c, match c with Num z => test z | _ => false end) col).
Proof.
  intros Hcol. apply rmap_total. eapply Forall_impl; [exact Hcol|].
  by intros [| | | |].
Qed.

Lemma select_map {A} (f : A → bool) l : select (map f l) l = List.filter f l.
Proof.
  induction l as [|a l IH]; simpl; [done|]. by destruct (f a); rewrite IH.
Qed.

Lemma mask_and_map {A} (f g : A → bool) l :
  mask_and (map f l) (map g l) = map (λ a, f a && g a) l.
Proof.
  unfold mask_and. induction l as [|a l IH]; simpl; [done|]. by rewrite IH.
Qed.

Lemma filter_by_year_ok df a b :
  "year" ∈ columns df →
  Forall (λ r, numeric_or_missing (at_label "year" r)) (rows df) →
  filter_by_year df a b =
  Ok {| columns := columns df;
        rows := List.filter (year_within a b) (rows df) |}.
Proof.
  intros Hcol Hnum. unfold filter_by_year, getitem, has_column.
  rewrite bool_decide_eq_true_2 by done. simpl.
  unfold ge_scalar, le_scalar.
  rewrite !compare_scalar_ok by by apply Forall_map.
  simpl. unfold boolean_index. do 2 f_equal.
  rewrite !map_map, mask_and_map, select_map.
  apply filter_ext. intros r. unfold year_within.
  by destruct (at_label "year" r).
Qed.

Lemma foldr_min_le z zs : foldr Z.min z zs ≤ z ∧ Forall (λ y, foldr Z.min z zs ≤ y) zs.
Proof.
  induction zs as [|y zs [IH1 IH2]]; simpl; [split; [lia|constructor]|].
  split; [lia|]. constructor; [lia|].
  eapply Forall_impl; [exact IH2|]. simpl. lia.
Qed.

Lemma foldr_max_ge z zs : z ≤ foldr Z.max z zs ∧ Forall (λ y, y ≤ foldr Z.max z zs) zs.
Proof.
  induction zs as [|y zs [IH1 IH2]]; simpl; [split; [lia|constructor]|].
  split; [lia|]. constructor; [lia|].
  eapply Forall_impl; [exact IH2|]. simpl. lia.
Qed.

Lemma numeric_values_all_num col zs :
  Forall (λ c, ∃ z, c = Num z) col →
  numeric_values col = Ok zs → col = map Num zs.
Proof.
  intros Hcol. revert zs. induction Hcol as [|c col [z ->] _ IH]; intros zs; simpl.
  - by intros [= <-].
  - destruct (numeric_values col) as [zs'|]; simpl; [|done].
    intros [= <-]. simpl. f_equal. by apply IH.
Qed.

Lemma filter_all {A} (f : A → bool) l :
  Forall (λ a, f a = true) l → List.filter f l = l.
Proof.
  induction 1 as [|a l Ha _ IH]; simpl; [done|]. by rewrite Ha, IH.
Qed.

Lemma filter_by_full_span df lo hi :
  "year" ∈ columns df →
  Forall (λ r, ∃ y, at_label "year" r = Num y) (rows df) →
  year_span df = Ok (lo, hi) →
  filter_by_year df lo hi = Ok df.
Proof.
  intros Hcol Hnum Hspan.
  rewrite filter_by_year_ok; [|done|].
  2:{ eapply Forall_impl; [exact Hnum|]. by intros r [y ->]. }
  f_equal. destruct df as [cols rws]. simpl in *. f_equal.
  apply filter_all.
  unfold year_span, getitem, has_column in Hspan. simpl in Hspan.
  rewrite bool_decide_eq_true_2 in Hspan by done. simpl in Hspan.
  unfold int_min_max in Hspan.
  destruct (numeric_values _) as [zs|] eqn:Hzs; simpl in Hspan; [|done].
  apply numeric_values_all_num in Hzs; [|by apply Forall_map].
  destruct zs as [|z zs]; [done|]. injection Hspan as <- <-.
  destruct (foldr_min_le z zs) as [Hm1 Hm2].
  destruct (foldr_max_ge z zs) as [HM1 HM2].
  assert (Hall : Forall (λ y, foldr Z.min z zs ≤ y ≤ foldr Z.max z zs) (z :: zs)).
  { constructor; [lia|]. apply Forall_forall. intros y Hy.
    rewrite Forall_forall in Hm2, HM2. split; auto. }
  clear -Hzs Hall. revert Hzs Hall. generalize (z :: zs).
  generalize (foldr Z.min z zs), (foldr Z.max z zs). intros a b l Hl Hall.
  revert rws Hl. induction Hall as [|y l Hy _ IH]; intros rws Hl.
  - destruct rws; [constructor|done].
  - destruct rws as [|r rws]; [done|]. injection Hl as Hr Hl.
    constructor; [|by apply IH].
    unfold year_within. rewrite Hr. apply andb_true_intro.
    split; lia.
Qed.

Section FilterClaims.
Context `{Pandas}.

Lemma cleaned_year_column raw log t :
  clean_table raw = Logged log (Ok t) →
  "year" ∈ columns t ∧ Forall (λ r, ∃ y, at_label "year" r = Num y) (rows t).
Proof.
  intros Hrun. split.
  - apply clean_table_ok in Hrun as (_ & -> & _).
    apply elem_of_add_column. left. apply elem_of_add_column. by right.
  - apply clean_table_ok in Hrun as (-> & _).
    apply Forall_map, Forall_forall. intros r Hr.
    apply second_pass_time in Hr as [ts Hts].
    exists (year_of_ns ts). unfold with_word_count, with_year.
    rewrite at_label_insert_ne by done.
    by rewrite at_label_insert, Hts.
Qed.

(** C3.  On a cleaned table the year filter never raises and returns, in
    their order, exactly the rows whose year [y] has
    [min_year <= y <= max_year]; with both bounds equal to [y0] these are
    the rows whose year is [y0]; with the bounds the table's least and
    greatest year it returns the table itself. *)
Theorem filter_by_year_is_inclusive raw log t :
  clean_table raw = Logged log (Ok t) →
  (∀ min_year max_year, ∃ subset,
      filter_by_year t min_year max_year = Ok subset ∧
      columns subset = columns t ∧
      rows subset = List.filter (year_within min_year max_year) (rows t) ∧
      ∀ r, r ∈ rows subset ↔
           r ∈ rows t ∧
           ∃ y, at_label "year" r = Num y ∧ min_year ≤ y ≤ max_year) ∧
  (∀ y0, ∃ subset,
      filter_by_year t y0 y0 = Ok subset ∧
      rows subset =
        List.filter (λ r, bool_decide (at_label "year" r = Num y0)) (rows t)) ∧
  (∀ lo hi, year_span t = Ok (lo, hi) → filter_by_year t lo hi = Ok t).
Proof.
  intros [Hcol Hnum]%cleaned_year_column.
  assert (Hnum' : Forall (λ r, numeric_or_missing (at_label "year" r)) (rows t)).
  { eapply Forall_impl; [exact Hnum|]. by intros r [y ->]. }
  split; [|split].
  - intros a b. eexists. split; [by apply filter_by_year_ok|].
    simpl. split; [done|]. split; [done|]. intros r. split.
    + intros [Hr Hw]%list_elem_of_In%filter_In. unfold year_within in Hw.
      split; [by apply list_elem_of_In|].
      destruct (at_label "year" r) as [| | |y|]; try done.
      exists y. split; [done|]. apply andb_prop in Hw. lia.
    + intros (Hr & y & Hy & Hab). apply list_elem_of_In, filter_In.
      split; [by apply list_elem_of_In|]. unfold year_within. rewrite Hy.
      apply andb_true_intro. split; lia.
  - intros y0. eexists. split; [by apply filter_by_year_ok|].
    simpl. apply filter_ext. intros r. unfold year_within.
    destruct (at_label "year" r) as [| | |y|]; try done.
    case_bool_decide as Hy.
    + injection Hy as ->. apply andb_true_intro. split; lia.
    + apply andb_false_iff.
      destruct (decide (y0 ≤ y)); [right|left]; [|lia].
      apply Z.leb_gt. assert (y ≠ y0) by congruence. lia.
  - intros lo hi. by apply filter_by_full_span.
Qed.

End FilterClaims.

Lemma filter_by_year_is_inclusive_witness :
  ∃ log t,
    @clean_table Demo.pandas Demo.scenario = Logged log (Ok t) ∧
    year_span t = Ok (2020, 2020) ∧
    filter_by_year t 2020 2020 = Ok t.
Proof.
  eexists _, _. split; [vm_compute; reflexivity|].
  split; [vm_compute; reflexivity|].
  eapply (@filter_by_year_is_inclusive Demo.pandas Demo.scenario).
  - vm_compute. reflexivity.
  - vm_compute. reflexivity.
Defined.

(** ** Lists: one element before another *)

Lemma before_lookup {A} (a b : A) l i j :
  (i < j)%nat → l !! i = Some a → l !! j = Some b → before a b l.
Proof.
  intros Hij Hi Hj.
  exists (take i l), (take (j - S i) (drop (S i) l)), (drop (S j) l).
  rewrite <- (take_drop_middle l i a Hi) at 1. f_equal. f_equal.
  assert (Hj' : drop (S i) l !! (j - S i)%nat = Some b).
  { rewrite lookup_drop. rewrite <- Hj. f_equal. lia. }
  rewrite <- (take_drop_middle _ _ _ Hj') at 1. do 2 f_equal.
  rewrite drop_drop. f_equal. lia.
Qed.

Lemma lookup_before {A} (a b : A) l :
  before a b l → ∃ i j, (i < j)%nat ∧ l !! i = Some a ∧ l !! j = Some b.
Proof.
  intros (l1 & l2 & l3 & ->).
  exists (length l1), (length l1 + S (length l2))%nat. split; [lia|]. split.
  - by rewrite list_lookup_middle.
  - rewrite lookup_app_r by lia.
    replace (length l1 + S (length l2) - length l1)%nat
      with (S (length l2)) by lia.
    simpl. by rewrite list_lookup_middle.
Qed.

Lemma before_app_l {A} (a b : A) l l' : before a b l → before a b (l ++ l').
Proof.
  intros (l1 & l2 & l3 & ->). exists l1, l2, (l3 ++ l').
  by rewrite <- !app_assoc, <- !app_comm_cons, <- app_assoc.
Qed.

Lemma before_take {A} (a b : A) n l : before a b (take n l) → before a b l.
Proof.
  intros Hb. rewrite <- (take_drop n l). by apply before_app_l.
Qed.

Lemma before_map {A B} (f : A → B) a b l :
  before a b l → before (f a) (f b) (map f l).
Proof.
  intros (l1 & l2 & l3 & ->). exists (map f l1), (map f l2), (map f l3).
  by rewrite !map_app, !map_cons, map_app.
Qed.

Lemma filter_eq_cons {A} (f : A → bool) l a r :
  List.filter f l = a :: r →
  ∃ l1 l2, l = l1 ++ a :: l2 ∧ f a = true ∧
           List.filter f l1 = [] ∧ List.filter f l2 = r.
Proof.
  induction l as [|x l IH]; simpl; [done|].
  destruct (f x) eqn:Hx.
  - intros [= -> <-]. by exists [], l.
  - intros (l1 & l2 & -> & Ha & H1 & H2)%IH. exists (x :: l1), l2.
    simpl. by rewrite Hx.
Qed.

Lemma filter_eq_app_cons {A} (f : A → bool) l p a r :
  List.filter f l = p ++ a :: r →
  ∃ l1 l2, l = l1 ++ a :: l2 ∧ List.filter f l1 = p ∧ List.filter f l2 = r.
Proof.
  revert l. induction p as [|x p IH]; intros l; simpl.
  - intros (l1 & l2 & -> & _ & H1 & H2)%filter_eq_cons. by exists l1, l2.
  - intros (l1 & l2 & -> & Hx & H1 & H2)%filter_eq_cons.
    apply IH in H2 as (m1 & m2 & -> & H3 & H4).
    exists (l1 ++ x :: m1), m2. split; [by rewrite <- app_assoc|].
    split; [|done]. rewrite List.filter_app, H1. simpl.
    by rewrite Hx, H3.
Qed.

Lemma before_filter_inv {A} (f : A → bool) a b l :
  before a b (List.filter f l) → before a b l.
Proof.
  intros (p & q & r & Hf).
  apply filter_eq_app_cons in Hf as (l1 & l2 & -> & _ & Hf).
  apply filter_eq_app_cons in Hf as (m1 & m2 & -> & _ & _).
  by exists l1, m1, m2.
Qed.

Lemma before_filter {A} (f : A → bool) a b l :
  f a = true → f b = true → before a b l → before a b (List.filter f l).
Proof.
  intros Ha Hb (l1 & l2 & l3 & ->).
  exists (List.filter f l1), (List.filter f l2), (List.filter f l3).
  rewrite List.filter_app. simpl. rewrite Ha, List.filter_app. simpl.
  by rewrite Hb.
Qed.

(** ** Sorting the counts *)

Lemma comes_after_le rank e e' :
  comes_after rank e e' = true → (e.2 ≤ e'.2)%nat.
Proof.
  unfold comes_after. intros [Hlt|[Heq _]%andb_true_iff]%orb_true_iff.
  - apply Nat.ltb_lt in Hlt. lia.
  - apply Nat.eqb_eq in Heq. lia.
Qed.

Lemma comes_after_ge rank e e' :
  comes_after rank e e' = false → (e'.2 ≤ e.2)%nat.
Proof.
  unfold comes_after. intros [Hlt _]%orb_false_iff.
  by apply Nat.ltb_ge in Hlt.
Qed.

Lemma insert_desc_filter rank (p : cell * nat → bool) e l :
  (∀ e', p e = true → p e' = true → comes_after rank e e' = false) →
  List.filter p (insert_desc rank e l) = List.filter p (e :: l).
Proof.
  intros Hp. induction l as [|e' l IH]; [done|]. simpl.
  destruct (comes_after rank e e') eqn:Hlt; [|done].
  simpl. rewrite IH. simpl.
  destruct (p e) eqn:He, (p e') eqn:He'; try done.
  by rewrite Hp in Hlt.
Qed.

(** With all ranks alike, entries with the same count keep their order. *)
Lemma sort_desc_stable rank n l :
  (∀ e e', rank e = rank e') →
  List.filter (λ e, (e.2 =? n)%nat) (sort_desc rank l) =
  List.filter (λ e, (e.2 =? n)%nat) l.
Proof.
  intros Hrank. induction l as [|e l IH]; [done|]. simpl.
  rewrite insert_desc_filter.
  - simpl. by rewrite IH.
  - intros e' He He'. apply Nat.eqb_eq in He, He'. unfold comes_after.
    rewrite (Hrank e' e), Nat.ltb_irrefl, andb_false_r, orb_false_r.
    apply Nat.ltb_ge. lia.
Qed.

Lemma insert_desc_perm rank e l : insert_desc rank e l ≡ₚ e :: l.
Proof.
  induction l as [|e' l IH]; [done|]. simpl.
  destruct (comes_after rank e e'); [|done]. rewrite IH. apply Permutation_swap.
Qed.

Lemma sort_desc_perm rank l : sort_desc rank l ≡ₚ l.
Proof.
  induction l as [|e l IH]; [done|]. simpl.
  by rewrite insert_desc_perm, IH.
Qed.

Lemma insert_desc_sorted rank e l :
  StronglySorted (λ a b, (b.2 ≤ a.2)%nat) l →
  StronglySorted (λ a b, (b.2 ≤ a.2)%nat) (insert_desc rank e l).
Proof.
  induction 1 as [|e' l Hl IH Hall]; simpl.
  - repeat constructor.
  - destruct (comes_after rank e e') eqn:Hlt.
    + apply comes_after_le in Hlt. constructor; [done|].
      rewrite insert_desc_perm. constructor; [lia|done].
    + apply comes_after_ge in Hlt. constructor; [by constructor|].
      constructor; [done|]. eapply Forall_impl; [exact Hall|]. simpl. lia.
Qed.

Lemma sort_desc_sorted rank l :
  StronglySorted (λ a b, (b.2 ≤ a.2)%nat) (sort_desc rank l).
Proof.
  induction l as [|e l IH]; simpl; [constructor|].
  by apply insert_desc_sorted.
Qed.

Lemma sorted_descending l :
  StronglySorted (λ a b, (b.2 ≤ a.2)%nat) l → descending l.
Proof.
  induction 1 as [|e0 l Hl IH Hall]; intros i j e e' Hij Hi Hj; [done|].
  destruct i as [|i], j as [|j]; try lia; simpl in *.
  - injection Hi as <-. rewrite Forall_forall in Hall. apply Hall.
    by eapply list_elem_of_lookup_2.
  - eapply (IH i j); [lia|done..].
Qed.

Lemma descending_take n l : descending l → descending (take n l).
Proof.
  intros Hl i j e e' Hij Hi Hj.
  apply lookup_take_Some in Hi as [Hi _].
  apply lookup_take_Some in Hj as [Hj _]. by eapply Hl.
Qed.

(** ** Every arrangement with larger counts first is a sort by some rank *)

Lemma insert_desc_between rank e l1 l2 :
  Forall (λ x, comes_after rank e x = true) l1 →
  Forall (λ x, comes_after rank e x = false) l2 →
  insert_desc rank e (l1 ++ l2) = l1 ++ e :: l2.
Proof.
  intros H1 H2. induction H1 as [|x l1 Hx _ IH]; simpl.
  - destruct H2 as [|y l2 Hy _]; simpl; [done|]. by rewrite Hy.
  - by rewrite Hx, IH.
Qed.

Lemma index_of_app_r e l1 l2 :
  e ∉ l1 → index_of e (l1 ++ l2) = (length l1 + index_of e l2)%nat.
Proof.
  induction l1 as [|x l1 IH]; simpl; [done|].
  intros [Hne Hnotin]%not_elem_of_cons.
  rewrite decide_False by done. by rewrite IH.
Qed.

Lemma index_of_app_l e l1 l2 :
  e ∈ l1 → (index_of e (l1 ++ l2) < length l1)%nat.
Proof.
  induction l1 as [|x l1 IH]; simpl; [by intros ?%elem_of_nil|].
  intros [->|Hin]%elem_of_cons.
  - rewrite decide_True by done. lia.
  - destruct (decide (x = e)); [lia|]. apply IH in Hin. lia.
Qed.

(** In an arrangement with larger counts first, ranked by position, an
    entry comes after those before it and not after those behind it. *)
Lemma comes_after_in_arrangement o1 e o2 :
  NoDup (o1 ++ e :: o2) →
  StronglySorted (λ a b, (b.2 ≤ a.2)%nat) (o1 ++ e :: o2) →
  Forall (λ x, comes_after (λ y, index_of y (o1 ++ e :: o2)) e x = true) o1 ∧
  Forall (λ x, comes_after (λ y, index_of y (o1 ++ e :: o2)) e x = false) o2.
Proof.
  intros Hnd Hsorted.
  apply NoDup_app in Hnd as (Hnd1 & Hdisj & [He2 Hnd2]%NoDup_cons).
  assert (He1 : e ∉ o1).
  { intros Hin. apply (Hdisj e Hin). by left. }
  assert (Hrank : index_of e (o1 ++ e :: o2) = length o1).
  { rewrite index_of_app_r by done. simpl. rewrite decide_True by done. lia. }
  assert (Hle : Forall (λ x, (e.2 ≤ x.2)%nat) o1 ∧
                Forall (λ x, (x.2 ≤ e.2)%nat) o2).
  { clear -Hsorted. induction o1 as [|x o1 IH]; simpl in *.
    - apply StronglySorted_inv in Hsorted as [_ Hall]. by split.
    - apply StronglySorted_inv in Hsorted as [Hsorted Hall].
      destruct (IH Hsorted) as [IH1 IH2]. split; [|done].
      constructor; [|done]. rewrite Forall_app, Forall_cons in Hall.
      by destruct Hall as (_ & ? & _). }
  destruct Hle as [Hle1 Hle2]. split; apply Forall_forall.
  - intros x Hx. rewrite Forall_forall in Hle1. specialize (Hle1 x Hx).
    unfold comes_after. rewrite Hrank.
    pose proof (index_of_app_l x o1 (e :: o2) Hx) as Hlt.
    destruct (decide (e.2 = x.2)) as [Heq|Hne].
    + rewrite Heq, Nat.ltb_irrefl, Nat.eqb_refl. simpl. by apply Nat.ltb_lt.
    + apply orb_true_iff. left. apply Nat.ltb_lt. lia.
  - intros x Hx. rewrite Forall_forall in Hle2. specialize (Hle2 x Hx).
    unfold comes_after. rewrite Hrank.
    assert (Hgt : (length o1 < index_of x (o1 ++ e :: o2))%nat).
    { rewrite index_of_app_r.
      - simpl. rewrite decide_False; [lia|]. intros ->. done.
      - intros Hin. apply (Hdisj x Hin). by right. }
    apply orb_false_iff. split; [apply Nat.ltb_ge; lia|].
    apply andb_false_iff. right. apply Nat.ltb_ge. lia.
Qed.

(** Sorting any part of the arrangement, ranked by position in it, gives
    that part in the order of the arrangement. *)
Lemma sort_desc_by_position out l :
  NoDup out →
  StronglySorted (λ a b, (b.2 ≤ a.2)%nat) out →
  NoDup l →
  (∀ x, x ∈ l → x ∈ out) →
  sort_desc (λ y, index_of y out) l =
  List.filter (λ x, bool_decide (x ∈ l)) out.
Proof.
  intros Hnd Hsorted. induction l as [|e l IH]; intros Hl Hsub;
    cbn [sort_desc].
  - symmetry. clear. induction out as [|x out IH]; [done|].
    cbn [List.filter].
    rewrite bool_decide_eq_false_2; [done|]. apply not_elem_of_nil.
  - apply NoDup_cons in Hl as [He Hl].
    rewrite IH; [|done|]. 2:{ intros x Hx. apply Hsub. by right. }
    assert (Hin : e ∈ out) by (apply Hsub; by left).
    apply list_elem_of_split in Hin as (o1 & o2 & ->).
    destruct (comes_after_in_arrangement o1 e o2 Hnd Hsorted) as [H1 H2].
    apply NoDup_app in Hnd as (_ & Hdisj & [He2 _]%NoDup_cons).
    assert (He1 : e ∉ o1).
    { intros Hin. apply (Hdisj e Hin). by left. }
    rewrite !List.filter_app. cbn [List.filter].
    rewrite (bool_decide_eq_false_2 (e ∈ l)) by done.
    rewrite (bool_decide_eq_true_2 (e ∈ e :: l)) by by left.
    rewrite insert_desc_between.
    + f_equal; [|f_equal]; apply filter_ext_in; intros x Hx%list_elem_of_In;
        apply bool_decide_ext; rewrite elem_of_cons;
        (split; [by right|]); intros [->|?]; done.
    + apply Forall_forall. intros x [Hx _]%list_elem_of_In%filter_In.
      rewrite Forall_forall in H1. by apply H1, list_elem_of_In.
    + apply Forall_forall. intros x [Hx _]%list_elem_of_In%filter_In.
      rewrite Forall_forall in H2. by apply H2, list_elem_of_In.
Qed.

(** The parameter loses nothing: an arrangement of a series without
    repeated entries that has its larger counts first is what the sort
    gives when each entry is ranked by its place in that arrangement. *)
Lemma every_arrangement_is_a_sort s out :
  NoDup s →
  out ≡ₚ s →
  StronglySorted (λ a b, (b.2 ≤ a.2)%nat) out →
  @sort_values_desc {| tie_rank := λ _ y, index_of y out |} s = out.
Proof.
  intros Hs Hperm Hsorted. unfold sort_values_desc. simpl.
  assert (Hnd : NoDup out) by by rewrite Hperm.
  rewrite sort_desc_by_position; [|done..|].
  2:{ intros x Hx. by rewrite Hperm. }
  apply filter_all, Forall_forall. intros x Hx.
  apply bool_decide_eq_true_2. by rewrite <- Hperm.
Qed.

(** ** The table of counts *)

Lemma count_groups_snoc col x :
  count_groups (col ++ [x]) = bump x (count_groups col).
Proof. unfold count_groups. by rewrite fold_left_app. Qed.

Lemma bump_keys x g :
  (bump x g).*1 = if bool_decide (x ∈ g.*1) then g.*1 else g.*1 ++ [x].
Proof.
  induction g as [|[k n] g IH]; csimpl; [done|].
  destruct (decide (x = k)) as [->|Hne]; csimpl.
  - rewrite bool_decide_eq_true_2; [done|by left].
  - rewrite IH. destruct (bool_decide (x ∈ g.*1)) eqn:Hx.
    + apply bool_decide_eq_true_1 in Hx.
      rewrite bool_decide_eq_true_2; [done|by right].
    + apply bool_decide_eq_false_1 in Hx.
      rewrite bool_decide_eq_false_2; [done|].
      by intros [?|?]%elem_of_cons.
Qed.

Lemma bump_counts x g (cnt : cell → nat) :
  NoDup g.*1 →
  (∀ k n, (k, n) ∈ g → n = cnt k) →
  (x ∉ g.*1 → cnt x = 0%nat) →
  ∀ k n, (k, n) ∈ bump x g →
         n = (cnt k + (if bool_decide (k = x) then 1 else 0))%nat.
Proof.
  induction g as [|[k0 n0] g IH]; csimpl; intros Hnd Hg Hx k n Hin.
  - apply list_elem_of_singleton in Hin as [= -> ->].
    rewrite bool_decide_eq_true_2 by done. rewrite Hx; [done|].
    apply not_elem_of_nil.
  - apply NoDup_cons in Hnd as [Hk0 Hnd].
    destruct (decide (x = k0)) as [->|Hne].
    + apply elem_of_cons in Hin as [[= -> ->]|Hin].
      * rewrite bool_decide_eq_true_2 by done.
        rewrite <- (Hg k0 n0); [lia|by left].
      * assert (k ≠ k0).
        { intros ->. apply Hk0. apply list_elem_of_fmap. by exists (k0, n). }
        rewrite bool_decide_eq_false_2 by done.
        rewrite <- (Hg k n); [lia|by right].
    + apply elem_of_cons in Hin as [[= -> ->]|Hin].
      * rewrite bool_decide_eq_false_2 by done.
        rewrite <- (Hg k0 n0); [lia|by left].
      * apply IH; [done| |by intros; apply Hx; intros [?|?]%elem_of_cons|done].
        intros k' n' Hin'. apply Hg. by right.
Qed.

Lemma count_of_snoc k col x :
  count_of k (col ++ [x]) =
  (count_of k col + (if bool_decide (k = x) then 1 else 0))%nat.
Proof.
  unfold count_of. rewrite List.filter_app, length_app. simpl.
  destruct (decide (k = x)) as [->|Hne].
  - by rewrite !bool_decide_eq_true_2 by done.
  - rewrite !bool_decide_eq_false_2 by done. done.
Qed.

Lemma count_of_absent k col : k ∉ col → count_of k col = 0%nat.
Proof.
  unfold count_of. induction col as [|c col IH]; [done|].
  intros Hk. simpl. rewrite bool_decide_eq_false_2.
  - apply IH. intros ?. apply Hk. by right.
  - intros ->. apply Hk. by left.
Qed.

Lemma count_of_present k col : k ∈ col → (0 < count_of k col)%nat.
Proof.
  unfold count_of. induction 1 as [k col|k c col _ IH]; simpl.
  - rewrite bool_decide_eq_true_2 by done. simpl. lia.
  - destruct (bool_decide (c = k)); simpl; lia.
Qed.

(** The keys of the table are the values of the column, each once, in the
    order in which they are first met. *)
Lemma count_groups_keys col :
  NoDup (count_groups col).*1 ∧
  (∀ k, k ∈ (count_groups col).*1 ↔ k ∈ col) ∧
  (∀ k1 k2, before k1 k2 (count_groups col).*1 →
     ∃ p, col !! p = Some k1 ∧ ∀ q, col !! q = Some k2 → (p < q)%nat).
Proof.
  induction col as [|x col (Hnd & Hkeys & Hord)] using rev_ind.
  { split; [constructor|]. split.
    - intros k. simpl. rewrite !elem_of_nil. done.
    - intros k1 k2 ([|??] & ? & ? & [=]). }
  rewrite count_groups_snoc, bump_keys.
  destruct (bool_decide (x ∈ (count_groups col).*1)) eqn:Hx.
  - apply bool_decide_eq_true_1 in Hx. split; [done|]. split.
    + intros k. rewrite elem_of_app, list_elem_of_singleton, Hkeys.
      split; [by left|]. intros [?| ->]; [done|]. by apply Hkeys.
    + intros k1 k2 Hb. destruct (Hord k1 k2 Hb) as (p & Hp & Hq).
      exists p. split; [by apply lookup_app_l_Some|].
      intros q Hq'. apply lookup_app_Some in Hq' as [Hq'|[Hlen _]]; [by apply Hq|].
      apply lookup_lt_Some in Hp. lia.
  - apply bool_decide_eq_false_1 in Hx. split.
    { apply NoDup_app. split; [done|]. split; [|apply NoDup_singleton].
      intros k Hk ->%list_elem_of_singleton. done. }
    split.
    + intros k. rewrite !elem_of_app, !list_elem_of_singleton, Hkeys. done.
    + intros k1 k2 (l1 & l2 & l3 & Heq).
      destruct l3 as [|y l3 _] using rev_ind.
      * (* [k2] is the new key *)
        rewrite app_comm_cons, app_assoc in Heq.
        apply app_inj_tail in Heq as [Heq <-].
        assert (Hk1 : k1 ∈ col).
        { apply Hkeys. rewrite Heq. apply elem_of_app. right. by left. }
        apply list_elem_of_lookup in Hk1 as [p Hp]. exists p.
        split; [by apply lookup_app_l_Some|].
        intros q Hq. apply lookup_app_Some in Hq as [Hq|[Hlen _]].
        -- exfalso. apply Hx, Hkeys. by eapply list_elem_of_lookup_2.
        -- apply lookup_lt_Some in Hp. lia.
      * rewrite !app_comm_cons, !app_assoc in Heq.
        apply app_inj_tail in Heq as [Heq _].
        destruct (Hord k1 k2) as (p & Hp & Hq).
        { exists l1, l2, l3. rewrite Heq. by rewrite <- !app_assoc. }
        exists p. split; [by apply lookup_app_l_Some|].
        intros q Hq'. apply lookup_app_Some in Hq' as [Hq'|[Hlen _]]; [by apply Hq|].
        apply lookup_lt_Some in Hp. lia.
Qed.

(** Each count is the number of occurrences of its key. *)
Lemma count_groups_counts col k n :
  (k, n) ∈ count_groups col → n = count_of k col.
Proof.
  revert k n. induction col as [|x col IH] using rev_ind; intros k n.
  { by intros ?%elem_of_nil. }
  rewrite count_groups_snoc, count_of_snoc.
  destruct (count_groups_keys col) as (Hnd & Hkeys & _).
  intros Hin.
  apply (bump_counts x (count_groups col) (λ k, count_of k col));
    [done|done| |done].
  intros Hx. apply count_of_absent. by rewrite <- Hkeys.
Qed.

Lemma first_seen_before_filter (f : cell → bool) k1 k2 col :
  f k2 = true →
  first_seen_before k1 k2 (List.filter f col) →
  first_seen_before k1 k2 col.
Proof.
  intros Hf2 (p & Hp & Hq).
  pose proof (take_drop_middle _ _ _ Hp) as Hsplit. symmetry in Hsplit.
  apply filter_eq_app_cons in Hsplit as (l1 & l2 & -> & Hl1 & _).
  exists (length l1). split; [by apply list_lookup_middle|].
  intros q Hq2.
  destruct (decide (q < length l1)%nat) as [Hlt|Hge].
  - exfalso. rewrite lookup_app_l in Hq2 by done.
    assert (Hin : k2 ∈ take p (List.filter f (l1 ++ k1 :: l2))).
    { rewrite <- Hl1. apply list_elem_of_In, filter_In.
      split; [|done]. apply list_elem_of_In. by eapply list_elem_of_lookup_2. }
    apply list_elem_of_lookup in Hin as [q' Hq'].
    apply lookup_take_Some in Hq' as [Hq' Hlt']. apply Hq in Hq'. lia.
  - destruct (decide (q = length l1)) as [->|Hne]; [|lia].
    exfalso. rewrite list_lookup_middle in Hq2 by done.
    injection Hq2 as ->. apply Hq in Hp. lia.
Qed.

(** ** What [value_counts] returns *)

Section ValueCounts.
Context `{Sorting}.

Lemma value_counts_elem col k n :
  (k, n) ∈ value_counts col ↔ isna k = false ∧ k ∈ col ∧ n = count_of k col.
Proof.
  unfold value_counts, value_counts_with, sort_values_desc.
  set (values := List.filter (λ c, negb (isna c)) col).
  rewrite sort_desc_perm.
  destruct (count_groups_keys values) as (Hnd & Hkeys & _).
  assert (Hval : ∀ c, c ∈ values ↔ isna c = false ∧ c ∈ col).
  { intros c. unfold values. rewrite !list_elem_of_In, filter_In.
    rewrite negb_true_iff. tauto. }
  assert (Hcnt : ∀ c, isna c = false → count_of c values = count_of c col).
  { intros c Hc. unfold count_of, values. f_equal.
    clear -Hc. induction col as [|x col IH]; [done|]. simpl.
    destruct (isna x) eqn:Hx; simpl.
    - rewrite bool_decide_eq_false_2; [done|]. intros ->. congruence.
    - destruct (bool_decide (x = c)); simpl; by rewrite IH. }
  split.
  - intros Hin. assert (Hk : k ∈ values).
    { apply Hkeys, list_elem_of_fmap. by exists (k, n). }
    apply Hval in Hk as [Hna Hk]. repeat split; [done..|].
    rewrite <- Hcnt by done. by apply count_groups_counts.
  - intros (Hna & Hk & ->).
    assert (Hk' : k ∈ (count_groups values).*1) by by apply Hkeys, Hval.
    apply list_elem_of_fmap in Hk' as ([k' n'] & -> & Hin). simpl.
    rewrite <- Hcnt by done.
    by rewrite <- (count_groups_counts _ _ _ Hin).
Qed.

Lemma value_counts_descending col : descending (value_counts col).
Proof. apply sorted_descending, sort_desc_sorted. Qed.

(** Where the sort keeps equal counts in order, of two groups with the
    same count the first is the one met first in the column. *)
Lemma value_counts_ties col i j e e' :
  keeps_ties (count_groups (List.filter (λ c, negb (isna c)) col)) →
  (i < j)%nat →
  value_counts col !! i = Some e →
  value_counts col !! j = Some e' →
  e.2 = e'.2 →
  first_seen_before e.1 e'.1 col.
Proof.
  intros Hkeeps Hij Hi Hj Htie.
  assert (Hna : isna e'.1 = false).
  { destruct e' as [k' n']. eapply value_counts_elem.
    by eapply list_elem_of_lookup_2. }
  apply (first_seen_before_filter (λ c, negb (isna c))); [by rewrite Hna|].
  apply count_groups_keys.
  apply (before_map fst e e').
  apply (before_filter_inv (λ x, (x.2 =? e.2)%nat)).
  rewrite <- (sort_desc_stable (tie_rank _)) by exact Hkeeps.
  apply before_filter; [by apply Nat.eqb_eq..|].
  by eapply before_lookup.
Qed.

End ValueCounts.

(** ** The grouping views *)

Lemma result_bind_ok {A B} (m : result A) (k : A → result B) b :
  (x ← m; k x) = Ok b → ∃ a, m = Ok a ∧ k a = Ok b.
Proof. destruct m as [a|e]; [|done]. intros Hk. by exists a. Qed.

(** C7, as the code has it.  Whenever the top-journals view returns, it
    returns at most 10 journal groups, each with the number of rows of the
    filtered subset that have that journal, and counts never increase
    along the output.  The order of two groups with the same count is the
    one the library's sort gives them: where that sort keeps equal counts
    in the order of the series, the group that comes first is the one
    whose journal is met first in the subset. *)
Theorem top_journals_ten_descending `{Sorting} df year_range top_journals :
  plot_top_journals df year_range = Ok top_journals →
  ∃ filtered journal,
    filter_by_year df year_range.1 year_range.2 = Ok filtered ∧
    getitem filtered "journal" = Ok journal ∧
    (length top_journals ≤ 10)%nat ∧
    (∀ k n, (k, n) ∈ top_journals → n = count_of k journal) ∧
    descending top_journals ∧
    (keeps_ties (count_groups (List.filter (λ c, negb (isna c)) journal)) →
     ∀ i j e e', (i < j)%nat →
       top_journals !! i = Some e → top_journals !! j = Some e' →
       e.2 = e'.2 → first_seen_before e.1 e'.1 journal).
Proof.
  unfold plot_top_journals. intros Hrun.
  apply result_bind_ok in Hrun as (filtered & Hf & Hrun).
  apply result_bind_ok in Hrun as (journal & Hj & Hrun).
  assert (Htop : top_journals = take 10 (value_counts journal))
    by (unfold head in Hrun; congruence).
  clear Hrun. subst top_journals. exists filtered, journal.
  split; [done|]. split; [done|]. split; [|split; [|split]].
  - rewrite length_take. lia.
  - intros k n (i & Hin%list_elem_of_lookup_2 & _)%elem_of_take.
    by apply value_counts_elem in Hin as (_ & _ & ->).
  - apply descending_take, value_counts_descending.
  - intros Hkeeps i j e e' Hij [Hi _]%lookup_take_Some [Hj' _]%lookup_take_Some.
    by apply value_counts_ties with i j.
Qed.

Section ViewClaims.
Context `{Pandas} `{Sorting}.

Lemma cleaned_columns raw log t c :
  clean_table raw = Logged log (Ok t) → c ∈ columns raw → c ∈ columns t.
Proof.
  intros (_ & -> & _)%clean_table_ok Hc.
  apply elem_of_add_column. left. apply elem_of_add_column. by left.
Qed.


End ViewClaims.

Lemma corpus_cleaned :
  ∃ log, @clean_table Demo.pandas Demo.corpus = Logged log (Ok Demo.papers).
Proof. eexists. vm_compute. reflexivity. Qed.

Lemma top_journals_ten_descending_witness :
  @plot_top_journals Demo.in_order Demo.papers (2018, 2021) = Ok Demo.ranking ∧
  (length Demo.ranking ≤ 10)%nat ∧
  descending Demo.ranking.
Proof.
  split; [vm_compute; reflexivity|].
  destruct (@top_journals_ten_descending Demo.in_order Demo.papers (2018, 2021)
              Demo.ranking ltac:(vm_compute; reflexivity))
    as (filtered & journal & _ & _ & Hlen & _ & Hdesc & _).
  by split.
Defined.

(** C7, as stated, fails where the library's sort does not keep equal
    counts in order, which its default kind does not promise: with twenty
    journals of one paper each and a sort that reverses equal counts on
    series of more than 16 entries, the view shows the ten journals met
    last, the last one first. *)
Lemma ties_follow_the_library_sort :
  @plot_top_journals Cases.reversing_long_ties Cases.twenty_papers (2020, 2020) =
    Ok (map (λ j, (Str (py j), 1%nat))
            ["J20"; "J19"; "J18"; "J17"; "J16";
             "J15"; "J14"; "J13"; "J12"; "J11"]) ∧
  map (at_label "journal") (rows Cases.twenty_papers) =
    map (λ j, Str (py j)) Cases.journal_names ∧
  ¬ first_seen_before (Str (py "J20")) (Str (py "J19"))
      (map (λ j, Str (py j)) Cases.journal_names).
Proof.
  split; [vm_compute; reflexivity|]. split; [vm_compute; reflexivity|].
  intros (p & Hp & Hq).
  assert (H19 : (p < 18)%nat) by (apply Hq; reflexivity).
  do 18 (destruct p as [|p]; [discriminate Hp|]). lia.
Defined.



(** ** Summary statistics *)

Section SummaryFacts.
Context `{Pandas}.

(** Lines 90-91 by themselves have no guard: on a subset without rows
    they would give a count of 0 and the NaN that the mean of an empty
    column is. *)
Lemma summary_statistics_of_no_rows raw log t min_year max_year filtered :
  clean_table raw = Logged log (Ok t) →
  filter_by_year t min_year max_year = Ok filtered →
  len filtered = 0%nat →
  summary_statistics filtered = Ok [TotalPapers 0; AverageWordCount FNaN].
Proof.
  intros Hrun Hf Hempty.
  destruct (cleaned_year_column _ _ _ Hrun) as [Hcol Hnum].
  rewrite filter_by_year_ok in Hf; [|done|].
  2:{ eapply Forall_impl; [exact Hnum|]. by intros r [y ->]. }
  injection Hf as <-. unfold len in Hempty. simpl in Hempty.
  apply length_zero_iff_nil in Hempty.
  unfold summary_statistics, len, getitem, has_column. simpl.
  rewrite Hempty. rewrite bool_decide_eq_true_2; [done|].
  apply clean_table_ok in Hrun as (_ & -> & _).
  apply elem_of_add_column. by right.
Qed.

End SummaryFacts.

(** ** The fetcher and repeated runs *)

Section FetcherClaims.
Context `{Pandas}.

Lemma download_dataset_skips w content :
  metadata_csv w = Some content →
  download_dataset w = Outcome [Print MsgAlreadyExistsSkipping] w (Ok true).
Proof.
  intros Hfile. unfold download_dataset, path_exists, ask, mbind, IO_bind.
  by rewrite Hfile.
Qed.

Lemma download_metadata_only_skips w content :
  metadata_csv w = Some content →
  download_metadata_only w =
  Outcome [Print MsgAlreadyInDirectory; Print (MsgFileSize (length content))]
          w (Ok true).
Proof.
  intros Hfile.
  unfold download_metadata_only, path_exists, getsize, ask, mbind, IO_bind.
  rewrite Hfile. simpl. by rewrite Hfile.
Qed.

(** C9.  With [metadata.csv] present, [download_dataset] and the
    script's [download_metadata_only] both return [True] at once: the run
    only prints (no child process, no authentication, no download, no
    write), and the world, the file included, is as it was. *)
Theorem fetcher_skips_existing_file w content :
  metadata_csv w = Some content →
  (∃ trace, download_dataset w = Outcome trace w (Ok true) ∧
            Forall (λ e, is_print e = true) trace) ∧
  (∃ trace, download_metadata_only w = Outcome trace w (Ok true) ∧
            Forall (λ e, is_print e = true) trace).
Proof.
  intros Hfile. split; eexists; split.
  - by eapply download_dataset_skips.
  - by repeat constructor.
  - by eapply download_metadata_only_skips.
  - by repeat constructor.
Qed.

(** What a run of [load_and_clean_data] that returns a table went through. *)
Lemma load_and_clean_data_ok w trace w' t :
  load_and_clean_data w = Outcome trace w' (Ok (Some t)) →
  ∃ bytes df log,
    metadata_csv w' = Some bytes ∧
    read_csv None bytes = Ok df ∧
    clean_table df = Logged log (Ok t).
Proof.
  unfold load_and_clean_data, mbind, IO_bind.
  destruct (download_dataset w) as [t1 w1 [[|]|e]]; simpl; [| |done].
  - unfold read_metadata_csv.
    destruct (metadata_csv w1) as [bytes|] eqn:Hfile; [|done].
    destruct (read_csv None bytes) as [df|e] eqn:Hread; [|done].
    unfold emit. destruct (clean_table df) as [log [t'|e]] eqn:Hclean; [|done].
    simpl. intros [= _ <- <-]. by exists bytes, df, log.
  - unfold mret, IO_ret. by intros [= _ _].
Qed.

Lemma load_and_clean_data_from_file w bytes df log t :
  metadata_csv w = Some bytes →
  read_csv None bytes = Ok df →
  clean_table df = Logged log (Ok t) →
  load_and_clean_data w =
  Outcome (Print MsgAlreadyExistsSkipping :: map Print log) w (Ok (Some t)).
Proof.
  intros Hfile Hread Hclean.
  unfold load_and_clean_data, mbind, IO_bind.
  rewrite (download_dataset_skips w bytes Hfile). simpl.
  unfold read_metadata_csv. rewrite Hfile, Hread.
  unfold emit. rewrite Hclean. simpl. by rewrite app_nil_r.
Qed.


End FetcherClaims.

Lemma fetcher_skips_existing_file_witness :
  ∃ trace,
    @download_metadata_only Demo.pandas Demo.later_run =
      Outcome trace Demo.later_run (Ok true) ∧
    Forall (λ e, is_print e = true) trace.
Proof.
  eapply (@fetcher_skips_existing_file Demo.pandas Demo.later_run).
  reflexivity.
Defined.


(** ** The code run on the examples *)

(** The scenario of the specification: of the three rows only paper A is
    kept, with year 2020 and three words; the count printed is 1. *)
Example scenario_cleaned :
  ∃ t, @clean_table Demo.pandas Demo.scenario =
         Logged [MsgDropped 1; MsgFinalShape (1%nat, 7%nat);
                 MsgYearRange (Some 2020) (Some 2020)] (Ok t) ∧
       map (λ r, (at_label "title" r, at_label "year" r,
                  at_label "abstract_word_count" r)) (rows t) =
       [(Str (py "A"), Num 2020, Num 3)].
Proof. eexists. split; vm_compute; reflexivity. Qed.

Example split_examples :
  map split [py "x y z"; py ""; py "   "; py "  two  words "] =
  [[py "x"; py "y"; py "z"]; []; []; [py "two"; py "words"]].
Proof. reflexivity. Qed.

Example year_of_ns_examples :
  map year_of_ns [0; -1; 18262 * ns_per_day - 1; 18262 * ns_per_day] =
  [1970; 1969; 2019; 2020].
Proof. reflexivity. Qed.

(** A first run: the child process authenticates, downloads and writes the
    file; of what it prints nothing reaches the terminal. *)
Example first_run_trace :
  ∃ w',
    @download_dataset Demo.pandas Demo.first_run =
      Outcome [Print MsgDownloading; RunSubprocess; KaggleAuthenticate;
               KaggleDownloadFiles; WriteMetadata Demo.csv_bytes;
               Print MsgDownloadedSuccessfully] w' (Ok true) ∧
    metadata_csv w' = Some Demo.csv_bytes.
Proof. eexists. split; vm_compute; reflexivity. Qed.

(** * Further properties *)

(** ** The fetcher when the file is absent *)

Lemma zip_open_listed members name :
  name ∈ map fst members → is_Some (zip_open members name).
Proof.
  induction members as [|[n c] members IH]; simpl.
  - by intros ?%elem_of_nil.
  - intros [->|Hin]%elem_of_cons.
    + destruct (zip_open members n); [by eexists|].
      rewrite String.eqb_refl. by eexists.
    + destruct (IH Hin) as [c' ->]. by eexists.
Qed.

Section FetcherFacts.
Context `{Pandas}.

Lemma extract_metadata_spec members w :
  let names := List.filter (λ f, endswith f "metadata.csv") (map fst members) in
  match names with
  | [] =>
      extract_metadata members w =
      Outcome [Print (MsgNotInArchive (take 10 (map fst members)))] w (Ok false)
  | name :: _ =>
      ∃ content, zip_open members name = Some content ∧
        extract_metadata members w =
        Outcome [Print (MsgFoundMetadataFile name); WriteMetadata content;
                 Print MsgExtracted] (with_metadata content w) (Ok true)
  end.
Proof.
  simpl. unfold extract_metadata.
  destruct (List.filter _ _) as [|name names] eqn:Hnames; [done|].
  assert (Hin : name ∈ map fst members).
  { assert (Hin : In name (List.filter (λ f, endswith f "metadata.csv")
                                       (map fst members)))
      by (rewrite Hnames; by left).
    apply filter_In in Hin as [Hin _]. by apply list_elem_of_In. }
  destruct (zip_open_listed _ _ Hin) as [content Hc].
  exists content. split; [done|]. by rewrite Hc.
Qed.

End FetcherFacts.
Section FetcherFacts2.
Context `{Pandas}.

Lemma verify_extracted_spec content w :
  ∃ trace,
    verify_extracted (with_metadata content w) =
    Outcome trace (with_metadata content w)
      (if sanity_read content w then Ok true
       else match read_csv (Some 3%nat) content with
            | Raise e => Raise e
            | Ok _ => Ok true
            end) ∧
    Forall (λ e, is_print e = true) trace.
Proof.
  unfold verify_extracted, sanity_read, mbind, IO_bind, path_exists, getsize,
    ask, print, emit_event, raise, mret, IO_ret. simpl.
  destruct (pandas_installed w); simpl.
  - destruct (read_csv (Some 3%nat) content) as [df|e]; simpl;
      eexists; split; try reflexivity; repeat constructor.
  - eexists; split; [reflexivity|]. repeat constructor.
Qed.

Lemma download_metadata_only_absent w :
  metadata_csv w = None →
  ∃ trace,
    download_metadata_only w =
      Outcome trace (fetch_result w).1 (Ok (fetch_result w).2) ∧
    KaggleAuthenticate ∈ trace ∧
    (RunSubprocess ∉ trace) ∧
    (KaggleDownloadFiles ∈ trace ↔ kaggle_credentials w = true) ∧
    (∀ c, WriteMetadata c ∈ trace ↔
          kaggle_credentials w = true ∧ archive_member w = Some c).
Proof.
  intros Hfile. unfold fetch_result, archive_member.
  unfold download_metadata_only, mbind, IO_bind, path_exists, ask.
  rewrite Hfile.
  unfold print, emit_event, try_except, kaggle_authenticate, mbind, IO_bind, ask,
    raise, mret, IO_ret. simpl.
  destruct (kaggle_credentials w) eqn:Hcred; simpl.
  2:{ eexists. split; [reflexivity|]. events. }
  unfold download_and_extract, kaggle_dataset_download_files, mbind, IO_bind,
    print, emit_event, ask, raise, mret, IO_ret. simpl.
  destruct (kaggle_download w) as [|[|[name [members|]] zips]] eqn:Hdl; simpl.
  - eexists. split; [reflexivity|]. events.
  - eexists. split; [reflexivity|]. events.
  - pose proof (extract_metadata_spec members w) as Hx. simpl in Hx.
    destruct (List.filter _ (map fst members)) as [|first names].
    + rewrite Hx. simpl. eexists. split; [reflexivity|]. events.
    + destruct Hx as (content & Hopen & ->). simpl.
      rewrite Hopen. unfold sanity_read, verify_extracted, mbind, IO_bind,
        path_exists, getsize, ask, print, emit_event, raise, mret, IO_ret.
      simpl.
      destruct (pandas_installed w); simpl.
      * destruct (read_csv (Some 3%nat) content); simpl;
          (eexists; split; [reflexivity|]); events.
      * eexists. split; [reflexivity|]. events.
  - eexists. split; [reflexivity|]. events.
Qed.

End FetcherFacts2.

Lemma IO_bind_outcome {A B} (m : IO A) (k : A → IO B) w t1 w1 a t2 w2 r :
  m w = Outcome t1 w1 (Ok a) →
  k a w1 = Outcome t2 w2 r →
  (x ← m; k x) w = Outcome (t1 ++ t2) w2 r.
Proof. intros Hm Hk. unfold mbind, IO_bind. by rewrite Hm, Hk. Qed.

Section FetcherExtras.
Context `{Pandas}.

Lemma download_metadata_only_outcome w :
  ∃ trace,
    download_metadata_only w =
      Outcome trace (after_fetch w).1 (Ok (after_fetch w).2) ∧
    (RunSubprocess ∉ trace) ∧
    (KaggleDownloadFiles ∈ trace ↔
       metadata_csv w = None ∧ kaggle_credentials w = true) ∧
    (∀ c, WriteMetadata c ∈ trace ↔
          metadata_csv w = None ∧ kaggle_credentials w = true ∧
          archive_member w = Some c).
Proof.
  unfold after_fetch. destruct (metadata_csv w) as [content|] eqn:Hfile.
  - rewrite (download_metadata_only_skips w content Hfile).
    eexists. split; [reflexivity|]. events.
  - destruct (download_metadata_only_absent w Hfile)
      as (trace & Hrun & _ & Hsub & Hdl & Hwr).
    exists trace. split; [done|]. split; [done|]. split.
    + rewrite Hdl. by intuition.
    + intros c. rewrite Hwr. by intuition.
Qed.

Lemma script_main_outcome w :
  ∃ trace,
    script_main w = Outcome trace (after_fetch w).1 (Ok tt) ∧
    (∀ e, e ∈ List.filter (λ e, negb (is_print e)) trace →
          e = KaggleAuthenticate ∨ e = KaggleDownloadFiles ∨
          ∃ c, e = WriteMetadata c ∧ kaggle_credentials w = true ∧
               archive_member w = Some c).
Proof.
  destruct (download_metadata_only_outcome w) as (trace & Hrun & Hsub & Hdl & Hwr).
  unfold script_main, mbind, IO_bind, print, emit_event. simpl. rewrite Hrun.
  assert (Hin : ∀ m e, negb (is_print e) = true →
    e ∈ Print MsgBanner :: Print MsgWorkingDirectory :: trace ++ [Print m] →
    e = KaggleAuthenticate ∨ e = KaggleDownloadFiles ∨
    ∃ c, e = WriteMetadata c ∧ kaggle_credentials w = true ∧
               archive_member w = Some c).
  { intros m e Hnp He.
    rewrite !elem_of_cons, elem_of_app, list_elem_of_singleton in He.
    destruct e as [m'| | | |c]; try done; auto.
    - by destruct He as [?|[?|[?|?]]].
    - right. right. exists c. split; [done|].
      destruct He as [?|[?|[He|?]]]; try done.
      by apply Hwr in He as (_ & ? & ?). }
  destruct (after_fetch w).2; simpl; eexists; (split; [reflexivity|]);
    intros e [He Hnp]%list_elem_of_In%filter_In; apply list_elem_of_In in He;
    by eapply Hin.
Qed.

Lemma download_metadata_py_outcome w :
  ∃ trace,
    download_metadata_py w =
      Outcome trace
        (if kaggle_installed w then (after_fetch w).1 else w)
        (Ok (if kaggle_installed w then 0 else 1)) ∧
    (∀ e, e ∈ List.filter (λ e, negb (is_print e)) trace →
          e = KaggleAuthenticate ∨ e = KaggleDownloadFiles ∨
          ∃ c, e = WriteMetadata c ∧ kaggle_credentials w = true ∧
               archive_member w = Some c).
Proof.
  unfold download_metadata_py, mbind, IO_bind, ask, try_except, print,
    emit_event, mret, IO_ret. simpl.
  destruct (kaggle_installed w).
  - destruct (script_main_outcome w) as (trace & -> & Hev). simpl.
    eexists. split; [reflexivity|]. by rewrite app_nil_r.
  - eexists. split; [reflexivity|]. simpl. by intros e ?%elem_of_nil.
Qed.

End FetcherExtras.

Section FetcherExtras2.
Context `{Pandas}.

Lemma download_dataset_outcome w :
  ∃ trace,
    download_dataset w =
      Outcome trace (after_download_dataset w).1
              (Ok (after_download_dataset w).2) ∧
    (RunSubprocess ∈ trace ↔ metadata_csv w = None) ∧
    (∀ c, WriteMetadata c ∈ trace →
          kaggle_credentials w = true ∧ archive_member w = Some c).
Proof.
  unfold after_download_dataset, after_fetch.
  destruct (metadata_csv w) as [content|] eqn:Hfile.
  { rewrite (download_dataset_skips w content Hfile).
    eexists. split; [reflexivity|]. events. }
  unfold download_dataset, mbind, IO_bind, path_exists, ask. rewrite Hfile.
  unfold print, emit_event, try_except, subprocess_run, mbind, IO_bind, ask,
    raise, capture_output, mret, IO_ret. simpl.
  destruct (python_starts w); simpl.
  2:{ eexists. split; [reflexivity|]. events. }
  destruct (download_metadata_py_outcome w) as (trace & -> & Hev).
  unfold after_fetch in *. rewrite Hfile in *.
  destruct (kaggle_installed w); simpl;
    (eexists; split; [reflexivity|]);
    (split; [split; [done|]; intros _; right; by left|]);
    intros c Hc;
    rewrite !elem_of_cons, elem_of_app, list_elem_of_singleton in Hc;
    destruct Hc as [?|[?|[Hc|?]]]; try done;
    by destruct (Hev _ Hc) as [?|[?|(c' & [= <-] & ? & ?)]].
Qed.

(** X1.  [download_dataset] never raises; it answers [False] exactly when the
    file is absent and either no child process starts or the script
    cannot import the Kaggle client.  A download that fails for any other
    reason is answered [True]. *)
Theorem download_dataset_answer w :
  ∃ trace w' b,
    download_dataset w = Outcome trace w' (Ok b) ∧
    (b = false ↔
       metadata_csv w = None ∧
       (python_starts w = false ∨ kaggle_installed w = false)).
Proof.
  destruct (download_dataset_outcome w) as (trace & Hrun & _).
  eexists _, _, _. split; [exact Hrun|].
  unfold after_download_dataset.
  destruct (metadata_csv w), (python_starts w), (kaggle_installed w); simpl;
    intuition congruence.
Qed.

End FetcherExtras2.

Section FetcherTheorems.
Context `{Pandas}.

(** X2.  [download_metadata_only] never raises, and when it returns [True] the
    file is in place: it is the file that was there, or, if there was
    none, the bytes of the archive's metadata member. *)
Theorem download_metadata_only_true_means_file w :
  ∃ trace w' b,
    download_metadata_only w = Outcome trace w' (Ok b) ∧
    (b = true →
     ∃ content, metadata_csv w' = Some content ∧
       (metadata_csv w = Some content ∨
        (metadata_csv w = None ∧ archive_member w = Some content))).
Proof.
  destruct (download_metadata_only_outcome w) as (trace & Hrun & _).
  eexists _, _, _. split; [exact Hrun|].
  unfold after_fetch, fetch_result.
  destruct (metadata_csv w) as [content|] eqn:Hfile; simpl.
  - intros _. exists content. rewrite Hfile. auto.
  - destruct (kaggle_credentials w); simpl; [|done].
    destruct (archive_member w) as [content|]; simpl; [|done].
    intros _. exists content. auto.
Qed.


(** With the file absent and the credentials rejected,
    [download_metadata_only] returns [False] after the authentication
    attempt: nothing is downloaded, nothing is written. *)
Lemma download_metadata_only_rejected w :
  metadata_csv w = None →
  kaggle_credentials w = false →
  download_metadata_only w =
  Outcome [Print MsgNotFoundStarting; KaggleAuthenticate;
           Print MsgAuthenticationFailed] w (Ok false).
Proof.
  intros Hfile Hcred.
  unfold download_metadata_only, mbind, IO_bind, path_exists, ask.
  rewrite Hfile.
  unfold print, emit_event, try_except, kaggle_authenticate, mbind, IO_bind,
    ask, raise, mret, IO_ret. simpl. by rewrite Hcred.
Qed.

(** X4.  When the check of the extracted file fails (pandas is installed and
    cannot read the first rows), [download_metadata_only] returns [False]
    but the file it wrote stays; the next call finds it and returns
    [True]. *)
Theorem download_metadata_only_failed_check_leaves_file w content e :
  metadata_csv w = None →
  kaggle_credentials w = true →
  archive_member w = Some content →
  pandas_installed w = true →
  read_csv (Some 3%nat) content = Raise e →
  ∃ trace trace',
    download_metadata_only w =
      Outcome trace (with_metadata content w) (Ok false) ∧
    WriteMetadata content ∈ trace ∧
    download_metadata_only (with_metadata content w) =
      Outcome trace' (with_metadata content w) (Ok true).
Proof.
  intros Hfile Hcred Hmem Hpd Hread.
  destruct (download_metadata_only_outcome w) as (trace & Hrun & _ & _ & Hwr).
  unfold after_fetch, fetch_result, sanity_read in Hrun.
  rewrite Hfile, Hcred, Hmem, Hpd, Hread in Hrun. simpl in Hrun.
  exists trace. eexists. split; [exact Hrun|]. split; [by apply Hwr|].
  by apply (download_metadata_only_skips _ content).
Qed.

(** X5.  After a call of [download_metadata_only] that returned [True], a
    further call returns [True] again, only prints, and changes nothing. *)
Theorem download_metadata_only_again w trace w' :
  download_metadata_only w = Outcome trace w' (Ok true) →
  ∃ trace',
    download_metadata_only w' = Outcome trace' w' (Ok true) ∧
    Forall (λ e, is_print e = true) trace'.
Proof.
  intros Hrun.
  destruct (download_metadata_only_outcome w) as (trace0 & Hrun0 & _).
  rewrite Hrun0 in Hrun. injection Hrun as _ <- Hb.
  assert (Hfile : ∃ content, metadata_csv (after_fetch w).1 = Some content).
  { revert Hb. unfold after_fetch, fetch_result.
    destruct (metadata_csv w) as [content|] eqn:Hfile; simpl;
      [by exists content|].
    destruct (kaggle_credentials w); simpl; [|done].
    destruct (archive_member w) as [content|]; simpl; [|done].
    by exists content. }
  destruct Hfile as [content Hfile].
  rewrite (download_metadata_only_skips _ content Hfile).
  eexists. split; [done|]. by repeat constructor.
Qed.

(** X6.  The script as a program never raises; its exit status is 1 when the
    Kaggle client cannot be imported and 0 otherwise, also when the
    download failed ([main] prints the failure and returns). *)
Theorem download_metadata_py_exit_status w :
  ∃ trace w',
    download_metadata_py w =
      Outcome trace w' (Ok (if kaggle_installed w then 0 else 1)) ∧
    (kaggle_installed w = false → w' = w ∧ trace = [Print MsgKaggleNotInstalled]).
Proof.
  unfold download_metadata_py, mbind, IO_bind, ask, try_except, print,
    emit_event, mret, IO_ret. simpl.
  destruct (kaggle_installed w).
  - destruct (script_main_outcome w) as (trace & -> & _). simpl.
    by eexists _, _.
  - by eexists _, _.
Qed.

Lemma download_dataset_true_without_file_aux w :
  metadata_csv w = None →
  python_starts w = true →
  kaggle_installed w = true →
  kaggle_credentials w = false ∨ archive_member w = None →
  ∃ trace, download_dataset w = Outcome trace w (Ok true).
Proof.
  intros Hfile Hpy Hkag Hfail.
  destruct (download_dataset_outcome w) as (trace & Hrun & _).
  unfold after_download_dataset, fetch_result in Hrun.
  rewrite Hfile, Hpy, Hkag in Hrun.
  assert (Hnone : kaggle_credentials w = true → archive_member w = None)
    by (destruct Hfail; congruence).
  exists trace. destruct (kaggle_credentials w); [|done].
  by rewrite Hnone in Hrun.
Qed.

(** X7.  With the file absent, a child process that starts and a script that
    imports, [download_dataset] answers [True] although the download
    failed (credentials rejected, or nothing to extract): the file is still
    absent and the world is as it was. *)
Theorem download_dataset_true_without_file w :
  metadata_csv w = None →
  python_starts w = true →
  kaggle_installed w = true →
  kaggle_credentials w = false ∨ archive_member w = None →
  ∃ trace,
    download_dataset w = Outcome trace w (Ok true) ∧
    RunSubprocess ∈ trace ∧
    ∀ c, WriteMetadata c ∉ trace.
Proof.
  intros Hfile Hpy Hkag Hfail.
  destruct (download_dataset_outcome w) as (trace & Hrun & Hsub & Hwr).
  unfold after_download_dataset, fetch_result in Hrun.
  rewrite Hfile, Hpy, Hkag in Hrun.
  assert (Hnone : kaggle_credentials w = true → archive_member w = None)
    by (destruct Hfail; congruence).
  exists trace. split.
  - destruct (kaggle_credentials w); [|done]. by rewrite Hnone in Hrun.
  - split; [by apply Hsub|]. intros c [Hcred Hmem]%Hwr.
    destruct Hfail; congruence.
Qed.

(** X8.  In that case [load_and_clean_data] does not return [None]: it goes on
    to read the file and raises [FileNotFoundError]. *)
Theorem load_and_clean_data_file_not_found w :
  metadata_csv w = None →
  python_starts w = true →
  kaggle_installed w = true →
  kaggle_credentials w = false ∨ archive_member w = None →
  ∃ trace,
    load_and_clean_data w = Outcome trace w (Raise FileNotFoundError).
Proof.
  intros Hfile Hpy Hkag Hfail.
  destruct (download_dataset_true_without_file_aux w Hfile Hpy Hkag Hfail)
    as (trace & Hrun).
  unfold load_and_clean_data, mbind, IO_bind. rewrite Hrun. simpl.
  unfold read_metadata_csv. rewrite Hfile. by eexists.
Qed.

(** X9.  [load_and_clean_data] returns [None] exactly when the file is absent
    and either no child process starts or the script cannot import the
    Kaggle client; the world is then as it was. *)
Theorem load_and_clean_data_none w trace w' r :
  load_and_clean_data w = Outcome trace w' r →
  (r = Ok None ↔
     metadata_csv w = None ∧
     (python_starts w = false ∨ kaggle_installed w = false)) ∧
  (r = Ok None → w' = w).
Proof.
  destruct (download_dataset_outcome w) as (trace0 & Hrun & _).
  unfold load_and_clean_data, mbind, IO_bind. rewrite Hrun.
  assert (Hanswer : (after_download_dataset w).2 = false ↔
    metadata_csv w = None ∧
    (python_starts w = false ∨ kaggle_installed w = false)).
  { unfold after_download_dataset.
    destruct (metadata_csv w), (python_starts w), (kaggle_installed w); simpl;
      intuition congruence. }
  assert (Hworld : (after_download_dataset w).2 = false →
    (after_download_dataset w).1 = w).
  { unfold after_download_dataset.
    by destruct (metadata_csv w), (python_starts w), (kaggle_installed w). }
  destruct (after_download_dataset w) as [w1 [|]]; simpl in *.
  - intros Hload. assert (Hr : r ≠ Ok None).
    { unfold read_metadata_csv in Hload.
      destruct (metadata_csv w1) as [content|];
        [destruct (read_csv None content) as [df|e];
           [unfold emit in Hload; destruct (clean_table df) as [log [t|e]]|]|];
        simpl in Hload; by injection Hload as _ _ <-. }
    split; [|done]. split; [done|]. intros Hcond. by apply Hanswer in Hcond.
  - unfold mret, IO_ret. intros [= _ <- <-].
    split; [|intros _; by apply Hworld]. split; [|done].
    intros _. by apply Hanswer.
Qed.

(** X10.  With the file present [load_and_clean_data] leaves the world as it
    is, whatever it returns or raises; it starts no process, reaches no
    network and writes nothing; it never returns [None]. *)
Theorem load_and_clean_data_keeps_file w content trace w' r :
  metadata_csv w = Some content →
  load_and_clean_data w = Outcome trace w' r →
  w' = w ∧ Forall (λ e, is_print e = true) trace ∧ r ≠ Ok None.
Proof.
  intros Hfile. unfold load_and_clean_data, mbind, IO_bind.
  rewrite (download_dataset_skips w content Hfile). simpl.
  unfold read_metadata_csv. rewrite Hfile.
  destruct (read_csv None content) as [df|e]; simpl.
  - unfold emit. destruct (clean_table df) as [log [t|e]]; simpl;
      intros [= <- <- <-]; (split; [done|]); (split; [|done]);
      (constructor; [done|]); rewrite ?app_nil_r;
      apply Forall_forall; by intros ev (m & -> & _)%list_elem_of_fmap.
  - intros [= <- <- <-]. split; [done|]. split; [|done]. by repeat constructor.
Qed.

End FetcherTheorems.

(** ** The cleaner: errors and diagnostics *)

Lemma lift_raise_bind {A B} (e : exn) (k : A → logged B) :
  (x ← lift (Raise e); k x) = Logged [] (Raise e).
Proof. done. Qed.

Lemma dropna_missing subset df :
  List.filter (λ c, negb (has_column df c)) subset ≠ [] →
  dropna subset df =
  Raise (KeyError (List.filter (λ c, negb (has_column df c)) subset)).
Proof. unfold dropna. by destruct (List.filter _ subset). Qed.

Lemma getitem_missing df c : c ∉ columns df → getitem df c = Raise (KeyError [c]).
Proof.
  intros Hc. unfold getitem, has_column. by rewrite bool_decide_eq_false_2.
Qed.

Lemma rmap_word_count_raises `{Pandas} col :
  ¬ Forall text_or_missing col →
  rmap word_count (fillna (Str []) col) = Raise AttributeError.
Proof.
  induction col as [|c col IH]; intros Hnot.
  - destruct Hnot. constructor.
  - simpl. destruct c as [| |s|z|t]; simpl; try done.
    all: rewrite IH; [done|]; intros Hall; apply Hnot; constructor; [|done].
    all: unfold text_or_missing; simpl; eauto.
Qed.

Section CleanerErrors.
Context `{Pandas}.

(** Lines 44-53 when the file has its two required columns. *)
Lemma clean_table_to_dated raw :
  "title" ∈ columns raw →
  "publish_time" ∈ columns raw →
  clean_table raw =
  match
    (abstract ← lift (getitem (dated raw) "abstract");
     counts ← lift (rmap word_count (fillna (Str []) abstract));
     let df5 := setitem (dated raw) "abstract_word_count" counts in
     _ ← say (MsgFinalShape (shape df5));
     year ← lift (getitem df5 "year");
     _ ← say (MsgYearRange (series_min year) (series_max year));
     mret df5)
  with
  | Logged log r =>
      Logged (MsgDropped (len raw - length (first_pass raw)) :: log) r
  end.
Proof.
  intros Ht Hp. unfold clean_table.
  rewrite dropna_total by (by repeat constructor).
  rewrite lift_ok_bind, say_bind.
  set (df1 := {| columns := columns raw; rows := _ |}).
  rewrite (getitem_total df1), lift_ok_bind by done.
  set (df2 := setitem df1 _ _).
  assert (Hc2 : columns df2 = columns raw).
  { unfold df2. rewrite setitem_columns. simpl.
    by rewrite bool_decide_eq_true_2. }
  rewrite (dropna_total _ df2) by (rewrite Hc2; by repeat constructor).
  rewrite lift_ok_bind.
  set (df3 := {| columns := columns df2; rows := _ |}).
  assert (Hr3 : rows df3 = second_pass raw).
  { unfold df3. cbn [rows]. unfold df2, to_datetime_coerce.
    by rewrite setitem_map_col. }
  rewrite (getitem_total df3), lift_ok_bind
    by (unfold df3; cbn [columns]; by rewrite Hc2).
  assert (Hyears : dt_year (map (at_label "publish_time") (rows df3)) =
    Ok (map (λ c, Num (year_of_ns (time_of c)))
            (map (at_label "publish_time") (rows df3)))).
  { apply rmap_total. rewrite Hr3. apply Forall_forall.
    intros c (r & -> & Hr)%list_elem_of_fmap.
    by apply second_pass_time in Hr as [t ->]. }
  rewrite Hyears, lift_ok_bind.
  assert (Hdated : setitem df3 "year"
            (map (λ c, Num (year_of_ns (time_of c)))
                 (map (at_label "publish_time") (rows df3))) = dated raw).
  { set (df4 := setitem df3 _ _).
    transitivity {| columns := columns df4; rows := rows df4 |};
      [by destruct df4|].
    unfold dated, df4. rewrite setitem_columns, setitem_map_col, Hr3.
    assert (Hc3 : columns df3 = columns raw) by (unfold df3; by cbn [columns]).
    by rewrite Hc3. }
  rewrite Hdated. unfold len at 2. by cbn [rows].
Qed.

End CleanerErrors.

Lemma foldr_min_in z zs : foldr Z.min z zs ∈ z :: zs.
Proof.
  induction zs as [|y zs IH]; simpl; [by left|].
  destruct (Z.min_spec y (foldr Z.min z zs)) as [[_ ->]|[_ ->]].
  - right. by left.
  - apply elem_of_cons in IH as [->|IH]; [by left|]. right. by right.
Qed.

Lemma foldr_max_in z zs : foldr Z.max z zs ∈ z :: zs.
Proof.
  induction zs as [|y zs IH]; simpl; [by left|].
  destruct (Z.max_spec y (foldr Z.max z zs)) as [[_ ->]|[_ ->]].
  - apply elem_of_cons in IH as [->|IH]; [by left|]. right. by right.
  - right. by left.
Qed.

(** Least and greatest of a column of numbers. *)
Lemma series_min_max_spec col :
  Forall (λ c, ∃ z, c = Num z) col →
  match col with
  | [] => series_min col = None ∧ series_max col = None
  | _ :: _ =>
      ∃ lo hi, series_min col = Some lo ∧ series_max col = Some hi ∧
        Num lo ∈ col ∧ Num hi ∈ col ∧
        ∀ y, Num y ∈ col → lo ≤ y ≤ hi
  end.
Proof.
  intros Hcol.
  assert (Hvals : ∃ zs, col = map Num zs ∧
    omap (λ c, match c with Num z => Some z | _ => None end) col = zs).
  { induction Hcol as [|c col [z ->] _ (zs & -> & IH)].
    - by exists [].
    - exists (z :: zs). split; [done|]. csimpl. by rewrite IH. }
  destruct Hvals as (zs & -> & Hzs).
  unfold series_min, series_max. rewrite Hzs.
  destruct zs as [|z zs]; simpl; [done|].
  exists (foldr Z.min z zs), (foldr Z.max z zs).
  split; [done|]. split; [done|].
  change (Num z :: map Num zs) with (map Num (z :: zs)).
  split; [apply list_elem_of_fmap; eexists; split; [done|]; apply foldr_min_in|].
  split; [apply list_elem_of_fmap; eexists; split; [done|]; apply foldr_max_in|].
  intros y (y' & [= ->] & Hy)%list_elem_of_fmap.
  destruct (foldr_min_le z zs) as [Hm1 Hm2].
  destruct (foldr_max_ge z zs) as [HM1 HM2].
  rewrite Forall_forall in Hm2, HM2.
  apply elem_of_cons in Hy as [->|Hy]; [lia|].
  split; [by apply Hm2|by apply HM2].
Qed.

Section CleanerExtras.
Context `{Pandas}.


(** X12.  Without a [title] or a [publish_time] column the cleaner raises
    [KeyError] with the labels that are missing, before it prints
    anything. *)
Theorem clean_table_missing_required raw :
  ¬ ("title" ∈ columns raw ∧ "publish_time" ∈ columns raw) →
  clean_table raw =
  Logged [] (Raise (KeyError
    (List.filter (λ c, negb (has_column raw c)) ["title"; "publish_time"]))).
Proof.
  intros Hmiss. unfold clean_table. rewrite dropna_missing; [done|].
  simpl. unfold has_column.
  destruct (decide ("title" ∈ columns raw)) as [Ht|Ht];
    destruct (decide ("publish_time" ∈ columns raw)) as [Hp|Hp];
    rewrite ?(bool_decide_eq_true_2 _ Ht), ?(bool_decide_eq_false_2 _ Ht),
      ?(bool_decide_eq_true_2 _ Hp), ?(bool_decide_eq_false_2 _ Hp);
    simpl; try done.
  by destruct Hmiss.
Qed.

(** X13.  With [title] and [publish_time] but no [abstract] column the cleaner
    raises [KeyError] for [abstract] after both drop passes: the count of
    the first pass has already been printed. *)
Theorem clean_table_missing_abstract raw :
  "title" ∈ columns raw →
  "publish_time" ∈ columns raw →
  "abstract" ∉ columns raw →
  clean_table raw =
  Logged [MsgDropped (length (List.filter missing_required (rows raw)))]
         (Raise (KeyError ["abstract"])).
Proof.
  intros Ht Hp Ha. rewrite clean_table_to_dated by done.
  rewrite getitem_missing.
  2:{ unfold dated. cbn [columns]. rewrite elem_of_add_column.
      by intros [?|[=]]. }
  rewrite lift_raise_bind. do 2 f_equal.
  unfold len, first_pass.
  rewrite (filter_split_length (complete_on ["title"; "publish_time"]) (rows raw)).
  rewrite Nat.add_comm, Nat.add_sub.
  rewrite (filter_ext _ missing_required); [done|]. intros r.
  unfold complete_on, missing_required. simpl.
  by destruct (isna (at_label "title" r)), (isna (at_label "publish_time" r)).
Qed.

(** X14.  An abstract that is a number (a retained row's) makes the cleaner
    raise [AttributeError]: line 56 calls [split] on it. *)
Theorem clean_table_numeric_abstract raw :
  Forall (λ c, c ∈ columns raw) ["title"; "publish_time"; "abstract"] →
  ¬ Forall (λ r, text_or_missing (at_label "abstract" r)) (second_pass raw) →
  ∃ log, clean_table raw = Logged log (Raise AttributeError).
Proof.
  intros Hcols Hnot.
  apply Forall_cons in Hcols as [Ht Hcols].
  apply Forall_cons in Hcols as [Hp Hcols].
  apply Forall_cons in Hcols as [Ha _].
  rewrite clean_table_to_dated by done.
  rewrite getitem_total.
  2:{ unfold dated. cbn [columns]. apply elem_of_add_column. by left. }
  rewrite lift_ok_bind, rmap_word_count_raises; [by eexists|].
  unfold dated. cbn [rows]. rewrite map_map. intros Hall. apply Hnot.
  rewrite Forall_map in Hall. eapply Forall_impl; [exact Hall|].
  intros r Hr. simpl in Hr. unfold with_year in Hr.
  by rewrite at_label_insert_ne in Hr.
Qed.

(** X15.  The year range printed on line 59: [nan - nan] when no row is left;
    otherwise the least and the greatest year of the cleaned table, each
    the year of some row. *)
Theorem printed_year_range raw log t :
  clean_table raw = Logged log (Ok t) →
  ∃ lo hi, log = [MsgDropped (len raw - length (first_pass raw));
                  MsgFinalShape (shape t); MsgYearRange lo hi] ∧
    match rows t with
    | [] => lo = None ∧ hi = None
    | _ :: _ =>
        ∃ y_lo y_hi, lo = Some y_lo ∧ hi = Some y_hi ∧
          (∃ r, r ∈ rows t ∧ at_label "year" r = Num y_lo) ∧
          (∃ r, r ∈ rows t ∧ at_label "year" r = Num y_hi) ∧
          ∀ r, r ∈ rows t → ∃ y, at_label "year" r = Num y ∧ y_lo ≤ y ≤ y_hi
    end.
Proof.
  intros Hrun.
  destruct (cleaned_year_column _ _ _ Hrun) as [_ Hnum].
  apply clean_table_ok in Hrun as (_ & _ & _ & _ & ->).
  eexists _, _. split; [done|].
  pose proof (series_min_max_spec (map (at_label "year") (rows t))) as Hspec.
  destruct (rows t) as [|r0 rs] eqn:Hrows.
  - simpl in Hspec. apply Hspec. constructor.
  - destruct Hspec as (lo & hi & -> & -> & Hlo & Hhi & Hall).
    { by apply Forall_map. }
    exists lo, hi. split; [done|]. split; [done|].
    apply list_elem_of_fmap in Hlo as (rl & Hl & Hrl).
    apply list_elem_of_fmap in Hhi as (rh & Hh & Hrh).
    split; [by exists rl|]. split; [by exists rh|].
    intros r Hr. rewrite Forall_forall in Hnum.
    destruct (Hnum r Hr) as [y Hy]. exists y. split; [done|].
    apply Hall. rewrite <- Hy. apply list_elem_of_fmap. by exists r.
Qed.

End CleanerExtras.

(** ** The year span and the filter *)

Lemma numeric_values_nums zs : numeric_values (map Num zs) = Ok zs.
Proof. induction zs as [|z zs IH]; simpl; [done|]. by rewrite IH. Qed.

Lemma all_num_map col :
  Forall (λ c, ∃ z, c = Num z) col → ∃ zs, col = map Num zs.
Proof.
  induction 1 as [|c col [z ->] _ [zs ->]]; [by exists []|by exists (z :: zs)].
Qed.

Lemma filter_filter {A} (f g : A → bool) l :
  List.filter g (List.filter f l) = List.filter (λ a, f a && g a) l.
Proof.
  induction l as [|a l IH]; simpl; [done|].
  destruct (f a); simpl; [destruct (g a)|]; by rewrite IH.
Qed.

Lemma year_within_both a b c d r :
  year_within a b r && year_within c d r =
  year_within (Z.max a c) (Z.min b d) r.
Proof.
  unfold year_within. destruct (at_label "year" r) as [| | |y|]; try done.
  apply eq_true_iff_eq. rewrite !andb_true_iff, !Z.leb_le. lia.
Qed.

Section SpanAndFilter.
Context `{Pandas}.

(** X16.  Line 69 of [main] on a cleaned table: with no row it raises
    [ValueError] ([int] of [nan]); otherwise it gives the least and the
    greatest year, each the year of some row, the least not above the
    greatest, and every row's year between them. *)
Theorem year_span_of_cleaned raw log t :
  clean_table raw = Logged log (Ok t) →
  match rows t with
  | [] => year_span t = Raise ValueError
  | _ :: _ =>
      ∃ lo hi, year_span t = Ok (lo, hi) ∧ lo ≤ hi ∧
        (∃ r, r ∈ rows t ∧ at_label "year" r = Num lo) ∧
        (∃ r, r ∈ rows t ∧ at_label "year" r = Num hi) ∧
        ∀ r, r ∈ rows t → ∃ y, at_label "year" r = Num y ∧ lo ≤ y ≤ hi
  end.
Proof.
  intros Hrun. destruct (cleaned_year_column _ _ _ Hrun) as [Hcol Hnum].
  unfold year_span. rewrite getitem_total by done.
  assert (Hcolnum : Forall (λ c, ∃ z, c = Num z) (map (at_label "year") (rows t)))
    by by apply Forall_map.
  destruct (all_num_map _ Hcolnum) as [zs Hzs].
  assert (Hspan : (y ← Ok (map (at_label "year") (rows t)); int_min_max y) =
                  int_min_max (map Num zs)) by by rewrite Hzs.
  rewrite Hspan. unfold int_min_max. rewrite numeric_values_nums.
  destruct (rows t) as [|r0 rs] eqn:Hrows.
  - by destruct zs.
  - destruct zs as [|z zs]; [done|]. simpl.
    exists (foldr Z.min z zs), (foldr Z.max z zs). split; [done|].
    destruct (foldr_min_le z zs) as [Hm1 Hm2].
    destruct (foldr_max_ge z zs) as [HM1 HM2].
    split; [lia|].
    assert (Hin : ∀ y, y ∈ z :: zs →
      ∃ r, r ∈ r0 :: rs ∧ at_label "year" r = Num y).
    { intros y Hy.
      assert (Hy' : Num y ∈ map (at_label "year") (r0 :: rs)).
      { rewrite Hzs. apply list_elem_of_fmap. by exists y. }
      apply list_elem_of_fmap in Hy' as (r & Hr & Hin). by exists r. }
    split; [apply Hin, foldr_min_in|]. split; [apply Hin, foldr_max_in|].
    intros r Hr. rewrite Forall_forall in Hnum.
    destruct (Hnum r Hr) as [y Hy]. exists y. split; [done|].
    assert (Hy' : Num y ∈ map Num (z :: zs)).
    { rewrite <- Hzs, <- Hy. apply list_elem_of_fmap. by exists r. }
    apply list_elem_of_fmap in Hy' as (y' & [= <-] & Hy').
    rewrite Forall_forall in Hm2, HM2.
    apply elem_of_cons in Hy' as [->|Hy']; [lia|].
    split; [by apply Hm2|by apply HM2].
Qed.

(** X17.  Filtering a cleaned table by one range and the result by another is
    filtering the table once by the intersection of the two; each result
    keeps its rows in the order of the table it was taken from. *)
Theorem filter_by_year_twice raw log t a b c d :
  clean_table raw = Logged log (Ok t) →
  ∃ once twice,
    filter_by_year t a b = Ok once ∧
    filter_by_year once c d = Ok twice ∧
    filter_by_year t (Z.max a c) (Z.min b d) = Ok twice ∧
    rows once `sublist_of` rows t ∧
    rows twice `sublist_of` rows once.
Proof.
  intros Hrun. destruct (cleaned_year_column _ _ _ Hrun) as [Hcol Hnum].
  assert (Hnum' : Forall (λ r, numeric_or_missing (at_label "year" r)) (rows t)).
  { eapply Forall_impl; [exact Hnum|]. by intros r [y ->]. }
  eexists _, _. split; [by apply filter_by_year_ok|].
  rewrite filter_by_year_ok; [|done|].
  2:{ simpl. apply Forall_forall. intros r [Hr _]%list_elem_of_In%filter_In.
      rewrite Forall_forall in Hnum'. by apply Hnum', list_elem_of_In. }
  split; [done|]. simpl. rewrite filter_by_year_ok by done.
  split; [|split; apply filter_sublist].
  do 2 f_equal. rewrite filter_filter. apply filter_ext.
  intros r. symmetry. apply year_within_both.
Qed.

(** X18.  The summary of a non-empty subset of a cleaned table: the number of
    its rows, and as mean the sum of the word counts of its abstracts
    over that number; no row is skipped, no error is raised. *)
Theorem summary_of_subset raw log t a b filtered :
  clean_table raw = Logged log (Ok t) →
  filter_by_year t a b = Ok filtered →
  rows filtered ≠ [] →
  summary_statistics filtered =
  Ok [TotalPapers (len filtered);
      AverageWordCount
        (FVal (foldr Z.add 0
                 (map (λ r, Z.of_nat (token_count (text_of (at_label "abstract" r))))
                      (rows filtered)))
              (Pos.of_nat (len filtered)))].
Proof.
  intros Hrun Hf Hne.
  destruct (cleaned_year_column _ _ _ Hrun) as [Hcol Hnum].
  rewrite filter_by_year_ok in Hf; [|done|].
  2:{ eapply Forall_impl; [exact Hnum|]. by intros r [y ->]. }
  injection Hf as <-. simpl in *.
  pose proof (clean_table_ok _ _ _ Hrun) as (Hrows & Hcols & _).
  unfold summary_statistics, len. cbn [rows columns].
  rewrite getitem_total.
  2:{ cbn [columns]. rewrite Hcols. apply elem_of_add_column. by right. }
  cbn [rows].
  assert (Hawc : map (at_label "abstract_word_count")
                     (List.filter (year_within a b) (rows t)) =
    map Num (map (λ r, Z.of_nat (token_count (text_of (at_label "abstract" r))))
                 (List.filter (year_within a b) (rows t)))).
  { rewrite map_map. apply map_ext_in. intros r [Hr _]%filter_In.
    rewrite Hrows in Hr. apply in_map_iff in Hr as (r0 & <- & _).
    unfold with_word_count at 1. rewrite at_label_insert.
    unfold with_word_count. rewrite at_label_insert_ne by done.
    by rewrite split_length. }
  rewrite Hawc. clear Hawc.
  destruct (List.filter (year_within a b) (rows t)) as [|r rs]; [done|].
  unfold mean. simpl. rewrite numeric_values_nums. simpl.
  by rewrite length_map.
Qed.

End SpanAndFilter.

(** ** Yearly counts, sources, the largest journals, the title text *)

Lemma insert_asc_perm e l : insert_asc e l ≡ₚ e :: l.
Proof.
  induction l as [|e' l IH]; [done|]. simpl.
  destruct (label_ltb e'.1 e.1); [|done]. rewrite IH. apply Permutation_swap.
Qed.

Lemma sort_asc_perm l : sort_asc l ≡ₚ l.
Proof.
  induction l as [|e l IH]; [done|]. simpl. by rewrite insert_asc_perm, IH.
Qed.

Lemma strongly_sorted_lookup {A} (R : A → A → Prop) l i j a b :
  StronglySorted R l → (i < j)%nat → l !! i = Some a → l !! j = Some b → R a b.
Proof.
  intros Hsorted. revert i j.
  induction Hsorted as [|e0 l Hl IH Hall]; intros i j Hij Hi Hj; [done|].
  destruct i as [|i], j as [|j]; try lia; simpl in *.
  - injection Hi as <-. rewrite Forall_forall in Hall. apply Hall.
    by eapply list_elem_of_lookup_2.
  - eapply (IH i j); [lia|done..].
Qed.

Lemma insert_asc_sorted e l :
  Forall (λ e', ∃ y, e'.1 = Num y) (e :: l) →
  StronglySorted (λ a b, year_label a ≤ year_label b) l →
  StronglySorted (λ a b, year_label a ≤ year_label b) (insert_asc e l).
Proof.
  intros Hnum Hsorted. apply Forall_cons in Hnum as [[y Hy] Hnum].
  induction Hsorted as [|e' l Hl IH Hall]; simpl.
  - repeat constructor.
  - apply Forall_cons in Hnum as [[y' Hy'] Hnum].
    rewrite Hy, Hy'. simpl. destruct (y' <? y) eqn:Hlt.
    + apply Z.ltb_lt in Hlt. constructor; [by apply IH|].
      rewrite insert_asc_perm. constructor; [|done].
      unfold year_label. rewrite Hy, Hy'. lia.
    + apply Z.ltb_ge in Hlt. constructor; [by constructor|].
      constructor; [unfold year_label; rewrite Hy, Hy'; lia|].
      eapply Forall_impl; [exact Hall|]. intros e''. unfold year_label.
      rewrite Hy, Hy'. lia.
Qed.

Lemma sort_asc_sorted l :
  Forall (λ e, ∃ y, e.1 = Num y) l →
  StronglySorted (λ a b, year_label a ≤ year_label b) (sort_asc l).
Proof.
  induction 1 as [|e l He Hl IH]; simpl; [constructor|].
  apply insert_asc_sorted; [|done]. constructor; [done|].
  by rewrite sort_asc_perm.
Qed.

Lemma sort_index_numeric s :
  Forall (λ e, ∃ y, e.1 = Num y) s → sort_index s = Ok (sort_asc s).
Proof.
  intros Hnum. unfold sort_index.
  assert (Hpresent : List.filter (λ e, negb (isna e.1)) s = s).
  { apply filter_all. eapply Forall_impl; [exact Hnum|]. by intros e [y ->]. }
  assert (Hmissing : List.filter (λ e : cell * nat, isna e.1) s = []).
  { clear Hpresent. induction Hnum as [|e l [y Hy] _ IH]; [done|].
    simpl. by rewrite Hy. }
  rewrite Hpresent, Hmissing, app_nil_r.
  destruct s as [|e s]; [done|].
  replace (forallb (λ e', same_kind e.1 e'.1) (e :: s)) with true; [done|].
  symmetry. apply forallb_forall. intros e' He'%list_elem_of_In.
  rewrite Forall_forall in Hnum.
  destruct (Hnum e) as [y ->]; [by left|]. by destruct (Hnum e' He') as [y' ->].
Qed.

Lemma bump_sum x g :
  sum_list_with snd (bump x g) = S (sum_list_with snd g).
Proof.
  induction g as [|[k n] g IH]; simpl; [done|].
  destruct (decide (x = k)); simpl; [done|]. rewrite IH. lia.
Qed.

Lemma count_groups_sum col :
  sum_list_with snd (count_groups col) = length col.
Proof.
  induction col as [|x col IH] using rev_ind; [done|].
  rewrite count_groups_snoc, bump_sum, IH, length_app. simpl. lia.
Qed.

(** The counts of [value_counts] add up to the number of values that are
    not missing; no key occurs twice. *)
Lemma value_counts_sum `{Sorting} col :
  sum_list_with snd (value_counts col) =
  length (List.filter (λ c, negb (isna c)) col).
Proof.
  unfold value_counts, value_counts_with, sort_values_desc.
  by rewrite sort_desc_perm, count_groups_sum.
Qed.

Lemma value_counts_keys_nodup `{Sorting} col : NoDup (value_counts col).*1.
Proof.
  unfold value_counts, value_counts_with, sort_values_desc.
  rewrite sort_desc_perm. apply count_groups_keys.
Qed.

Lemma filter_notna_all col :
  Forall (λ c, isna c = false) col →
  List.filter (λ c, negb (isna c)) col = col.
Proof.
  intros Hcol. apply filter_all. eapply Forall_impl; [exact Hcol|].
  by intros c ->.
Qed.

Section ViewExtras.
Context `{Pandas} `{Sorting}.

(** X19.  The yearly counts of a cleaned table never raise.  Their labels are
    the years met in the subset and no others (a year without a paper has
    no entry), each with the number of rows of that year, in strictly
    increasing order of year; the counts add up to the size of the
    subset. *)
Theorem publications_per_year_counts raw log t year_range :
  clean_table raw = Logged log (Ok t) →
  ∃ filtered yearly,
    filter_by_year t year_range.1 year_range.2 = Ok filtered ∧
    plot_publications_per_year t year_range = Ok yearly ∧
    (∀ k n, (k, n) ∈ yearly ↔
       (∃ r, r ∈ rows filtered ∧ at_label "year" r = k) ∧
       n = count_of k (map (at_label "year") (rows filtered))) ∧
    (∀ k n, (k, n) ∈ yearly →
       ∃ y, k = Num y ∧ year_range.1 ≤ y ≤ year_range.2 ∧ (0 < n)%nat) ∧
    (∀ i j e e', (i < j)%nat → yearly !! i = Some e → yearly !! j = Some e' →
       year_label e < year_label e') ∧
    sum_list_with snd yearly = len filtered.
Proof.
  intros Hrun. destruct (cleaned_year_column _ _ _ Hrun) as [Hcol Hnum].
  assert (Hfilter := filter_by_year_ok t year_range.1 year_range.2 Hcol).
  rewrite Hfilter.
  2:{ eapply Forall_impl; [exact Hnum|]. by intros r [y ->]. }
  eexists _, _. split; [done|].
  unfold plot_publications_per_year. rewrite Hfilter.
  2:{ eapply Forall_impl; [exact Hnum|]. by intros r [y ->]. }
  simpl. rewrite getitem_total by done. simpl.
  set (subset := List.filter _ (rows t)).
  set (years := map (at_label "year") subset).
  assert (Hsub : Forall (λ r, ∃ y, at_label "year" r = Num y ∧
                              year_range.1 ≤ y ≤ year_range.2) subset).
  { apply Forall_forall. intros r [Hr Hw]%list_elem_of_In%filter_In.
    rewrite Forall_forall in Hnum.
    destruct (Hnum r) as [y Hy]; [by apply list_elem_of_In|].
    exists y. split; [done|]. unfold year_within in Hw. rewrite Hy in Hw.
    apply andb_prop in Hw. lia. }
  assert (Hyears : Forall (λ c, ∃ y, c = Num y) years).
  { apply Forall_map. eapply Forall_impl; [exact Hsub|].
    intros r (y & Hy & _). by exists y. }
  assert (Hkeys : Forall (λ e : cell * nat, ∃ y, e.1 = Num y) (value_counts years)).
  { apply Forall_forall. intros [k n] (_ & Hk & _)%value_counts_elem.
    rewrite Forall_forall in Hyears. by apply Hyears. }
  rewrite sort_index_numeric by done.
  split; [done|]. split; [|split; [|split]].
  - intros k n. rewrite sort_asc_perm, value_counts_elem. split.
    + intros (_ & (r & -> & Hr)%list_elem_of_fmap & ->). split; [|done].
      by exists r.
    + intros [(r & Hr & <-) ->]. split; [|split; [|done]].
      * rewrite Forall_forall in Hsub. by destruct (Hsub r Hr) as (y & -> & _).
      * apply list_elem_of_fmap. by exists r.
  - intros k n. rewrite sort_asc_perm.
    intros (_ & Hk & ->)%value_counts_elem.
    pose proof (count_of_present _ _ Hk) as Hpos.
    apply list_elem_of_fmap in Hk as (r & Hk & Hr).
    rewrite Forall_forall in Hsub. destruct (Hsub r Hr) as (y & Hyr & Hy).
    exists y. split; [congruence|]. by split.
  - intros i j e e' Hij Hi Hj.
    pose proof (sort_asc_sorted _ Hkeys) as Hsorted.
    assert (Hle : year_label e ≤ year_label e').
    { by apply (strongly_sorted_lookup
                  (λ a b, year_label a ≤ year_label b) _ i j e e' Hsorted). }
    assert (Hne : e.1 ≠ e'.1).
    { assert (Hnd : NoDup (sort_asc (value_counts years)).*1).
      { rewrite sort_asc_perm. apply value_counts_keys_nodup. }
      intros Heq. assert (i = j); [|lia].
      apply (NoDup_lookup _ i j e.1 Hnd); rewrite list_lookup_fmap.
      - change (fst <$> Some e = Some e.1) with (Some e.1 = Some e.1) in *.
        by replace (sort_asc (value_counts years) !! i) with (Some e).
      - rewrite Heq.
        by replace (sort_asc (value_counts years) !! j) with (Some e'). }
    assert (Hnum_e : ∀ e0, e0 ∈ sort_asc (value_counts years) → ∃ y, e0.1 = Num y).
    { intros e0 He0. rewrite sort_asc_perm in He0.
      rewrite Forall_forall in Hkeys. by apply Hkeys. }
    destruct (Hnum_e e) as [y Hy]; [by eapply list_elem_of_lookup_2|].
    destruct (Hnum_e e') as [y' Hy']; [by eapply list_elem_of_lookup_2|].
    unfold year_label in *. rewrite Hy, Hy' in *.
    assert (y ≠ y') by congruence. lia.
  - rewrite sort_asc_perm, value_counts_sum. unfold len. cbn [rows].
    rewrite filter_notna_all; [by unfold years; rewrite length_map|].
    eapply Forall_impl; [exact Hyears|]. by intros c [y ->].
Qed.

End ViewExtras.

Lemma split_from_app_space cur s1 s2 :
  split_from cur (s1 ++ 32%N :: s2) = split_from cur s1 ++ split s2.
Proof.
  revert cur. induction s1 as [|c s1 IH]; intros cur; simpl.
  - by destruct cur.
  - destruct (isspace c), cur; simpl; by rewrite IH.
Qed.

(** Splitting what was joined with spaces gives the words of the parts. *)
Lemma split_join parts :
  split (join (py " ") parts) = concat (map split parts).
Proof.
  induction parts as [|p parts IH]; [done|].
  destruct parts as [|p' parts].
  - simpl. by rewrite app_nil_r.
  - change (join (py " ") (p :: p' :: parts))
      with (p ++ 32%N :: join (py " ") (p' :: parts)).
    unfold split at 1. rewrite split_from_app_space.
    rewrite IH. done.
Qed.

Section ViewExtras2.
Context `{Pandas} `{Sorting}.

(** X20.  The source distribution of a cleaned table never raises; its counts
    never increase along the output, whatever order the library's sort
    gives to equal counts; no source has two groups, and the counts add up
    to the number of rows of the subset that have a source. *)
Theorem source_distribution_descending raw log t year_range :
  clean_table raw = Logged log (Ok t) →
  "source_x" ∈ columns raw →
  ∃ filtered source_counts,
    filter_by_year t year_range.1 year_range.2 = Ok filtered ∧
    plot_source_distribution t year_range = Ok source_counts ∧
    descending source_counts ∧
    NoDup source_counts.*1 ∧
    sum_list_with snd source_counts =
      length (List.filter (λ r, negb (isna (at_label "source_x" r)))
                          (rows filtered)).
Proof.
  intros Hrun Hs. destruct (cleaned_year_column _ _ _ Hrun) as [Hcol Hnum].
  assert (Hfilter := filter_by_year_ok t year_range.1 year_range.2 Hcol).
  rewrite Hfilter.
  2:{ eapply Forall_impl; [exact Hnum|]. by intros r [y ->]. }
  eexists _, _. split; [done|].
  unfold plot_source_distribution. rewrite Hfilter.
  2:{ eapply Forall_impl; [exact Hnum|]. by intros r [y ->]. }
  simpl. rewrite getitem_total by (simpl; by eapply cleaned_columns).
  simpl. split; [done|].
  split; [apply value_counts_descending|].
  split; [apply value_counts_keys_nodup|].
  rewrite value_counts_sum, filter_map_comm. by rewrite length_map.
Qed.

End ViewExtras2.

(** X21.  Whenever the top-journals view returns, a journal of the subset that
    it does not show has no more rows than any journal it shows, and then
    it shows ten; no journal is shown twice. *)
Theorem top_journals_are_the_largest `{Sorting} df year_range top_journals :
  plot_top_journals df year_range = Ok top_journals →
  ∃ filtered journal,
    filter_by_year df year_range.1 year_range.2 = Ok filtered ∧
    getitem filtered "journal" = Ok journal ∧
    NoDup top_journals.*1 ∧
    ∀ k, k ∈ journal → isna k = false →
      (k, count_of k journal) ∈ top_journals ∨
      (length top_journals = 10%nat ∧
       ∀ e, e ∈ top_journals → (count_of k journal ≤ e.2)%nat).
Proof.
  unfold plot_top_journals. intros Hrun.
  apply result_bind_ok in Hrun as (filtered & Hf & Hrun).
  apply result_bind_ok in Hrun as (journal & Hj & Hrun).
  assert (Htop : top_journals = take 10 (value_counts journal))
    by (unfold head in Hrun; congruence).
  clear Hrun. subst top_journals. exists filtered, journal.
  split; [done|]. split; [done|]. split.
  { rewrite fmap_take.
    eapply sublist_NoDup; [apply value_counts_keys_nodup|apply sublist_take]. }
  intros k Hk Hna.
  assert (Hin : (k, count_of k journal) ∈ value_counts journal)
    by by apply value_counts_elem.
  apply list_elem_of_lookup in Hin as [i Hi].
  destruct (decide (i < 10)%nat) as [Hlt|Hge].
  - left. apply list_elem_of_lookup. exists i. by rewrite lookup_take_lt.
  - right. split.
    + rewrite length_take. apply lookup_lt_Some in Hi. lia.
    + intros e [j [Hj' Hlt]%lookup_take_Some]%list_elem_of_lookup.
      apply (value_counts_descending journal j i e (k, count_of k journal));
        [lia|done..].
Qed.

Section WordcloudExtras.
Context `{Pandas} `{Rendering}.

(** X22.  The text handed to the word cloud, on a cleaned table: it never
    raises; no title is left out (none is missing after cleaning); split
    at whitespace the text gives the words of the titles of the subset, row
    after row; an empty subset gives the empty text. *)
Theorem wordcloud_text_words raw log t year_range :
  clean_table raw = Logged log (Ok t) →
  ∃ filtered text,
    filter_by_year t year_range.1 year_range.2 = Ok filtered ∧
    plot_wordcloud t year_range = Ok text ∧
    split text =
      concat (map (λ r, split (astype_str (at_label "title" r)))
                  (rows filtered)) ∧
    (rows filtered = [] → text = []).
Proof.
  intros Hrun. destruct (cleaned_year_column _ _ _ Hrun) as [Hcol Hnum].
  assert (Hfilter := filter_by_year_ok t year_range.1 year_range.2 Hcol).
  rewrite Hfilter.
  2:{ eapply Forall_impl; [exact Hnum|]. by intros r [y ->]. }
  eexists _, _. split; [done|].
  unfold plot_wordcloud. rewrite Hfilter.
  2:{ eapply Forall_impl; [exact Hnum|]. by intros r [y ->]. }
  assert (Htitle : "title" ∈ columns t).
  { eapply cleaned_columns; [done|].
    apply clean_table_ok in Hrun as (_ & _ & Hcols & _).
    by apply Forall_cons in Hcols as [? _]. }
  simpl. rewrite getitem_total by done. simpl. split; [done|].
  set (subset := List.filter _ (rows t)).
  assert (Hpresent : List.filter (λ c, negb (isna c))
                       (map (at_label "title") subset) =
                     map (at_label "title") subset).
  { apply filter_notna_all, Forall_map, Forall_forall.
    intros r [Hr _]%list_elem_of_In%filter_In.
    apply clean_table_ok in Hrun as (Hrows & _). rewrite Hrows in Hr.
    apply in_map_iff in Hr as (r1 & <- & Hr1%list_elem_of_In).
    destruct (second_pass_origin _ _ Hr1) as (r0 & ts & _ & Ht & _ & _ & ->).
    unfold with_word_count, with_year.
    by rewrite !at_label_insert_ne by done. }
  rewrite Hpresent. split.
  - rewrite split_join, !map_map. done.
  - intros Hempty. by rewrite Hempty.
Qed.

End WordcloudExtras.

(** ** The page of [main] *)

Lemma st_bind_inv {B} (u : ui) (k : unit → page B) shown r :
  (x ← st u; k x) = Page shown r →
  ∃ shown', k tt = Page shown' r ∧ shown = u :: shown'.
Proof.
  unfold st, mbind, page_bind. destruct (k tt) as [shown' r'].
  intros [= <- <-]. by exists shown'.
Qed.

Lemma page_bind_run {A B} (r : result A) (k : A → page B) :
  (x ← run r; k x) =
  match r with
  | Ok a => k a
  | Raise e => Page [] (Raise e)
  end.
Proof.
  unfold run, mbind, page_bind. destruct r as [a|e]; [|done].
  by destruct (k a).
Qed.

Lemma run_bind_inv {A B} (m : result A) (k : A → page B) shown r :
  (x ← run m; k x) = Page shown r →
  (∃ a, m = Ok a ∧ k a = Page shown r) ∨
  (∃ e, m = Raise e ∧ shown = [] ∧ r = Raise e).
Proof.
  unfold run, mbind, page_bind. destruct m as [a|e].
  - destruct (k a) as [shown' r'] eqn:Hk. intros [= <- <-]. left. by exists a.
  - intros [= <- <-]. right. by exists e.
Qed.

Section MainFacts.
Context `{Pandas} `{Sorting} `{Rendering} `{Frontend}.

(** A text joined from no title has no word. *)
Lemma wordcloud_text_of_no_rows df year_range filtered text :
  filter_by_year df year_range.1 year_range.2 = Ok filtered →
  rows filtered = [] →
  plot_wordcloud df year_range = Ok text →
  text = [].
Proof.
  intros Hf Hempty. unfold plot_wordcloud. rewrite Hf. simpl.
  unfold getitem. rewrite Hempty.
  destruct (has_column filtered "title"); simpl; [|done]. by intros [= <-].
Qed.

(** A run of [dashboard] that ends without an exception, or whose page has
    a summary line, went through every view, the word cloud included; the
    summary lines on the page are the count and the mean of the subset. *)
Lemma dashboard_summary df shown r :
  dashboard df = Page shown r →
  r = Ok tt ∨ (∃ l, StWrite (Summary l) ∈ shown) →
  ∃ lo hi year_range filtered text,
    year_span df = Ok (lo, hi) ∧
    slider lo hi = Ok year_range ∧
    filter_by_year df year_range.1 year_range.2 = Ok filtered ∧
    plot_wordcloud df year_range = Ok text ∧
    generate text = Ok tt ∧
    StWrite (Summary (TotalPapers (len filtered))) ∈ shown ∧
    ∀ l, StWrite (Summary l) ∈ shown →
      l = TotalPapers (len filtered) ∨
      ∃ awc avg, getitem filtered "abstract_word_count" = Ok awc ∧
                 mean awc = Ok avg ∧ l = AverageWordCount avg.
Proof.
  unfold dashboard. intros Hd Hsum.
  apply run_bind_inv in Hd as [([lo hi] & Hspan & Hd)|(e & _ & -> & ->)];
    [|stopped_early].
  apply run_bind_inv in Hd as [(year_range & Hslider & Hd)|(e & _ & -> & ->)];
    [|stopped_early].
  apply st_bind_inv in Hd as (s1 & Hd & ->).
  apply run_bind_inv in Hd as [(yearly & Hyearly & Hd)|(e & _ & -> & ->)];
    [|stopped_early].
  apply run_bind_inv in Hd as [([] & _ & Hd)|(e & _ & -> & ->)];
    [|stopped_early].
  apply st_bind_inv in Hd as (s2 & Hd & ->).
  apply st_bind_inv in Hd as (s3 & Hd & ->).
  apply run_bind_inv in Hd as [(top & Htop & Hd)|(e & _ & -> & ->)];
    [|stopped_early].
  apply run_bind_inv in Hd as [([] & _ & Hd)|(e & _ & -> & ->)];
    [|stopped_early].
  apply st_bind_inv in Hd as (s4 & Hd & ->).
  apply st_bind_inv in Hd as (s5 & Hd & ->).
  apply run_bind_inv in Hd as [(text & Htext & Hd)|(e & _ & -> & ->)];
    [|stopped_early].
  apply run_bind_inv in Hd as [([] & Hgen & Hd)|(e & _ & -> & ->)];
    [|stopped_early].
  apply st_bind_inv in Hd as (s6 & Hd & ->).
  apply st_bind_inv in Hd as (s7 & Hd & ->).
  apply run_bind_inv in Hd as [(sources & Hsources & Hd)|(e & _ & -> & ->)];
    [|stopped_early].
  apply run_bind_inv in Hd as [([] & _ & Hd)|(e & _ & -> & ->)];
    [|stopped_early].
  apply st_bind_inv in Hd as (s8 & Hd & ->).
  apply st_bind_inv in Hd as (s9 & Hd & ->).
  apply run_bind_inv in Hd as [(filtered & Hf & Hd)|(e & _ & -> & ->)];
    [|stopped_early].
  apply st_bind_inv in Hd as (s10 & Hd & ->).
  apply st_bind_inv in Hd as (s11 & Hd & ->).
  apply st_bind_inv in Hd as (s12 & Hd & ->).
  exists lo, hi, year_range, filtered, text.
  do 5 (split; [done|]). split.
  { do 11 apply list_elem_of_further. apply list_elem_of_here. }
  clear Hsum. intros l Hl.
  apply run_bind_inv in Hd as [(awc & Hawc & Hd)|(e & _ & -> & ->)].
  2:{ shown_hyps; simplify_eq. by left. }
  apply run_bind_inv in Hd as [(avg & Havg & Hd)|(e & _ & -> & ->)].
  2:{ shown_hyps; simplify_eq. by left. }
  unfold st in Hd. injection Hd as <- <-.
  shown_hyps; simplify_eq; [by left|]. right. by exists awc, avg.
Qed.

(** The summary of a subset of a cleaned table that has a row: the mean
    is a number. *)
Lemma summary_of_cleaned_subset raw log t a b filtered :
  clean_table raw = Logged log (Ok t) →
  filter_by_year t a b = Ok filtered →
  rows filtered ≠ [] →
  ∃ n d, summary_statistics filtered =
         Ok [TotalPapers (len filtered); AverageWordCount (FVal n d)].
Proof.
  intros Hrun Hf Hne.
  destruct (cleaned_year_column _ _ _ Hrun) as [Hcol Hnum].
  rewrite filter_by_year_ok in Hf; [|done|].
  2:{ eapply Forall_impl; [exact Hnum|]. by intros r [y ->]. }
  injection Hf as <-. cbn [rows] in Hne.
  pose proof (clean_table_ok _ _ _ Hrun) as (Hrows & Hcols & _).
  unfold summary_statistics, len. cbn [rows columns].
  rewrite getitem_total.
  2:{ cbn [columns]. rewrite Hcols. apply elem_of_add_column. by right. }
  cbn [rows].
  assert (Hawc : Forall (λ c, ∃ z, c = Num z)
                   (map (at_label "abstract_word_count")
                        (List.filter (year_within a b) (rows t)))).
  { apply Forall_map, Forall_forall. intros r [Hr _]%list_elem_of_In%filter_In.
    rewrite Hrows in Hr. apply in_map_iff in Hr as (r0 & <- & _).
    unfold with_word_count. rewrite at_label_insert. by eexists. }
  apply all_num_map in Hawc as [zs Hzs]. rewrite Hzs.
  unfold mbind, result_bind, mean. rewrite numeric_values_nums.
  destruct zs as [|z zs]; [|by eexists _, _].
  destruct (List.filter (year_within a b) (rows t)); [done|discriminate Hzs].
Qed.


End MainFacts.

Lemma whole_span_needs_a_word : @needs_a_word Cases.whole_span.
Proof. intros text Htext. simpl. by rewrite Htext. Qed.



(** ** The further properties, run *)


Lemma download_metadata_only_failed_check_leaves_file_witness :
  ∃ trace trace',
    @download_metadata_only Demo.pandas Cases.empty_member =
      Outcome trace (with_metadata [] Cases.empty_member) (Ok false) ∧
    WriteMetadata [] ∈ trace ∧
    @download_metadata_only Demo.pandas (with_metadata [] Cases.empty_member) =
      Outcome trace' (with_metadata [] Cases.empty_member) (Ok true).
Proof.
  apply (@download_metadata_only_failed_check_leaves_file Demo.pandas
           Cases.empty_member [] ParserError); reflexivity.
Defined.

Lemma download_metadata_only_again_witness :
  ∃ trace w' trace',
    @download_metadata_only Demo.pandas Demo.first_run =
      Outcome trace w' (Ok true) ∧
    @download_metadata_only Demo.pandas w' = Outcome trace' w' (Ok true).
Proof.
  eexists _, _.
  destruct (@download_metadata_only_again Demo.pandas Demo.first_run _ _
              ltac:(vm_compute; reflexivity)) as (trace' & Hagain & _).
  exists trace'. split; [vm_compute; reflexivity|exact Hagain].
Defined.

Lemma download_dataset_true_without_file_witness :
  ∃ trace,
    @download_dataset Demo.pandas Cases.rejected =
      Outcome trace Cases.rejected (Ok true) ∧
    RunSubprocess ∈ trace.
Proof.
  destruct (@download_dataset_true_without_file Demo.pandas Cases.rejected
              eq_refl eq_refl eq_refl (or_introl eq_refl))
    as (trace & Hrun & Hsub & _).
  exists trace. split; [exact Hrun|exact Hsub].
Defined.

Lemma load_and_clean_data_file_not_found_witness :
  ∃ trace,
    @load_and_clean_data Demo.pandas Cases.rejected =
      Outcome trace Cases.rejected (Raise FileNotFoundError).
Proof.
  apply (@load_and_clean_data_file_not_found Demo.pandas Cases.rejected);
    [reflexivity..|by left].
Defined.

Lemma load_and_clean_data_none_witness :
  ∃ trace,
    @load_and_clean_data Demo.pandas Cases.no_python =
      Outcome trace Cases.no_python (Ok None) ∧
    python_starts Cases.no_python = false.
Proof.
  eexists. split; [vm_compute; reflexivity|].
  destruct (@load_and_clean_data_none Demo.pandas Cases.no_python _ _ _
              ltac:(vm_compute; reflexivity)) as [[Hnone _] _].
  destruct (Hnone eq_refl) as [_ [Hpy|Hkag]]; [exact Hpy|discriminate Hkag].
Defined.

Lemma load_and_clean_data_keeps_file_witness :
  ∃ trace r,
    @load_and_clean_data Demo.pandas Demo.later_run =
      Outcome trace Demo.later_run r ∧
    r ≠ Ok None.
Proof.
  eexists _, _. split; [vm_compute; reflexivity|].
  eapply (@load_and_clean_data_keeps_file Demo.pandas Demo.later_run
            Demo.csv_bytes); [reflexivity|].
  vm_compute. reflexivity.
Defined.

Lemma clean_table_missing_required_witness :
  @clean_table Demo.pandas Cases.untitled = Logged [] (Raise (KeyError ["title"])).
Proof.
  rewrite (@clean_table_missing_required Demo.pandas Cases.untitled).
  - reflexivity.
  - intros [Ht _]. revert Ht. apply (bool_decide_unpack _). vm_compute. exact I.
Defined.

Lemma clean_table_missing_abstract_witness :
  @clean_table Demo.pandas Cases.no_abstract =
  Logged [MsgDropped 1] (Raise (KeyError ["abstract"])).
Proof.
  rewrite (@clean_table_missing_abstract Demo.pandas Cases.no_abstract).
  - vm_compute. reflexivity.
  - apply (bool_decide_unpack _). vm_compute. exact I.
  - apply (bool_decide_unpack _). vm_compute. exact I.
  - apply (bool_decide_unpack _). vm_compute. exact I.
Defined.

Lemma clean_table_numeric_abstract_witness :
  ∃ log, @clean_table Demo.pandas Cases.numeric_abstract =
         Logged log (Raise AttributeError).
Proof.
  apply (@clean_table_numeric_abstract Demo.pandas Cases.numeric_abstract).
  - repeat constructor; apply (bool_decide_unpack _); vm_compute; exact I.
  - assert (Hrows : @second_pass Demo.pandas Cases.numeric_abstract =
                    [Cases.numeric_abstract_row]) by (vm_compute; reflexivity).
    rewrite Hrows. intros Hall.
    assert (Hcell : at_label "abstract" Cases.numeric_abstract_row = Num 42)
      by (vm_compute; reflexivity).
    apply Forall_cons in Hall as [[Hna|[s Hs]] _].
    + rewrite Hcell in Hna. discriminate Hna.
    + rewrite Hcell in Hs. discriminate Hs.
Defined.

Lemma printed_year_range_witness :
  ∃ log lo hi,
    @clean_table Demo.pandas Demo.corpus = Logged log (Ok Demo.papers) ∧
    log = [MsgDropped (len Demo.corpus -
                       length (@first_pass Demo.corpus));
           MsgFinalShape (shape Demo.papers); MsgYearRange lo hi].
Proof.
  destruct corpus_cleaned as [log Hclean].
  destruct (@printed_year_range Demo.pandas Demo.corpus log Demo.papers Hclean)
    as (lo & hi & Hlog & _).
  exists log, lo, hi. split; [exact Hclean|exact Hlog].
Defined.

Lemma year_span_of_cleaned_witness :
  year_span Demo.papers = Ok (2018, 2021) ∧
  ∃ r, r ∈ rows Demo.papers ∧ at_label "year" r = Num 2018.
Proof.
  destruct corpus_cleaned as [log Hclean].
  assert (Hspan : year_span Demo.papers = Ok (2018, 2021))
    by (vm_compute; reflexivity).
  split; [exact Hspan|].
  generalize (@year_span_of_cleaned Demo.pandas Demo.corpus log Demo.papers
                Hclean).
  rewrite Hspan. destruct (rows Demo.papers) as [|r0 rs].
  - intros Hbad. discriminate Hbad.
  - intros (lo & hi & Heq & _ & Hlo & _). injection Heq as <- <-. exact Hlo.
Defined.

Lemma filter_by_year_twice_witness :
  ∃ once twice,
    filter_by_year Demo.papers 2018 2020 = Ok once ∧
    filter_by_year once 2020 2021 = Ok twice ∧
    filter_by_year Demo.papers 2020 2020 = Ok twice.
Proof.
  destruct corpus_cleaned as [log Hclean].
  destruct (@filter_by_year_twice Demo.pandas Demo.corpus log Demo.papers
              2018 2020 2020 2021 Hclean)
    as (once & twice & H1 & H2 & H3 & _).
  exists once, twice. split; [exact H1|]. split; [exact H2|exact H3].
Defined.

Lemma summary_of_subset_witness :
  filter_by_year Demo.papers 2020 2021 = Ok Cases.recent ∧
  summary_statistics Cases.recent =
    Ok [TotalPapers 5; AverageWordCount (FVal 4 5)].
Proof.
  destruct corpus_cleaned as [log Hclean].
  assert (Hf : filter_by_year Demo.papers 2020 2021 = Ok Cases.recent)
    by (vm_compute; reflexivity).
  split; [exact Hf|].
  rewrite (@summary_of_subset Demo.pandas Demo.corpus log Demo.papers 2020 2021
             Cases.recent Hclean Hf).
  - vm_compute. reflexivity.
  - intros Hnil. apply (f_equal length) in Hnil. vm_compute in Hnil.
    discriminate Hnil.
Defined.

Lemma publications_per_year_counts_witness :
  ∃ yearly,
    @plot_publications_per_year Demo.in_order Demo.papers (2018, 2021) =
      Ok yearly ∧
    sum_list_with snd yearly = 6%nat.
Proof.
  destruct corpus_cleaned as [log Hclean].
  destruct (@publications_per_year_counts Demo.pandas Demo.in_order Demo.corpus log
              Demo.papers (2018, 2021) Hclean)
    as (filtered & yearly & Hf & Hrun & _ & _ & _ & Hsum).
  exists yearly. split; [exact Hrun|]. rewrite Hsum.
  assert (Heq : Ok filtered = Ok Demo.papers)
    by (rewrite <- Hf; vm_compute; reflexivity).
  injection Heq as ->. vm_compute. reflexivity.
Defined.

Lemma source_distribution_descending_witness :
  ∃ source_counts,
    @plot_source_distribution Demo.in_order Demo.papers (2018, 2021) =
      Ok source_counts ∧
    descending source_counts.
Proof.
  destruct corpus_cleaned as [log Hclean].
  destruct (@source_distribution_descending Demo.pandas Demo.in_order
              Demo.corpus log
              Demo.papers (2018, 2021) Hclean
              ltac:(apply (bool_decide_unpack _); vm_compute; exact I))
    as (filtered & sources & _ & Hrun & Hdesc & _).
  exists sources. split; [exact Hrun|exact Hdesc].
Defined.

Lemma top_journals_are_the_largest_witness :
  @plot_top_journals Demo.in_order Demo.papers (2018, 2021) = Ok Demo.ranking ∧
  NoDup Demo.ranking.*1.
Proof.
  split; [vm_compute; reflexivity|].
  destruct (@top_journals_are_the_largest Demo.in_order Demo.papers (2018, 2021)
              Demo.ranking
              ltac:(vm_compute; reflexivity)) as (filtered & journal & _ & _ & Hnd & _).
  exact Hnd.
Defined.

Lemma wordcloud_text_words_witness :
  ∃ text,
    @plot_wordcloud Cases.rendering Demo.papers (2020, 2020) = Ok text ∧
    text = py "P2 P3 P4".
Proof.
  destruct corpus_cleaned as [log Hclean].
  destruct (@wordcloud_text_words Demo.pandas Cases.rendering Demo.corpus log
              Demo.papers (2020, 2020) Hclean)
    as (filtered & text & _ & Hrun & _).
  exists text. split; [exact Hrun|].
  assert (Heq : Ok text = Ok (py "P2 P3 P4"))
    by (rewrite <- Hrun; vm_compute; reflexivity).
  injection Heq as Heq. exact Heq.
Defined.
